(** * SpyEngine: session state, node resolution, transitions and missions

    A shallow embedding of the session core of the SpyEngine backend:
    - [backend/app/services/state_manager.py] (class [GameState]),
    - [backend/app/services/mission_generator.py],
    - [backend/app/core/game_engine.py] ([GameEngine.make_choice]).

    Conventions of the embedding.
    - Integers are [Z]; database ids are [Z]; timestamps are [Z] read from
      a clock that every operation receives as an argument [now].
    - Python [str] is [string]; one [ascii] stands for one Python character.
    - A nullable attribute is an [option]; Python truthiness ([if x:],
      [not x], [x or y]) is the class [Truthy].
    - A raised exception is the [Raise] constructor of [result]; code that
      mutates [self] returns the new state next to its result.
    - The store is the ORM session's view of the rows: tables whose query
      order matters are lists in storage order, tables read by key are
      [gmap]s.
    - The models ([UserProgress], [Mission], [StoryNode], [PlotArc]) are not
      part of the sources; their columns are the attributes the code reads
      and writes. *)

From Stdlib Require Import ZArith String Ascii List Lia Bool.
From stdpp Require Import base option list gmap strings pretty.

Open Scope string_scope.
Open Scope list_scope.
Open Scope Z_scope.

(** ** Python preliminaries *)

Inductive exn : Type :=
| ValueError
| TypeError
| KeyError
| AttributeError
| RuntimeError.

Inductive result (A : Type) : Type :=
| Ok (a : A)
| Raise (e : exn).
Arguments Ok {A} a.
Arguments Raise {A} e.

#[global] Instance result_ret : MRet result := fun _ a => Ok a.
#[global] Instance result_bind : MBind result := fun _ _ f m =>
  match m with
  | Ok a => f a
  | Raise e => Raise e
  end.

Definition is_ok {A} (r : result A) : bool :=
  match r with Ok _ => true | Raise _ => false end.

(** Truthiness of a Python value, as tested by [if], [not], [and], [or]. *)
Class Truthy (A : Type) := truthy : A -> bool.

#[global] Instance truthy_Z : Truthy Z := fun z => negb (z =? 0).
#[global] Instance truthy_string : Truthy string := fun s =>
  match s with EmptyString => false | _ => true end.
#[global] Instance truthy_list {A} : Truthy (list A) := fun l =>
  match l with [] => false | _ => true end.
#[global] Instance truthy_option {A} `{Truthy A} : Truthy (option A) := fun o =>
  match o with None => false | Some a => truthy a end.

(** [x or y] on nullable values. *)
Definition py_or {A} `{Truthy A} (x y : option A) : option A :=
  if truthy x then x else y.

(** [s[:n]] and the [text[:n]] followed by an ellipsis that the context
    assembler uses. *)
Definition py_slice (n : nat) (s : string) : string := String.substring 0 n s.

Definition truncate_text (n : nat) (s : string) : string :=
  let truncated_text := py_slice n s in
  if (n <? String.length s)%nat then truncated_text +:+ "..." else truncated_text.

(** ["\n".join(parts)] *)
Definition newline : string := String (ascii_of_nat 10) EmptyString.
Definition py_join (sep : string) (parts : list string) : string :=
  String.concat sep parts.

(** [l.remove(x)]: drops the first occurrence (the caller checks [x in l]). *)
Fixpoint list_remove_first (x : Z) (l : list Z) : list Z :=
  match l with
  | [] => []
  | y :: l' => if y =? x then l' else y :: list_remove_first x l'
  end.

Definition py_in (x : Z) (l : list Z) : bool := existsb (Z.eqb x) l.

(** ** Data model *)

(** One entry of [branch_metadata["encountered_characters"]]; a missing
    key is [None]. *)
Module CharInfo.
Record t : Type := mk {
  id : option Z;
  name : option string;
  backstory : option string;
  plot_lines : option (list string)
}.
End CharInfo.

(** The snapshot kept per character id in
    [UserProgress.encountered_characters]. *)
Module CharSnapshot.
Record t : Type := mk {
  name : string;
  backstory : string;
  plot_lines : list string
}.
End CharSnapshot.

(** [branch_metadata["mission_info"]]; a missing key is [None]. *)
Module MissionInfo.
Record t : Type := mk {
  title : option string;
  objective : option string;
  status : option string;
  progress : option Z
}.
End MissionInfo.

(** The keys of [StoryNode.branch_metadata] that the session core reads. *)
Module Metadata.
Record t : Type := mk {
  encountered_characters : option (list CharInfo.t);
  mission_info : option MissionInfo.t
}.
End Metadata.

Module StoryNode.
Record t : Type := mk {
  id : Z;
  story_id : Z;
  parent_node_id : option Z;
  narrative_text : option string;
  created_at : Z;
  branch_metadata : option Metadata.t
}.
End StoryNode.

Module StoryGeneration.
Record t : Type := mk {
  id : Z;
  primary_conflict : string;
  setting : string;
  narrative_style : string;
  mood : string
}.
End StoryGeneration.

Module PlotArc.
Record t : Type := mk {
  story_id : Z;
  status : string;
  key_nodes : option (list Z)
}.
End PlotArc.

(** One entry of [Mission.progress_updates]. *)
Module ProgressUpdate.
Record t : Type := mk {
  progress : option Z;
  status : string;
  timestamp : Z;
  description : option string;
  reason : option string
}.
End ProgressUpdate.

Module Mission.
Record t : Type := mk {
  id : Z;
  user_id : string;
  title : string;
  objective : string;
  giver_id : option Z;
  target_id : option Z;
  status : string;
  difficulty : string;
  progress : Z;
  progress_updates : option (list ProgressUpdate.t);
  reward_currency : string;
  reward_amount : Z;
  completed_at : option Z;
  story_id : option Z
}.

Definition set_status (v : string) (m : t) : t :=
  mk (id m) (user_id m) (title m) (objective m) (giver_id m) (target_id m) v
     (difficulty m) (progress m) (progress_updates m) (reward_currency m)
     (reward_amount m) (completed_at m) (story_id m).
Definition set_progress (v : Z) (m : t) : t :=
  mk (id m) (user_id m) (title m) (objective m) (giver_id m) (target_id m)
     (status m) (difficulty m) v (progress_updates m) (reward_currency m)
     (reward_amount m) (completed_at m) (story_id m).
Definition set_progress_updates (v : option (list ProgressUpdate.t)) (m : t) : t :=
  mk (id m) (user_id m) (title m) (objective m) (giver_id m) (target_id m)
     (status m) (difficulty m) (progress m) v (reward_currency m)
     (reward_amount m) (completed_at m) (story_id m).
Definition set_completed_at (v : option Z) (m : t) : t :=
  mk (id m) (user_id m) (title m) (objective m) (giver_id m) (target_id m)
     (status m) (difficulty m) (progress m) (progress_updates m)
     (reward_currency m) (reward_amount m) v (story_id m).
End Mission.

(** Derived per-character relationship state (spec, data model). *)
Module RelationshipRecord.
Record t : Type := mk {
  relationship_level : Z;
  trust_level : Z;
  loyalty_level : Z;
  last_interaction : option Z
}.
Definition zero : t := mk 0 0 0 None.
End RelationshipRecord.

Module UserProgress.
Record t : Type := mk {
  user_id : string;
  current_story_id : option Z;
  current_node_id : option Z;
  node_count : Z;
  last_active : option Z;
  choice_history : option (list Z);
  encountered_characters : option (gmap string CharSnapshot.t);
  active_missions : option (list Z);
  completed_missions : option (list Z);
  failed_missions : option (list Z);
  currency_balances : gmap string Z;
  level : Z;
  experience_points : Z;
  relationships : gmap Z RelationshipRecord.t
}.

Definition set_current_node_id (v : option Z) (u : t) : t :=
  mk (user_id u) (current_story_id u) v (node_count u) (last_active u)
     (choice_history u) (encountered_characters u) (active_missions u)
     (completed_missions u) (failed_missions u) (currency_balances u)
     (level u) (experience_points u) (relationships u).
Definition set_node_count (v : Z) (u : t) : t :=
  mk (user_id u) (current_story_id u) (current_node_id u) v (last_active u)
     (choice_history u) (encountered_characters u) (active_missions u)
     (completed_missions u) (failed_missions u) (currency_balances u)
     (level u) (experience_points u) (relationships u).
Definition set_last_active (v : option Z) (u : t) : t :=
  mk (user_id u) (current_story_id u) (current_node_id u) (node_count u) v
     (choice_history u) (encountered_characters u) (active_missions u)
     (completed_missions u) (failed_missions u) (currency_balances u)
     (level u) (experience_points u) (relationships u).
Definition set_choice_history (v : option (list Z)) (u : t) : t :=
  mk (user_id u) (current_story_id u) (current_node_id u) (node_count u)
     (last_active u) v (encountered_characters u) (active_missions u)
     (completed_missions u) (failed_missions u) (currency_balances u)
     (level u) (experience_points u) (relationships u).
Definition set_encountered_characters
    (v : option (gmap string CharSnapshot.t)) (u : t) : t :=
  mk (user_id u) (current_story_id u) (current_node_id u) (node_count u)
     (last_active u) (choice_history u) v (active_missions u)
     (completed_missions u) (failed_missions u) (currency_balances u)
     (level u) (experience_points u) (relationships u).
Definition set_active_missions (v : option (list Z)) (u : t) : t :=
  mk (user_id u) (current_story_id u) (current_node_id u) (node_count u)
     (last_active u) (choice_history u) (encountered_characters u) v
     (completed_missions u) (failed_missions u) (currency_balances u)
     (level u) (experience_points u) (relationships u).
Definition set_completed_missions (v : option (list Z)) (u : t) : t :=
  mk (user_id u) (current_story_id u) (current_node_id u) (node_count u)
     (last_active u) (choice_history u) (encountered_characters u)
     (active_missions u) v (failed_missions u) (currency_balances u)
     (level u) (experience_points u) (relationships u).
Definition set_failed_missions (v : option (list Z)) (u : t) : t :=
  mk (user_id u) (current_story_id u) (current_node_id u) (node_count u)
     (last_active u) (choice_history u) (encountered_characters u)
     (active_missions u) (completed_missions u) v (currency_balances u)
     (level u) (experience_points u) (relationships u).
Definition set_currency_balances (v : gmap string Z) (u : t) : t :=
  mk (user_id u) (current_story_id u) (current_node_id u) (node_count u)
     (last_active u) (choice_history u) (encountered_characters u)
     (active_missions u) (completed_missions u) (failed_missions u) v
     (level u) (experience_points u) (relationships u).
Definition set_level_experience (v : Z * Z) (u : t) : t :=
  mk (user_id u) (current_story_id u) (current_node_id u) (node_count u)
     (last_active u) (choice_history u) (encountered_characters u)
     (active_missions u) (completed_missions u) (failed_missions u)
     (currency_balances u) (fst v) (snd v) (relationships u).
Definition set_relationships (v : gmap Z RelationshipRecord.t) (u : t) : t :=
  mk (user_id u) (current_story_id u) (current_node_id u) (node_count u)
     (last_active u) (choice_history u) (encountered_characters u)
     (active_missions u) (completed_missions u) (failed_missions u)
     (currency_balances u) (level u) (experience_points u) v.
End UserProgress.

(** The rows the session core reads and writes. *)
Module DB.
Record t : Type := mk {
  nodes : list StoryNode.t;
  stories : list StoryGeneration.t;
  plot_arcs : list PlotArc.t;
  missions : gmap Z Mission.t;
  users : gmap string UserProgress.t
}.

Definition set_nodes (v : list StoryNode.t) (d : t) : t :=
  mk v (stories d) (plot_arcs d) (missions d) (users d).
Definition set_missions (v : gmap Z Mission.t) (d : t) : t :=
  mk (nodes d) (stories d) (plot_arcs d) v (users d).
Definition set_users (v : gmap string UserProgress.t) (d : t) : t :=
  mk (nodes d) (stories d) (plot_arcs d) (missions d) v.
End DB.

(** [StoryNode.query.get(id)] and [StoryGeneration.query.get(id)]. *)
Definition node_get (db : DB.t) (i : Z) : option StoryNode.t :=
  List.find (fun n => StoryNode.id n =? i) (DB.nodes db).

Definition story_get (db : DB.t) (i : Z) : option StoryGeneration.t :=
  List.find (fun s => StoryGeneration.id s =? i) (DB.stories db).

(** ** state_manager.py: GameState *)

Module HistoryEntry.
Record t : Type := mk {
  id : Z;
  narrative_text : option string;
  timestamp : Z
}.
End HistoryEntry.

Module GameState.
Record t : Type := mk {
  user_id : string;
  user_progress : UserProgress.t;
  current_story : option StoryGeneration.t;
  current_node : option StoryNode.t;
  active_missions : list Mission.t;
  _node_count : Z;
  _story_history_buffer : list HistoryEntry.t
}.

Definition set_user_progress (v : UserProgress.t) (s : t) : t :=
  mk (user_id s) v (current_story s) (current_node s) (active_missions s)
     (_node_count s) (_story_history_buffer s).
Definition set_current_story (v : option StoryGeneration.t) (s : t) : t :=
  mk (user_id s) (user_progress s) v (current_node s) (active_missions s)
     (_node_count s) (_story_history_buffer s).
Definition set_current_node (v : option StoryNode.t) (s : t) : t :=
  mk (user_id s) (user_progress s) (current_story s) v (active_missions s)
     (_node_count s) (_story_history_buffer s).
Definition set_active_missions (v : list Mission.t) (s : t) : t :=
  mk (user_id s) (user_progress s) (current_story s) (current_node s) v
     (_node_count s) (_story_history_buffer s).
Definition set_node_count (v : Z) (s : t) : t :=
  mk (user_id s) (user_progress s) (current_story s) (current_node s)
     (active_missions s) v (_story_history_buffer s).
Definition set_story_history_buffer (v : list HistoryEntry.t) (s : t) : t :=
  mk (user_id s) (user_progress s) (current_story s) (current_node s)
     (active_missions s) (_node_count s) v.
End GameState.

(** [self._max_history_nodes = 3] *)
Definition _max_history_nodes : nat := 3.

Definition get_node_count (st : GameState.t) : Z := GameState._node_count st.

#[global] Instance truthy_gmap {K V} `{Countable K} : Truthy (gmap K V) :=
  fun m => negb (Nat.eqb (size m) 0).

(** After [db.session.rollback()] the session's objects are expired: their
    attributes are read again from the committed rows. *)
Definition expire_user_progress (db : DB.t) (st : GameState.t) : GameState.t :=
  GameState.set_user_progress
    (default (GameState.user_progress st) (DB.users db !! GameState.user_id st)) st.

(** *** GameState.increment_node_count

    The function works on the committed rows [db] and on the session's view
    [sess] of them, and returns both.  [db.session.commit()] makes the
    session's view the committed rows ("Persisted node_count ... to
    database").  [commit_ok] tells whether it succeeds; when it raises, the
    handler rolls the session back, and the incremented in-memory count is
    returned all the same. *)
Definition increment_node_count (commit_ok : bool) (db sess : DB.t)
    (st : GameState.t) : Z * (DB.t * DB.t) * GameState.t :=
  let st := GameState.set_node_count (GameState._node_count st + 1) st in
  let up := UserProgress.set_node_count (GameState._node_count st)
              (GameState.user_progress st) in
  let st := GameState.set_user_progress up st in
  let sess := DB.set_users (<[GameState.user_id st := up]> (DB.users sess)) sess in
  if commit_ok
  then (GameState._node_count st, (sess, sess), st)
  else (GameState._node_count st, (db, db), expire_user_progress db st).

(** *** GameState.resolve_current_node *)

(** [StoryNode.query.filter_by(story_id=t).order_by(created_at.desc()).first()]:
    a row of the story with the greatest [created_at]; among rows of equal
    timestamp the first in storage order is taken. *)
Definition latest_node_step (t : Z) (best : option StoryNode.t)
    (n : StoryNode.t) : option StoryNode.t :=
  if StoryNode.story_id n =? t then
    match best with
    | None => Some n
    | Some b => if StoryNode.created_at b <? StoryNode.created_at n
                then Some n else Some b
    end
  else best.

Definition latest_node (db : DB.t) (t : Z) : option StoryNode.t :=
  fold_left (latest_node_step t) (DB.nodes db) None.

(** [StoryNode.query.filter_by(story_id=t, parent_node_id=None).first()] *)
Definition root_node (db : DB.t) (t : Z) : option StoryNode.t :=
  List.find (fun n => (StoryNode.story_id n =? t) &&
                      match StoryNode.parent_node_id n with
                      | None => true
                      | Some _ => false
                      end) (DB.nodes db).

Definition resolve_current_node_body (db : DB.t) (st : GameState.t)
    (story_id : option Z) : result StoryNode.t :=
  let target_story_id :=
    py_or story_id (StoryGeneration.id <$> GameState.current_story st) in
  if negb (truthy target_story_id) then Raise ValueError else
  match target_story_id with
  | None => Raise ValueError
  | Some target =>
    match story_get db target with
    | None => Raise ValueError
    | Some story =>
      (* Priority 1: user's current node *)
      let current_node_id := UserProgress.current_node_id (GameState.user_progress st) in
      let priority1 :=
        if truthy current_node_id then
          match current_node_id ≫= node_get db with
          | Some node =>
              if StoryNode.story_id node =? target then Some node else None
          | None => None
          end
        else None in
      match priority1 with
      | Some node => Ok node
      | None =>
        (* Priority 2: latest node for story *)
        match latest_node db target with
        | Some latest => Ok latest
        | None =>
          (* Priority 3: root node *)
          match root_node db target with
          | Some root => Ok root
          | None => Raise ValueError
          end
        end
      end
    end
  end.

(** The [except Exception] handler turns every raise into [None]. *)
Definition resolve_current_node (db : DB.t) (st : GameState.t)
    (story_id : option Z) : option StoryNode.t :=
  match resolve_current_node_body db st story_id with
  | Ok node => Some node
  | Raise _ => None
  end.

(** *** GameState._update_story_history

    The guard [if not node: return] never fires: the caller passes a node. *)
Definition _update_story_history (node : StoryNode.t) (now : Z)
    (st : GameState.t) : GameState.t :=
  let history_entry :=
    HistoryEntry.mk (StoryNode.id node) (StoryNode.narrative_text node) now in
  let buffer := GameState._story_history_buffer st ++ [history_entry] in
  let buffer :=
    if (_max_history_nodes <? length buffer)%nat then tail buffer else buffer in
  GameState.set_story_history_buffer buffer st.

(** *** GameState.transition_to_node *)

(** [str(char.get("id"))] *)
Definition str_id (o : option Z) : string :=
  match o with
  | Some z => pretty z
  | None => "None"
  end.

Definition snapshot_of (char : CharInfo.t) : CharSnapshot.t :=
  CharSnapshot.mk (default "Unknown" (CharInfo.name char))
                  (default "" (CharInfo.backstory char))
                  (default [] (CharInfo.plot_lines char)).

(** The loop [for char in new_chars: ... if cid not in ...: ... = {...}]. *)
Definition merge_encountered_step (m : gmap string CharSnapshot.t)
    (char : CharInfo.t) : gmap string CharSnapshot.t :=
  let cid := str_id (CharInfo.id char) in
  match m !! cid with
  | Some _ => m
  | None => <[cid := snapshot_of char]> m
  end.

Definition merge_encountered_characters (new_chars : list CharInfo.t)
    (m : gmap string CharSnapshot.t) : gmap string CharSnapshot.t :=
  fold_left merge_encountered_step new_chars m.

(** The block "Merge encountered characters into user progress". *)
Definition record_encountered_characters (new_node : StoryNode.t)
    (up : UserProgress.t) : UserProgress.t :=
  match StoryNode.branch_metadata new_node with
  | Some md =>
      let new_chars := default [] (Metadata.encountered_characters md) in
      if truthy new_chars then
        let up := if negb (truthy (UserProgress.encountered_characters up))
                  then UserProgress.set_encountered_characters (Some ∅) up
                  else up in
        UserProgress.set_encountered_characters
          (Some (merge_encountered_characters new_chars
                   (default ∅ (UserProgress.encountered_characters up)))) up
      else up
  | None => up
  end.

(** The block under [if update_progress:]. *)
Definition update_user_progress (new_node : StoryNode.t) (node_id : Z)
    (now : Z) (up : UserProgress.t) : UserProgress.t :=
  let up := UserProgress.set_current_node_id (Some node_id) up in
  let up := UserProgress.set_last_active (Some now) up in
  let up := if negb (truthy (UserProgress.choice_history up))
            then UserProgress.set_choice_history (Some []) up else up in
  let choice_history := default [] (UserProgress.choice_history up) in
  let up := if negb (py_in node_id choice_history)
            then UserProgress.set_choice_history
                   (Some (choice_history ++ [node_id])) up
            else up in
  record_encountered_characters new_node up.

Definition transition_to_node (db : DB.t) (node_id : Z)
    (update_progress : bool) (now : Z) (st : GameState.t)
    : result bool * GameState.t :=
  match node_get db node_id with
  | None => (Raise ValueError, st)
  | Some new_node =>
      let st := match GameState.current_node st with
                | Some cur => _update_story_history cur now st
                | None => st
                end in
      let st := GameState.set_current_node (Some new_node) st in
      let st := if update_progress
                then GameState.set_user_progress
                       (update_user_progress new_node node_id now
                          (GameState.user_progress st)) st
                else st in
      (Ok true, st)
  end.

(** *** GameState.get_enhanced_context *)

(** [PlotArc.query.filter(story_id == ..., status == 'active').all()] and the
    loop that extends [key_node_ids]. *)
Definition active_plot_arcs (db : DB.t) (story_id : Z) : list PlotArc.t :=
  List.filter (fun arc => (PlotArc.story_id arc =? story_id) &&
                          String.eqb (PlotArc.status arc) "active")
              (DB.plot_arcs db).

Definition collect_key_node_ids (plot_arcs : list PlotArc.t) : list Z :=
  flat_map (fun arc => if truthy (PlotArc.key_nodes arc)
                       then default [] (PlotArc.key_nodes arc) else [])
           plot_arcs.

(** The [while parent_id and ancestor_count < 5] loop; [budget] is
    [5 - ancestor_count].  The result is in the order of the appends
    (nearest ancestor first). *)
Fixpoint collect_ancestors (db : DB.t) (budget : nat) (parent_id : option Z)
    : list StoryNode.t :=
  match budget with
  | O => []
  | S budget' =>
      if truthy parent_id then
        match parent_id ≫= node_get db with
        | Some parent =>
            parent :: collect_ancestors db budget' (StoryNode.parent_node_id parent)
        | None => []
        end
      else []
  end.

(** [for i, node in enumerate(nodes, i): ... f"{label} {i}: {truncated_text}"];
    slicing a missing text raises [TypeError]. *)
Fixpoint format_nodes (label : string) (cap : nat) (i : nat)
    (nodes : list StoryNode.t) : result (list string) :=
  match nodes with
  | [] => Ok []
  | node :: rest =>
      match StoryNode.narrative_text node with
      | None => Raise TypeError
      | Some text =>
          lines ← format_nodes label cap (S i) rest;
          Ok ((label +:+ " " +:+ pretty i +:+ ": " +:+ truncate_text cap text)
                :: lines)
      end
  end.

Definition mission_lines (current_node : StoryNode.t) : list string :=
  match StoryNode.branch_metadata current_node ≫= Metadata.mission_info with
  | Some mission_info =>
      [ "CURRENT MISSION:";
        "Title: " +:+ default "Unknown" (MissionInfo.title mission_info);
        "Objective: " +:+ default "Unknown" (MissionInfo.objective mission_info);
        "Status: " +:+ default "Unknown" (MissionInfo.status mission_info);
        "Progress: " +:+ pretty (default 0 (MissionInfo.progress mission_info))
                     +:+ "%";
        "" ]
  | None => []
  end.

Definition get_enhanced_context_body (db : DB.t) (node_id : Z)
    : result string :=
  match node_get db node_id with
  | None => Ok ""
  | Some current_node =>
      (* 1. key nodes from active plot arcs *)
      let key_node_ids :=
        collect_key_node_ids (active_plot_arcs db (StoryNode.story_id current_node)) in
      (* 2. ancestors, reversed into chronological order *)
      let ancestor_nodes :=
        rev (collect_ancestors db 5 (StoryNode.parent_node_id current_node)) in
      (* 3. context sections *)
      let context_parts : list string := [] in
      context_parts ←
        (if truthy key_node_ids then
           let key_nodes :=
             List.filter (fun n => py_in (StoryNode.id n) key_node_ids) (DB.nodes db) in
           if truthy key_nodes then
             lines ← format_nodes "MOMENT" 300 1 key_nodes;
             Ok (context_parts ++ ["KEY PLOT POINTS:"] ++ lines ++ [""])
           else Ok context_parts
         else Ok context_parts);
      context_parts ←
        (if truthy ancestor_nodes then
           lines ← format_nodes "SCENE" 200 1 ancestor_nodes;
           Ok (context_parts ++ ["RECENT STORY HISTORY:"] ++ lines ++ [""])
         else Ok context_parts);
      let context_parts := context_parts ++ mission_lines current_node in
      Ok (py_join newline context_parts)
  end.

(** [max_tokens] is accepted and not used by the source. *)
Definition get_enhanced_context (db : DB.t) (node_id : Z) (max_tokens : Z)
    : string :=
  match get_enhanced_context_body db node_id with
  | Ok combined_context => combined_context
  | Raise _ => ""
  end.

(** *** GameState.reload_state

    [db.session.refresh] needs the user's row; it raises when the row is
    gone. *)
Definition reload_state (sess : DB.t) (st : GameState.t) : result GameState.t :=
  match DB.users sess !! GameState.user_id st with
  | None => Raise RuntimeError
  | Some up =>
      let st := GameState.set_user_progress up st in
      let st := match UserProgress.current_story_id up with
                | Some sid => if truthy sid
                              then GameState.set_current_story (story_get sess sid) st
                              else st
                | None => st
                end in
      let st := match UserProgress.current_node_id up with
                | Some nid => if truthy nid
                              then GameState.set_current_node (node_get sess nid) st
                              else st
                | None => st
                end in
      let st := if truthy (UserProgress.active_missions up)
                then GameState.set_active_missions
                       (List.filter
                          (fun m => py_in (Mission.id m)
                                      (default [] (UserProgress.active_missions up)) &&
                                    String.eqb (Mission.user_id m) (GameState.user_id st))
                          (map_to_list (DB.missions sess)).*2) st
                else st in
      Ok (GameState.set_node_count (UserProgress.node_count up) st)
  end.

(** ** mission_generator.py *)

(** Modelled from the spec: [UserProgress.change_character_relationship] is
    a method of the [UserProgress] model, which is not part of the sources.
    Following the relationship overlay of the spec (section 4.6): the record
    of the character is created on first use with level 0, the delta is added
    without clamping, and the time of the interaction is recorded. *)
Definition change_character_relationship (character_id : Z) (change_amount : Z)
    (now : Z) (up : UserProgress.t) : UserProgress.t :=
  let record := default RelationshipRecord.zero
                  (UserProgress.relationships up !! character_id) in
  let record :=
    RelationshipRecord.mk
      (RelationshipRecord.relationship_level record + change_amount)
      (RelationshipRecord.trust_level record)
      (RelationshipRecord.loyalty_level record)
      (Some now) in
  UserProgress.set_relationships
    (<[character_id := record]> (UserProgress.relationships up)) up.

(** [get_relationship]: the zero record for a character never met. *)
Definition relationship_level (up : UserProgress.t) (character_id : Z) : Z :=
  RelationshipRecord.relationship_level
    (default RelationshipRecord.zero
       (UserProgress.relationships up !! character_id)).

Definition get_mission_by_id (db : DB.t) (mission_id : Z) : option Mission.t :=
  DB.missions db !! mission_id.

(** [xp_rewards.get(mission.difficulty, 50)] *)
Definition xp_rewards (difficulty : string) : Z :=
  if String.eqb difficulty "easy" then 50
  else if String.eqb difficulty "medium" then 100
  else if String.eqb difficulty "hard" then 200
  else 50.

(** The steps of the outcome functions on the user's row. *)

(** "Move mission from active to completed list" *)
Definition move_to_completed (mission_id : Z) (up : UserProgress.t)
    : UserProgress.t :=
  let up := if negb (truthy (UserProgress.active_missions up))
            then UserProgress.set_active_missions (Some []) up else up in
  let up := if negb (truthy (UserProgress.completed_missions up))
            then UserProgress.set_completed_missions (Some []) up else up in
  let active := default [] (UserProgress.active_missions up) in
  let up := if py_in mission_id active
            then UserProgress.set_active_missions
                   (Some (list_remove_first mission_id active)) up
            else up in
  UserProgress.set_completed_missions
    (Some (default [] (UserProgress.completed_missions up) ++ [mission_id])) up.

(** "Move mission from active to failed list" *)
Definition move_to_failed (mission_id : Z) (up : UserProgress.t)
    : UserProgress.t :=
  let up := if negb (truthy (UserProgress.active_missions up))
            then UserProgress.set_active_missions (Some []) up else up in
  let up := if negb (truthy (UserProgress.failed_missions up))
            then UserProgress.set_failed_missions (Some []) up else up in
  let active := default [] (UserProgress.active_missions up) in
  let up := if py_in mission_id active
            then UserProgress.set_active_missions
                   (Some (list_remove_first mission_id active)) up
            else up in
  UserProgress.set_failed_missions
    (Some (default [] (UserProgress.failed_missions up) ++ [mission_id])) up.

(** "Add currency reward" *)
Definition add_currency_reward (currency : string) (amount : Z)
    (up : UserProgress.t) : UserProgress.t :=
  let balances := UserProgress.currency_balances up in
  match balances !! currency with
  | Some balance =>
      UserProgress.set_currency_balances (<[currency := balance + amount]> balances) up
  | None =>
      UserProgress.set_currency_balances (<[currency := amount]> balances) up
  end.

(** [if mission.giver_id: user_progress.change_character_relationship(...)],
    and the same for the target. *)
Definition adjust_relationship (character_id : option Z) (change_amount : Z)
    (now : Z) (up : UserProgress.t) : UserProgress.t :=
  match character_id with
  | Some c => if truthy c
              then change_character_relationship c change_amount now up
              else up
  | None => up
  end.

Definition completed_update (now : Z) : ProgressUpdate.t :=
  ProgressUpdate.mk (Some 100) "completed" now
                    (Some "Mission successfully completed!") None.

Definition failed_update (now : Z) (reason : option string) : ProgressUpdate.t :=
  ProgressUpdate.mk None "failed" now None
                    (if truthy reason then reason else None).

(** "Add progress update" *)
Definition append_progress_update (update : ProgressUpdate.t) (mission : Mission.t)
    : Mission.t :=
  let mission := if negb (truthy (Mission.progress_updates mission))
                 then Mission.set_progress_updates (Some []) mission
                 else mission in
  Mission.set_progress_updates
    (Some (default [] (Mission.progress_updates mission) ++ [update])) mission.

Section MissionOutcomes.

(** [UserProgress.add_experience_points] is not part of the sources; it is
  taken as a function on the [level] and [experience_points] columns. *)
Variable add_experience_points : Z * Z -> Z -> Z * Z.

(** The block under [if user_progress:] of [complete_mission]. *)
Definition reward_user (mission : Mission.t) (now : Z) (up : UserProgress.t)
  : UserProgress.t :=
let up := move_to_completed (Mission.id mission) up in
let up := add_currency_reward (Mission.reward_currency mission)
                              (Mission.reward_amount mission) up in
(* Add experience points (based on difficulty) *)
let up := UserProgress.set_level_experience
            (add_experience_points
               (UserProgress.level up, UserProgress.experience_points up)
               (xp_rewards (Mission.difficulty mission))) up in
(* Improve relationship with mission giver *)
let up := adjust_relationship (Mission.giver_id mission) 2 now up in
(* Worsen relationship with target *)
adjust_relationship (Mission.target_id mission) (-3) now up.

Definition complete_mission (db : DB.t) (mission_id : Z) (user_id : string)
  (now : Z) : bool * DB.t :=
match get_mission_by_id db mission_id with
| None => (false, db)
| Some mission =>
    if negb (String.eqb (Mission.status mission) "active") then (false, db)
    else
      (* Update mission status *)
      let mission := Mission.set_status "completed" mission in
      let mission := Mission.set_completed_at (Some now) mission in
      let mission := Mission.set_progress 100 mission in
      let mission := append_progress_update (completed_update now) mission in
      let db := DB.set_missions (<[mission_id := mission]> (DB.missions db)) db in
      (* Award reward to user *)
      let db := match DB.users db !! user_id with
                | Some user_progress =>
                    DB.set_users
                      (<[user_id := reward_user mission now user_progress]>
                         (DB.users db)) db
                | None => db
                end in
      (true, db)
end.

(** The block under [if user_progress:] of [fail_mission]. *)
Definition penalise_user (mission : Mission.t) (now : Z) (up : UserProgress.t)
  : UserProgress.t :=
let up := move_to_failed (Mission.id mission) up in
(* Worsen relationship with mission giver *)
adjust_relationship (Mission.giver_id mission) (-1) now up.

Definition fail_mission (db : DB.t) (mission_id : Z) (user_id : string)
  (reason : option string) (now : Z) : bool * DB.t :=
match get_mission_by_id db mission_id with
| None => (false, db)
| Some mission =>
    if negb (String.eqb (Mission.status mission) "active") then (false, db)
    else
      let mission := Mission.set_status "failed" mission in
      let mission := append_progress_update (failed_update now reason) mission in
      let db := DB.set_missions (<[mission_id := mission]> (DB.missions db)) db in
      let db := match DB.users db !! user_id with
                | Some user_progress =>
                    DB.set_users
                      (<[user_id := penalise_user mission now user_progress]>
                         (DB.users db)) db
                | None => db
                end in
      (true, db)
end.

End MissionOutcomes.

(** *** extract_mission_details *)

(** String methods used by the extraction. *)
Definition quote_char : ascii := ascii_of_nat 34.
Definition comma_char : ascii := ascii_of_nat 44.

Definition is_space (a : ascii) : bool :=
  let n := nat_of_ascii a in
  ((9 <=? n) && (n <=? 13) || (n =? 32))%nat.

Fixpoint lstrip_by (p : ascii -> bool) (s : string) : string :=
  match s with
  | EmptyString => EmptyString
  | String a s' => if p a then lstrip_by p s' else s
  end.

Definition str_reverse (s : string) : string :=
  string_of_list_ascii (rev (list_ascii_of_string s)).

(** [s.strip(chars)] for the characters accepted by [p]. *)
Definition strip_by (p : ascii -> bool) (s : string) : string :=
  str_reverse (lstrip_by p (str_reverse (lstrip_by p s))).

(** [s.replace(",", "")] *)
Fixpoint remove_char (c : ascii) (s : string) : string :=
  match s with
  | EmptyString => EmptyString
  | String a s' => if Ascii.eqb a c then remove_char c s'
                   else String a (remove_char c s')
  end.

(** [s.replace("'s", "")] *)
Fixpoint remove_possessive (s : string) : string :=
  match s with
  | EmptyString => EmptyString
  | String a tl =>
      match tl with
      | String b rest =>
          if Ascii.eqb a "'"%char && Ascii.eqb b "s"%char
          then remove_possessive rest
          else String a (remove_possessive tl)
      | EmptyString => String a EmptyString
      end
  end.

(** [needle in s] *)
Fixpoint str_contains (needle s : string) : bool :=
  String.prefix needle s ||
  match s with
  | EmptyString => false
  | String _ s' => str_contains needle s'
  end.

Definition lower_char (a : ascii) : ascii :=
  let n := nat_of_ascii a in
  if ((65 <=? n) && (n <=? 90))%nat then ascii_of_nat (n + 32) else a.

Fixpoint str_lower (s : string) : string :=
  match s with
  | EmptyString => EmptyString
  | String a s' => String (lower_char a) (str_lower s')
  end.

(** [int(s)] on the text of a digit group; anything else is a
    [ValueError]. *)
Definition digit_of (a : ascii) : option Z :=
  let n := nat_of_ascii a in
  if ((48 <=? n) && (n <=? 57))%nat then Some (Z.of_nat (n - 48)) else None.

Fixpoint py_int_digits (acc : Z) (s : string) : option Z :=
  match s with
  | EmptyString => Some acc
  | String a s' =>
      match digit_of a with
      | Some d => py_int_digits (10 * acc + d) s'
      | None => None
      end
  end.

Definition py_int (s : string) : result Z :=
  match s with
  | EmptyString => Raise ValueError
  | _ => match py_int_digits 0 s with
         | Some z => Ok z
         | None => Raise ValueError
         end
  end.

(** The regular expressions of the module, by the list they come from and
    their position in it. *)
Inductive pattern : Type :=
| dialogue_pattern (giver_name : string)
| villain_pattern (i : nat)
| objective_pattern (i : nat)
| deadline_pattern (i : nat)
| reward_pattern (i : nat)
| general_giver_pattern
| general_target_pattern
| general_objective_pattern
| general_reward_pattern.

Definition villain_patterns : list pattern := map villain_pattern (seq 0 2).
Definition objective_patterns : list pattern := map objective_pattern (seq 0 5).
Definition deadline_patterns : list pattern := map deadline_pattern (seq 0 4).
Definition reward_patterns : list pattern := map reward_pattern (seq 0 4).

(** The [re] module, by the shape of what the caller reads from a match:
    [finditer1] yields [group(1)] of every match; [search1] and [search2]
    yield the one or two groups of the first match (groups that take part in
    every match of their pattern); [search_alt] yields the two alternative
    groups of the general target pattern, of which one is unset. *)
Record RegexEngine : Type := {
  finditer1 : pattern -> string -> list string;
  search1 : pattern -> string -> option string;
  search2 : pattern -> string -> option (string * string);
  search_alt : pattern -> string -> option (option string * option string)
}.

(** An entry of the [characters] argument. *)
Module CharacterDict.
Record t : Type := mk {
  id : option Z;
  character_name : option string;
  name : option string;
  character_role : option string
}.
End CharacterDict.

Module MissionDetails.
Record t : Type := mk {
  giver : option string;
  giver_id : option Z;
  target : option string;
  target_id : option Z;
  objective : string;
  deadline : string;
  reward_amount : Z;
  reward_currency : string;
  difficulty : string
}.

Definition set_giver (v : option string) (d : t) : t :=
  mk v (giver_id d) (target d) (target_id d) (objective d) (deadline d)
     (reward_amount d) (reward_currency d) (difficulty d).
Definition set_giver_id (v : option Z) (d : t) : t :=
  mk (giver d) v (target d) (target_id d) (objective d) (deadline d)
     (reward_amount d) (reward_currency d) (difficulty d).
Definition set_target (v : option string) (d : t) : t :=
  mk (giver d) (giver_id d) v (target_id d) (objective d) (deadline d)
     (reward_amount d) (reward_currency d) (difficulty d).
Definition set_target_id (v : option Z) (d : t) : t :=
  mk (giver d) (giver_id d) (target d) v (objective d) (deadline d)
     (reward_amount d) (reward_currency d) (difficulty d).
Definition set_objective (v : string) (d : t) : t :=
  mk (giver d) (giver_id d) (target d) (target_id d) v (deadline d)
     (reward_amount d) (reward_currency d) (difficulty d).
Definition set_deadline (v : string) (d : t) : t :=
  mk (giver d) (giver_id d) (target d) (target_id d) (objective d) v
     (reward_amount d) (reward_currency d) (difficulty d).
Definition set_reward (amount : Z) (currency : string) (d : t) : t :=
  mk (giver d) (giver_id d) (target d) (target_id d) (objective d)
     (deadline d) amount currency (difficulty d).
Definition set_difficulty (v : string) (d : t) : t :=
  mk (giver d) (giver_id d) (target d) (target_id d) (objective d)
     (deadline d) (reward_amount d) (reward_currency d) v.
End MissionDetails.

(** [BASE_REWARDS] *)
Definition BASE_REWARDS : gmap string Z :=
  list_to_map [("💎", 1); ("💵", 1500); ("💷", 1400); ("💶", 1450); ("💴", 150000)].

Definition default_mission_details : MissionDetails.t :=
  MissionDetails.mk None None None None
    "Objective not clearly specified." "As soon as possible" 1500 "" "medium".

Section Extraction.

Variable re : RegexEngine.
(** [db.session.query(Character).filter_by(id=...).first()] is not None *)
Variable character_exists : Z -> bool.

(** [for pattern in patterns: m = re.search(pattern, text); if m: ...; break] *)
Fixpoint first_search1 (patterns : list pattern) (text : string) : option string :=
  match patterns with
  | [] => None
  | p :: ps => match search1 re p text with
               | Some g => Some g
               | None => first_search1 ps text
               end
  end.

Fixpoint first_search2 (patterns : list pattern) (text : string)
    : option (string * string) :=
  match patterns with
  | [] => None
  | p :: ps => match search2 re p text with
               | Some g => Some g
               | None => first_search2 ps text
               end
  end.

(** The reward of a match: [int(group(1).replace(",", ""))] and
    [group(2)]; a [ValueError] leaves both entries as they were. *)
Definition reward_of_match (g : string * string) (d : MissionDetails.t)
    : option MissionDetails.t :=
  match py_int (remove_char comma_char (fst g)) with
  | Ok amount => Some (MissionDetails.set_reward amount (snd g) d)
  | Raise _ => None
  end.

(** The reward loop: the first pattern that matches and parses wins; a
    match that does not parse is passed over. *)
Fixpoint extract_reward (patterns : list pattern) (dialogue : string)
    (d : MissionDetails.t) : MissionDetails.t :=
  match patterns with
  | [] => d
  | p :: ps =>
      match search2 re p dialogue with
      | Some g => match reward_of_match g d with
                  | Some d' => d'
                  | None => extract_reward ps dialogue d
                  end
      | None => extract_reward ps dialogue d
      end
  end.

(** The body of [for match in dialogue_matches]. *)
Definition process_dialogue (giver : CharacterDict.t) (giver_name : string)
    (d : MissionDetails.t) (quoted : string) : MissionDetails.t :=
  let dialogue := strip_by (Ascii.eqb quote_char) quoted in
  let d := MissionDetails.set_giver (Some giver_name) d in
  let d := MissionDetails.set_giver_id
             (match CharacterDict.id giver with
              | Some i => if truthy i && character_exists i then Some i else None
              | None => None
              end) d in
  let d := match first_search1 villain_patterns dialogue with
           | Some villain => MissionDetails.set_target (Some villain) d
           | None => d
           end in
  let d := match first_search1 objective_patterns dialogue with
           | Some objective =>
               MissionDetails.set_objective (strip_by is_space objective) d
           | None => d
           end in
  let d := match first_search2 deadline_patterns dialogue with
           | Some (time_value, time_unit) =>
               MissionDetails.set_deadline
                 ("Complete within " +:+ time_value +:+ " " +:+ time_unit) d
           | None => d
           end in
  extract_reward reward_patterns dialogue d.

Definition is_mission_giver (char : CharacterDict.t) : bool :=
  match CharacterDict.character_role char with
  | Some role => String.eqb role "mission-giver" ||
                 str_contains "giver" (str_lower role)
  | None => false
  end.

(** The body of [for giver in mission_givers]. *)
Definition process_giver (story_text : string) (d : MissionDetails.t)
    (giver : CharacterDict.t) : MissionDetails.t :=
  match py_or (CharacterDict.character_name giver) (CharacterDict.name giver) with
  | Some giver_name =>
      if truthy giver_name then
        fold_left (process_dialogue giver giver_name)
                  (finditer1 re (dialogue_pattern giver_name) story_text) d
      else d
  | None => d
  end.

(** The fall-back on the general patterns, when no giver spoke. *)
Definition general_patterns (story_text : string) (d : MissionDetails.t)
    : MissionDetails.t :=
  let d := match search1 re general_giver_pattern story_text with
           | Some g => MissionDetails.set_giver (Some g) d
           | None => d
           end in
  let d := match search_alt re general_target_pattern story_text with
           | Some (g1, g2) =>
               let target := if truthy g1 then g1 else g2 in
               let target :=
                 match target with
                 | Some t => if truthy t && str_contains "'s" t
                             then Some (remove_possessive t) else target
                 | None => target
                 end in
               MissionDetails.set_target target d
           | None => d
           end in
  let d := match search1 re general_objective_pattern story_text with
           | Some g => MissionDetails.set_objective (strip_by is_space g) d
           | None => d
           end in
  match search2 re general_reward_pattern story_text with
  | Some g => match reward_of_match g d with
              | Some d' => d'
              | None => d
              end
  | None => d
  end.

(** [for char in characters: ... if char_name and target in char_name:
    target_id = char.get('id'); break] *)
Fixpoint link_target (target : string) (characters : list CharacterDict.t)
    (d : MissionDetails.t) : MissionDetails.t :=
  match characters with
  | [] => d
  | char :: rest =>
      match py_or (CharacterDict.character_name char) (CharacterDict.name char) with
      | Some char_name =>
          if truthy char_name && str_contains target char_name
          then MissionDetails.set_target_id (CharacterDict.id char) d
          else link_target target rest d
      | None => link_target target rest d
      end
  end.

(** Everything up to the difficulty: this part raises nothing. *)
Definition extract_fields (story_text : string)
    (characters : option (list CharacterDict.t)) : MissionDetails.t :=
  let mission_details := default_mission_details in
  let mission_givers :=
    if truthy characters
    then List.filter is_mission_giver (default [] characters) else [] in
  let mission_details :=
    if truthy mission_givers
    then fold_left (process_giver story_text) mission_givers mission_details
    else mission_details in
  let mission_details :=
    if negb (truthy (MissionDetails.giver mission_details))
    then general_patterns story_text mission_details
    else mission_details in
  match MissionDetails.target mission_details with
  | Some target =>
      if truthy target
         && negb (truthy (MissionDetails.target_id mission_details))
         && truthy characters
      then link_target target (default [] characters) mission_details
      else mission_details
  | None => mission_details
  end.

(** [BASE_REWARDS[currency]] raises [KeyError] for a currency without an
    entry.  The products by 2.5 and 1.5 are compared after doubling. *)
Definition determine_difficulty (d : MissionDetails.t)
    : result MissionDetails.t :=
  match BASE_REWARDS !! MissionDetails.reward_currency d with
  | None => Raise KeyError
  | Some base =>
      let amount := MissionDetails.reward_amount d in
      Ok (MissionDetails.set_difficulty
            (if 5 * base <? 2 * amount then "hard"
             else if 3 * base <? 2 * amount then "medium"
             else "easy") d)
  end.

(** The [except Exception] handler logs and returns [None]. *)
Definition extract_mission_details (story_text : string)
    (characters : option (list CharacterDict.t)) : option MissionDetails.t :=
  match determine_difficulty (extract_fields story_text characters) with
  | Ok mission_details => Some mission_details
  | Raise _ => None
  end.

End Extraction.

(** ** game_engine.py: GameEngine.make_choice *)

(** What [generate_continuation] is called with (the arguments that vary
    with the session) and what it returns. *)
Module Continuation.
Record request : Type := mk_request {
  previous_story : option string;
  chosen_choice : string;
  node_count : Z;
  enhanced_context : string
}.
Record segment : Type := mk_segment {
  narrative_text : string;
  choices : list string
}.
End Continuation.

Module ChoiceResponse.
Record t : Type := mk {
  success : bool;
  current_node : StoryNode.t;
  story_id : Z;
  available_choices : list string
}.
End ChoiceResponse.

(** [Mission.query.filter_by(user_id=..., status="active").first()] *)
Definition first_active_mission (sess : DB.t) (user_id : string) : option Mission.t :=
  List.find (fun m => String.eqb (Mission.user_id m) user_id &&
                      String.eqb (Mission.status m) "active")
            (map_to_list (DB.missions sess)).*2.

Definition unknown_mission (mission_id : Z) (user_id : string) (story_id : Z)
    : Mission.t :=
  Mission.mk mission_id user_id "Unknown Mission" "Continue the story" None None
             "active" "normal" 0 None "" 0 None (Some story_id).

Module ChoiceContext.
Record t : Type := mk {
  story : StoryGeneration.t;
  current_node : StoryNode.t;
  active_mission : Mission.t;
  session : DB.t
}.
End ChoiceContext.

(** [make_choice] up to the increment of the node count: reload, story and
    node resolution, the active mission (created in the session when the
    user has none; the store assigns [fresh_mission_id]), the protagonist
    read from the node's metadata.  The state is returned as mutated so
    far. *)
Definition make_choice_prepare (db : DB.t) (st : GameState.t)
    (fresh_mission_id : Z) : result ChoiceContext.t * GameState.t :=
  match reload_state db st with
  | Raise e => (Raise e, st)
  | Ok st =>
      let user_progress := GameState.user_progress st in
      if negb (truthy (UserProgress.current_story_id user_progress))
      then (Raise ValueError, st) else
      match UserProgress.current_story_id user_progress ≫= story_get db with
      | None => (Raise ValueError, st)
      | Some story =>
          match resolve_current_node db st (Some (StoryGeneration.id story)) with
          | None => (Raise ValueError, st)
          | Some current_node =>
              let '(active_mission, sess) :=
                match first_active_mission db (GameState.user_id st) with
                | Some mission => (mission, db)
                | None =>
                    let mission := unknown_mission fresh_mission_id
                                     (GameState.user_id st) (StoryGeneration.id story) in
                    (mission,
                     DB.set_missions (<[fresh_mission_id := mission]> (DB.missions db)) db)
                end in
              match StoryNode.branch_metadata current_node with
              | None => (Raise AttributeError, st)
              | Some _ =>
                  (Ok (ChoiceContext.mk story current_node active_mission sess), st)
              end
          end
      end
  end.

(** [custom_choice_text or choice_id] *)
Definition chosen_choice (choice_id : string) (custom_choice_text : option string)
    : string :=
  default choice_id (if truthy custom_choice_text then custom_choice_text else None).

Section MakeChoice.

(** [generate_continuation]: [None] stands for a raised timeout or provider
  error. *)
Variable generate_continuation :
Continuation.request -> option Continuation.segment.

(** The bookkeeping of the success path that needs [Mission.update_progress]
  and the character service (neither is part of the sources) is left out;
  it comes after the node has been created. *)
Definition make_choice (commit_ok : bool) (db : DB.t) (st : GameState.t)
  (choice_id : string) (custom_choice_text : option string)
  (encountered : option (list CharInfo.t))
  (fresh_mission_id fresh_node_id : Z) (now : Z)
  : result ChoiceResponse.t * DB.t * GameState.t :=
match make_choice_prepare db st fresh_mission_id with
| (Raise e, st) => (Raise RuntimeError, db, expire_user_progress db st)
| (Ok ctx, st) =>
    let story := ChoiceContext.story ctx in
    let current_node := ChoiceContext.current_node ctx in
    let active_mission := ChoiceContext.active_mission ctx in
    (* node_context["enhanced_context"] *)
    let enhanced_context :=
      get_enhanced_context db (StoryNode.id current_node) 3000 in
    (* Increment node count in the game state *)
    let '(node_count, (db, sess), st) :=
      increment_node_count commit_ok db (ChoiceContext.session ctx) st in
    match generate_continuation
            (Continuation.mk_request
               (StoryNode.narrative_text current_node)
               (chosen_choice choice_id custom_choice_text)
               node_count enhanced_context) with
    | None =>
        (* except: db.session.rollback(); raise RuntimeError *)
        (Raise RuntimeError, db, expire_user_progress db st)
    | Some next_segment =>
        let next_node :=
          StoryNode.mk fresh_node_id (StoryGeneration.id story)
            (Some (StoryNode.id current_node))
            (Some (Continuation.narrative_text next_segment)) now
            (Some (Metadata.mk encountered
                     (Some (MissionInfo.mk
                              (Some (Mission.title active_mission))
                              (Some (Mission.objective active_mission))
                              (Some (Mission.status active_mission))
                              (Some (Mission.progress active_mission)))))) in
        let sess := DB.set_nodes (DB.nodes sess ++ [next_node]) sess in
        match transition_to_node sess (StoryNode.id next_node) true now st with
        | (Ok true, st) =>
            let db := DB.set_users
                        (<[GameState.user_id st := GameState.user_progress st]>
                           (DB.users sess)) sess in
            (Ok (ChoiceResponse.mk true next_node (StoryGeneration.id story)
                   (Continuation.choices next_segment)), db, st)
        | (_, st) => (Raise RuntimeError, db, expire_user_progress db st)
        end
    end
end.

End MakeChoice.

(** ** Sequences of transitions *)

(** One call of [transition_to_node]: the rows the session sees at that
    moment, the arguments and the clock. *)
Module Step.
Record t : Type := mk {
  db : DB.t;
  node_id : Z;
  update_progress : bool;
  now : Z
}.
End Step.

(** A run of successful transitions; [None] as soon as one raises. *)
Fixpoint run_transitions (steps : list Step.t) (st : GameState.t)
    : option GameState.t :=
  match steps with
  | [] => Some st
  | s :: rest =>
      match transition_to_node (Step.db s) (Step.node_id s)
                               (Step.update_progress s) (Step.now s) st with
      | (Ok _, st') => run_transitions rest st'
      | (Raise _, _) => None
      end
  end.

(** The history entry of a node that is left at time [now]. *)
Definition departed_entry (node : StoryNode.t) (now : Z) : HistoryEntry.t :=
  HistoryEntry.mk (StoryNode.id node) (StoryNode.narrative_text node) now.

(** The nodes departed along a run that starts at [cur], oldest first, each
    stamped with the clock of the transition that left it: the first
    transition leaves [cur] (when the session has a position), every later
    one leaves the node the previous transition arrived at. *)
Fixpoint departures (cur : option StoryNode.t) (steps : list Step.t)
    : list HistoryEntry.t :=
  match steps with
  | [] => []
  | s :: rest =>
      match cur with
      | Some node => [departed_entry node (Step.now s)]
      | None => []
      end ++ departures (node_get (Step.db s) (Step.node_id s)) rest
  end.

(** The last [k] elements of a list. *)
Definition lastn {A} (k : nat) (l : list A) : list A :=
  drop (length l - k) l.

(** ** Vocabulary of the statements *)

(** The characters listed by a node's metadata. *)
Definition new_characters (node : StoryNode.t) : list CharInfo.t :=
  default [] (StoryNode.branch_metadata node ≫= Metadata.encountered_characters).

(** The map read through its "missing means empty" view. *)
Definition encountered (up : UserProgress.t) : gmap string CharSnapshot.t :=
  default ∅ (UserProgress.encountered_characters up).

(** Ids handed out by the store are not zero. *)
Definition store_ids_nonzero (db : DB.t) : Prop :=
  (forall n, In n (DB.nodes db) -> StoryNode.id n <> 0) /\
  (forall s, In s (DB.stories db) -> StoryGeneration.id s <> 0).

(** [n] is a most recently created node of story [t]. *)
Definition most_recent_of_story (db : DB.t) (t : Z) (n : StoryNode.t) : Prop :=
  In n (DB.nodes db) /\ StoryNode.story_id n = t /\
  forall m, In m (DB.nodes db) -> StoryNode.story_id m = t ->
            StoryNode.created_at m <= StoryNode.created_at n.

(** [n] is a root of story [t]. *)
Definition root_of_story (db : DB.t) (t : Z) (n : StoryNode.t) : Prop :=
  In n (DB.nodes db) /\ StoryNode.story_id n = t /\
  StoryNode.parent_node_id n = None.

(** The node the session points at, when it is a node of story [t]. *)
Definition pointer_node (db : DB.t) (st : GameState.t) (t : Z)
    : option StoryNode.t :=
  match UserProgress.current_node_id (GameState.user_progress st) ≫= node_get db with
  | Some n => if StoryNode.story_id n =? t then Some n else None
  | None => None
  end.

(** The change a mission outcome applies to the relationship with character
    [c], for a giver or target reference [o] and a delta [d]: nothing when the
    reference is unset. *)
Definition relationship_delta (o : option Z) (d : Z) (c : Z) : Z :=
  match o with
  | Some g => if truthy g && (g =? c) then d else 0
  | None => 0
  end.

Ltac split_ifs :=
  repeat match goal with
         | |- context [if ?b then _ else _] => destruct b
         end.

(** A section of the context: a header, its lines and an empty line; nothing
    at all when there are no lines. *)
Definition context_section (header : string) (lines : list string) : list string :=
  match lines with
  | [] => []
  | _ => header :: lines ++ [""]
  end.

(** Lines numbered from [i], each with its text cut at [cap] characters. *)
Fixpoint numbered_lines (label : string) (cap : nat) (i : nat)
    (texts : list string) : list string :=
  match texts with
  | [] => []
  | text :: rest =>
      (label +:+ " " +:+ pretty i +:+ ": " +:+ truncate_text cap text)
        :: numbered_lines label cap (S i) rest
  end.

(** The rows selected by [StoryNode.id.in_(key_node_ids)]. *)
Definition key_plot_nodes (db : DB.t) (current_node : StoryNode.t)
    : list StoryNode.t :=
  List.filter
    (fun n => py_in (StoryNode.id n)
                (collect_key_node_ids
                   (active_plot_arcs db (StoryNode.story_id current_node))))
    (DB.nodes db).

(** The ancestors in chronological order. *)
Definition ancestor_nodes (db : DB.t) (current_node : StoryNode.t)
    : list StoryNode.t :=
  rev (collect_ancestors db 5 (StoryNode.parent_node_id current_node)).

(** [l] climbs the parent pointers from [parent_id], nearest first. *)
Fixpoint parent_chain (db : DB.t) (parent_id : option Z) (l : list StoryNode.t)
    : Prop :=
  match l with
  | [] => True
  | p :: l' => parent_id ≫= node_get db = Some p /\
               parent_chain db (StoryNode.parent_node_id p) l'
  end.

(** The parent pointer above the last node of a climb. *)
Fixpoint pointer_above (parent_id : option Z) (l : list StoryNode.t)
    : option Z :=
  match l with
  | [] => parent_id
  | p :: l' => pointer_above (StoryNode.parent_node_id p) l'
  end.

(** The climb cannot go on: there is no parent (a root), or the pointer
    resolves to no row. *)
Definition climb_ends (db : DB.t) (parent_id : option Z) : Prop :=
  truthy parent_id = false \/ parent_id ≫= node_get db = None.

(** ** A sample store and session

    One story with a chain of five nodes, a user positioned at the root, an
    active and a completed mission. *)
Module Sample.

Definition ivan : CharInfo.t :=
  CharInfo.mk (Some 11) (Some "Ivan") (Some "A broker from Riga") (Some ["The ledger"]).
Definition mara : CharInfo.t :=
  CharInfo.mk (Some 12) (Some "Mara") None None.

Definition briefing : MissionInfo.t :=
  MissionInfo.mk (Some "Mission: find the ledger") (Some "find the ledger")
                 (Some "active") (Some 40).

Definition node1 : StoryNode.t :=
  StoryNode.mk 1 1 None (Some "The rain had not stopped for three days.") 10
               (Some (Metadata.mk None None)).
Definition node2 : StoryNode.t :=
  StoryNode.mk 2 1 (Some 1) (Some "A car waited by the quay.") 20
               (Some (Metadata.mk None None)).
Definition node3 : StoryNode.t :=
  StoryNode.mk 3 1 (Some 2) (Some "The broker smiled.") 30
               (Some (Metadata.mk None (Some briefing))).
Definition node4 : StoryNode.t :=
  StoryNode.mk 4 1 (Some 3) (Some "Nobody followed.") 40
               (Some (Metadata.mk None None)).
Definition node5 : StoryNode.t :=
  StoryNode.mk 5 1 (Some 4) (Some "The ledger was gone.") 50
               (Some (Metadata.mk (Some [ivan; mara]) (Some briefing))).
(** A node of another story. *)
Definition node6 : StoryNode.t :=
  StoryNode.mk 6 2 None (Some "Elsewhere.") 60 None.

Definition story1 : StoryGeneration.t :=
  StoryGeneration.mk 1 "A stolen ledger" "Riga" "noir" "tense".
Definition story2 : StoryGeneration.t :=
  StoryGeneration.mk 2 "A defector" "Vienna" "noir" "cold".

Definition mission7 : Mission.t :=
  Mission.mk 7 "u1" "Mission: find the ledger" "find the ledger" (Some 11) (Some 12)
             "active" "medium" 80 (Some []) "💵" 1500 None (Some 1).
Definition mission8 : Mission.t :=
  Mission.mk 8 "u1" "Mission: tail the car" "tail the car" (Some 11) None
             "completed" "easy" 100 (Some [completed_update 5]) "💷" 1400
             (Some 5) (Some 1).

Definition old_ivan : CharSnapshot.t :=
  CharSnapshot.mk "Ivan Petrov" "Unknown to the service" [].

Definition user1 : UserProgress.t :=
  UserProgress.mk "u1" (Some 1) (Some 1) 0 None (Some [2; 3])
                  (Some {[ "11" := old_ivan ]}) (Some [7]) (Some [8]) None
                  {[ "💷" := 5000 ]} 1 0 ∅.

Definition db : DB.t :=
  DB.mk [node1; node2; node3; node4; node5; node6] [story1; story2]
        [PlotArc.mk 1 "active" (Some [1; 3]); PlotArc.mk 1 "resolved" (Some [2])]
        {[ 7 := mission7; 8 := mission8 ]}
        {[ "u1" := user1 ]}.

Definition state : GameState.t :=
  GameState.mk "u1" user1 (Some story1) (Some node1) [mission7] 0 [].

Definition steps : list Step.t :=
  [Step.mk db 2 true 101; Step.mk db 3 true 102; Step.mk db 4 true 103;
   Step.mk db 5 true 104].

Definition add_experience_points (level_xp : Z * Z) (points : Z) : Z * Z :=
  (fst level_xp, snd level_xp + points).

(** A regular-expression engine for a text in which the giver "Control"
    states an objective and no reward. *)
Definition silent_on_rewards : RegexEngine :=
  {| finditer1 := fun p _ =>
       match p with
       | dialogue_pattern _ => ["I need you to find the ledger."]
       | _ => []
       end;
     search1 := fun p _ =>
       match p with
       | objective_pattern 0 => Some "find the ledger"
       | _ => None
       end;
     search2 := fun _ _ => None;
     search_alt := fun _ _ => None |}.

(** The same text with "a reward of 4,000 dollars" in the dialogue. *)
Definition with_reward : RegexEngine :=
  {| finditer1 := finditer1 silent_on_rewards;
     search1 := search1 silent_on_rewards;
     search2 := fun p _ =>
       match p with
       | reward_pattern 0 => Some ("4,000", "💵")
       | _ => None
       end;
     search_alt := fun _ _ => None |}.

Definition control : CharacterDict.t :=
  CharacterDict.mk (Some 11) (Some "Control") None (Some "mission-giver").

(** A generation collaborator that times out, and one that answers. *)
Definition generation_fails (_ : Continuation.request)
    : option Continuation.segment := None.
Definition generation_answers (_ : Continuation.request)
    : option Continuation.segment :=
  Some (Continuation.mk_segment "The door was open." ["Enter"; "Wait"]).

End Sample.

(** ** state_manager.py: GameStateManager

    The observer registry.  A listener is an object compared by identity; it
    is modelled by its id.  [on_state_changed] calls are collected as the
    list of (listener, state passed) pairs, in the order of the calls. *)
Module GameStateManager.
Record t (V : Type) : Type := mk {
  _listeners : list Z;
  _current_state : gmap string V
}.
Arguments mk {V} _ _.
Arguments _listeners {V} _.
Arguments _current_state {V} _.

(** [__init__] *)
Definition init {V} : t V := mk [] ∅.
End GameStateManager.

Definition add_listener {V} (listener : Z) (m : GameStateManager.t V)
    : GameStateManager.t V :=
  if negb (py_in listener (GameStateManager._listeners m))
  then GameStateManager.mk (GameStateManager._listeners m ++ [listener])
                           (GameStateManager._current_state m)
  else m.

Definition remove_listener {V} (listener : Z) (m : GameStateManager.t V)
    : GameStateManager.t V :=
  if py_in listener (GameStateManager._listeners m)
  then GameStateManager.mk
         (list_remove_first listener (GameStateManager._listeners m))
         (GameStateManager._current_state m)
  else m.

Definition _notify_listeners {V} (m : GameStateManager.t V)
    : list (Z * gmap string V) :=
  map (fun listener => (listener, GameStateManager._current_state m))
      (GameStateManager._listeners m).

(** [self._current_state.update(state_update)]: the keys of the update take
    its values, the other keys keep theirs. *)
Definition update_state {V} (state_update : gmap string V)
    (m : GameStateManager.t V)
    : GameStateManager.t V * list (Z * gmap string V) :=
  let m := GameStateManager.mk (GameStateManager._listeners m)
             (state_update ∪ GameStateManager._current_state m) in
  (m, _notify_listeners m).

Definition get_state {V} (m : GameStateManager.t V) : gmap string V :=
  GameStateManager._current_state m.

(** ** mission_generator.py: create_mission_from_story *)





(** What [Mission(...)] is built from: the columns of [Mission.t], and the
    description and deadline texts, which are not among them. *)
Module CreatedMission.
Record t : Type := mk {
  mission : Mission.t;
  description : string;
  deadline : string
}.
End CreatedMission.

Section CreateMission.

Variable re : RegexEngine.
Variable character_exists : Z -> bool.
(** [Character.query.filter(Character.name.ilike(f"%{name}%")).first()],
    then its [id]. *)
Variable find_character_like : string -> option Z.




End CreateMission.

(** ** character_interaction.py: CharacterInteractionService *)

(** The table [changes] of [_calculate_relationship_change]. *)
Definition interaction_changes : gmap string Z :=
  list_to_map [("help", 2); ("befriend", 3); ("betray", -5); ("ignore", -1);
               ("threaten", -3); ("cooperate", 1); ("compete", -2);
               ("protect", 2); ("abandon", -4); ("support", 2)].

(** [changes.get(interaction_type, 0)] *)
Definition _calculate_relationship_change (interaction_type : string) : Z :=
  default 0 (interaction_changes !! interaction_type).

Definition _calculate_story_progression_change
    (current_node_id next_node_id character_id : Z) : Z := 0.

(** A row of [CharacterEvolution], as far as [update_relationships] reads
    it. *)
Module CharacterEvolution.
Record t : Type := mk {
  id : Z;
  character_id : Z;
  trust_level : Z;
  loyalty_level : Z
}.
End CharacterEvolution.

Section UpdateRelationships.

(** An entry of the returned list of updates. *)
Variable update_entry : Type.
(** The body under [if relationship_change != 0]: it changes the user's
    relationship, evolves the character (code that is not part of the
    sources) and builds the entry of the update; it may raise. *)
Variable apply_change :
  CharacterEvolution.t -> Z -> UserProgress.t -> result (UserProgress.t * update_entry).

(** [for char_evolution in char_evolutions: ...] *)
Fixpoint update_relationships_loop (char_evolutions : list CharacterEvolution.t)
    (current_node_id next_node_id : Z) (up : UserProgress.t)
    (updates : list update_entry) : result (UserProgress.t * list update_entry) :=
  match char_evolutions with
  | [] => Ok (up, updates)
  | char_evolution :: rest =>
      let relationship_change :=
        _calculate_story_progression_change current_node_id next_node_id
          (CharacterEvolution.character_id char_evolution) in
      if negb (relationship_change =? 0) then
        match apply_change char_evolution relationship_change up with
        | Ok (up, entry) =>
            update_relationships_loop rest current_node_id next_node_id up
              (updates ++ [entry])
        | Raise e => Raise e
        end
      else update_relationships_loop rest current_node_id next_node_id up updates
  end.

(** [char_evolutions] is the result of
    [CharacterEvolution.query.filter_by(user_id=..., story_id=...).all()]. *)
Definition update_relationships (db : DB.t) (user_id : string)
    (char_evolutions : list CharacterEvolution.t)
    (current_node_id next_node_id : Z) : result (list update_entry) * DB.t :=
  match DB.users db !! user_id with
  | None => (Ok [], db)
  | Some user_progress =>
      match update_relationships_loop char_evolutions current_node_id
              next_node_id user_progress [] with
      | Ok (user_progress, updates) =>
          (Ok updates, DB.set_users (<[user_id := user_progress]> (DB.users db)) db)
      | Raise e => (Raise e, db)
      end
  end.

End UpdateRelationships.

(** ** More vocabulary of the statements *)

(** Successive calls of [increment_node_count], one per entry of [commits]
    (whether the commit of that call succeeds). *)
Fixpoint increment_node_count_many (commits : list bool) (db sess : DB.t)
    (st : GameState.t) : (DB.t * DB.t) * GameState.t :=
  match commits with
  | [] => ((db, sess), st)
  | commit_ok :: rest =>
      let '(_, (db, sess), st) := increment_node_count commit_ok db sess st in
      increment_node_count_many rest db sess st
  end.

(** The persisted node count of a user, when the row exists. *)
Definition persisted_node_count (db : DB.t) (user_id : string) : option Z :=
  UserProgress.node_count <$> DB.users db !! user_id.

(** The choice history read through its "missing means empty" view. *)
Definition choice_history_of (st : GameState.t) : list Z :=
  default [] (UserProgress.choice_history (GameState.user_progress st)).

(** The three mission lists of a user's row hold no id twice and share no
    id. *)
Definition mission_lists_exclusive (up : UserProgress.t) : Prop :=
  List.NoDup (default [] (UserProgress.active_missions up)
              ++ default [] (UserProgress.completed_missions up)
              ++ default [] (UserProgress.failed_missions up)).

(** The audit log of a mission. *)
Definition audit_log (db : DB.t) (mission_id : Z) : list ProgressUpdate.t :=
  default [] (DB.missions db !! mission_id ≫= Mission.progress_updates).

(** More of the sample session. *)
Module SampleMore.

Definition details_engine : RegexEngine := Sample.with_reward.


Definition long_objective : string :=
  "recover the ledger from the archive before the courier leaves Riga".

Definition manager : GameStateManager.t Z :=
  GameStateManager.mk [1; 2] {[ "node" := 1; "story" := 1 ]}.

Definition evolutions : list CharacterEvolution.t :=
  [CharacterEvolution.mk 1 11 5 5; CharacterEvolution.mk 2 12 0 0].

(** A store in which the user's current node has lost its metadata. *)
Definition db_without_metadata : DB.t :=
  DB.set_nodes [StoryNode.mk 1 1 None (Some "Root") 10 None] Sample.db.

End SampleMore.

(** * Properties *)

(** ** Transitions *)

Lemma transition_to_node_raises (db : DB.t) (node_id : Z) (update_progress : bool)
    (now : Z) (st : GameState.t) :
  node_get db node_id = None ->
  transition_to_node db node_id update_progress now st = (Raise ValueError, st).
Proof. intros Hget. unfold transition_to_node. now rewrite Hget. Qed.

Lemma transition_to_node_succeeds (db : DB.t) (node_id : Z) (update_progress : bool)
    (now : Z) (st : GameState.t) (new_node : StoryNode.t) :
  node_get db node_id = Some new_node ->
  fst (transition_to_node db node_id update_progress now st) = Ok true.
Proof. intros Hget. unfold transition_to_node. now rewrite Hget. Qed.

(** C5. A transition to a node id that resolves to no node fails (it raises
    [ValueError]) and mutates nothing: the session state after the call is
    the state before it, so the history buffer, the current node, the
    persisted [current_node_id], the choice history, the
    encountered-character map and the last-active timestamp are unchanged. *)
Theorem transition_to_node_invalid_is_noop (db : DB.t) (node_id : Z)
    (update_progress : bool) (now : Z) (st : GameState.t) :
  node_get db node_id = None ->
  let r := transition_to_node db node_id update_progress now st in
  fst r = Raise ValueError /\
  snd r = st /\
  GameState._story_history_buffer (snd r) = GameState._story_history_buffer st /\
  GameState.current_node (snd r) = GameState.current_node st /\
  UserProgress.current_node_id (GameState.user_progress (snd r))
    = UserProgress.current_node_id (GameState.user_progress st) /\
  UserProgress.choice_history (GameState.user_progress (snd r))
    = UserProgress.choice_history (GameState.user_progress st) /\
  UserProgress.encountered_characters (GameState.user_progress (snd r))
    = UserProgress.encountered_characters (GameState.user_progress st) /\
  UserProgress.last_active (GameState.user_progress (snd r))
    = UserProgress.last_active (GameState.user_progress st).
Proof.
  intros Hget r. subst r.
  rewrite (transition_to_node_raises _ _ _ _ _ Hget). simpl.
  repeat split; reflexivity.
Qed.

Lemma py_in_In (x : Z) (l : list Z) : py_in x l = true <-> In x l.
Proof.
  unfold py_in. rewrite existsb_exists. split.
  - intros [y [Hin Heq]]. apply Z.eqb_eq in Heq. now subst.
  - intros Hin. exists x. split; [assumption | apply Z.eqb_refl].
Qed.

Lemma py_in_not_In (x : Z) (l : list Z) : py_in x l = false <-> ~ In x l.
Proof.
  rewrite <- py_in_In. destruct (py_in x l); split; congruence.
Qed.

(** The choice history after the bookkeeping of a transition. *)
Lemma record_encountered_characters_choice_history (new_node : StoryNode.t)
    (up : UserProgress.t) :
  UserProgress.choice_history (record_encountered_characters new_node up)
  = UserProgress.choice_history up.
Proof.
  unfold record_encountered_characters.
  destruct (StoryNode.branch_metadata new_node) as [md|]; [|reflexivity].
  destruct (truthy (default [] (Metadata.encountered_characters md)));
    [|reflexivity].
  destruct (truthy (UserProgress.encountered_characters up)); reflexivity.
Qed.

(** The choice history after the bookkeeping of a transition. *)
Lemma update_user_progress_choice_history (new_node : StoryNode.t) (node_id now : Z)
    (up : UserProgress.t) :
  let history := default [] (UserProgress.choice_history up) in
  UserProgress.choice_history (update_user_progress new_node node_id now up)
  = Some (if py_in node_id history then history else history ++ [node_id]).
Proof.
  unfold update_user_progress.
  rewrite record_encountered_characters_choice_history.
  destruct up as [uid csid cnid nc la ch enc am cm fm cb lv xp rel]. simpl.
  destruct ch as [[|h ch]|]; simpl; try reflexivity.
  destruct ((node_id =? h) || py_in node_id ch); reflexivity.
Qed.

(** C6 (amended). In a successful transition that updates the user's
    progress, the new node id is appended to the choice history exactly when
    it occurs nowhere in that history (the source tests [node_id not in
    choice_history]); an id that occurs anywhere in it, last entry or
    earlier, is not appended again.  Entries already in the history are
    kept, in order. *)
Theorem choice_history_appends_unseen_ids (db : DB.t) (node_id now : Z)
    (st : GameState.t) (new_node : StoryNode.t) :
  node_get db node_id = Some new_node ->
  let history := default [] (UserProgress.choice_history (GameState.user_progress st)) in
  let r := transition_to_node db node_id true now st in
  let history' := UserProgress.choice_history (GameState.user_progress (snd r)) in
  fst r = Ok true /\
  (~ In node_id history -> history' = Some (history ++ [node_id])) /\
  (In node_id history -> history' = Some history).
Proof.
  intros Hget history r history'. subst r history'.
  unfold transition_to_node. rewrite Hget. simpl.
  split; [reflexivity|].
  assert (Hup : forall s : GameState.t,
             GameState.user_progress
               (GameState.set_current_node (Some new_node) s)
             = GameState.user_progress s) by reflexivity.
  assert (Hhist : GameState.user_progress
                    (match GameState.current_node st with
                     | Some cur => _update_story_history cur now st
                     | None => st
                     end) = GameState.user_progress st)
    by (destruct (GameState.current_node st); reflexivity).
  rewrite Hhist, update_user_progress_choice_history. fold history.
  split; intros Hin.
  - apply py_in_not_In in Hin. now rewrite Hin.
  - apply py_in_In in Hin. now rewrite Hin.
Qed.

(** *** The encountered-character map *)

Lemma merge_encountered_step_keeps (m : gmap string CharSnapshot.t)
    (char : CharInfo.t) (cid : string) (snap : CharSnapshot.t) :
  m !! cid = Some snap -> merge_encountered_step m char !! cid = Some snap.
Proof.
  intros Hm. unfold merge_encountered_step.
  destruct (m !! str_id (CharInfo.id char)) eqn:Hk; [assumption|].
  rewrite lookup_insert_ne; [assumption|].
  intros Heq. rewrite Heq in Hk. congruence.
Qed.

Lemma merge_encountered_characters_keeps (new_chars : list CharInfo.t) :
  forall (m : gmap string CharSnapshot.t) (cid : string) (snap : CharSnapshot.t),
    m !! cid = Some snap ->
    merge_encountered_characters new_chars m !! cid = Some snap.
Proof.
  unfold merge_encountered_characters.
  induction new_chars as [|char rest IH]; intros m cid snap Hm; simpl.
  - assumption.
  - apply IH. now apply merge_encountered_step_keeps.
Qed.

Lemma merge_encountered_characters_origin (new_chars : list CharInfo.t) :
  forall (m : gmap string CharSnapshot.t) (cid : string) (snap : CharSnapshot.t),
    m !! cid = None ->
    merge_encountered_characters new_chars m !! cid = Some snap ->
    exists char, In char new_chars /\ str_id (CharInfo.id char) = cid /\
                 snap = snapshot_of char.
Proof.
  unfold merge_encountered_characters.
  induction new_chars as [|char rest IH]; intros m cid snap Hm Hres; simpl in *.
  - congruence.
  - destruct (merge_encountered_step m char !! cid) as [snap0|] eqn:Hstep.
    + exists char. split; [now left|].
      pose proof (merge_encountered_characters_keeps rest _ _ _ Hstep) as Hkeep.
      unfold merge_encountered_characters in Hkeep.
      rewrite Hkeep in Hres. injection Hres as <-.
      unfold merge_encountered_step in Hstep.
      destruct (m !! str_id (CharInfo.id char)) eqn:Hk; [congruence|].
      destruct (decide (str_id (CharInfo.id char) = cid)) as [Heq|Hne].
      * subst cid. rewrite lookup_insert_eq in Hstep. split; congruence.
      * rewrite lookup_insert_ne in Hstep by assumption. congruence.
    + destruct (IH _ _ _ Hstep Hres) as [c [Hin Hc]].
      exists c. split; [now right | assumption].
Qed.

Lemma merge_encountered_characters_covers (new_chars : list CharInfo.t) :
  forall (m : gmap string CharSnapshot.t) (char : CharInfo.t),
    In char new_chars ->
    is_Some (merge_encountered_characters new_chars m !! str_id (CharInfo.id char)).
Proof.
  unfold merge_encountered_characters.
  induction new_chars as [|c rest IH]; intros m char Hin; simpl in *.
  - contradiction.
  - destruct Hin as [-> | Hin]; [|now apply IH].
    assert (Hsome : is_Some (merge_encountered_step m char
                               !! str_id (CharInfo.id char))).
    { unfold merge_encountered_step.
      destruct (m !! str_id (CharInfo.id char)) eqn:Hk.
      - rewrite Hk. eauto.
      - rewrite lookup_insert_eq. eauto. }
    destruct Hsome as [snap Hsnap].
    pose proof (merge_encountered_characters_keeps rest _ _ _ Hsnap) as Hkeep.
    unfold merge_encountered_characters in Hkeep. rewrite Hkeep. eauto.
Qed.

Lemma falsy_map_view (o : option (gmap string CharSnapshot.t)) :
  truthy o = false -> default ∅ o = ∅.
Proof.
  destruct o as [m|]; simpl; [|reflexivity].
  unfold truthy, truthy_option, truthy, truthy_gmap.
  intros H. apply negb_false_iff, Nat.eqb_eq in H.
  now apply map_size_empty_inv.
Qed.

Lemma record_encountered_characters_view (new_node : StoryNode.t)
    (up : UserProgress.t) :
  encountered (record_encountered_characters new_node up)
  = merge_encountered_characters (new_characters new_node) (encountered up).
Proof.
  unfold record_encountered_characters, new_characters, encountered.
  destruct (StoryNode.branch_metadata new_node) as [md|]; simpl; [|reflexivity].
  destruct (default [] (Metadata.encountered_characters md)) as [|c cs] eqn:Hcs;
    [reflexivity|].
  change (truthy (c :: cs)) with true. cbv iota.
  destruct (truthy (UserProgress.encountered_characters up)) eqn:Ht; simpl.
  - reflexivity.
  - now rewrite (falsy_map_view _ Ht).
Qed.

Lemma update_user_progress_encountered (new_node : StoryNode.t) (node_id now : Z)
    (up : UserProgress.t) :
  encountered (update_user_progress new_node node_id now up)
  = merge_encountered_characters (new_characters new_node) (encountered up).
Proof.
  unfold update_user_progress. rewrite record_encountered_characters_view.
  f_equal. unfold encountered.
  destruct up as [uid csid cnid nc la ch enc am cm fm cb lv xp rel]. simpl.
  destruct ch as [[|h ch]|]; simpl; try reflexivity.
  destruct ((node_id =? h) || py_in node_id ch); reflexivity.
Qed.

Lemma transition_user_progress (db : DB.t) (node_id now : Z)
    (update_progress : bool) (st : GameState.t) (new_node : StoryNode.t) :
  node_get db node_id = Some new_node ->
  GameState.user_progress (snd (transition_to_node db node_id update_progress now st))
  = if update_progress
    then update_user_progress new_node node_id now (GameState.user_progress st)
    else GameState.user_progress st.
Proof.
  intros Hget. unfold transition_to_node. rewrite Hget.
  destruct update_progress, (GameState.current_node st); reflexivity.
Qed.

(** C7. The encountered-character map is write-once per character: across
    a successful transition every character id already in the map keeps
    exactly the snapshot it had, and an id that was absent and is present
    afterwards carries the snapshot (name, backstory, plot lines) of a
    character listed in the new node's metadata under that id. *)
Theorem encountered_characters_write_once (db : DB.t) (node_id now : Z)
    (update_progress : bool) (st : GameState.t) (new_node : StoryNode.t) :
  node_get db node_id = Some new_node ->
  let r := transition_to_node db node_id update_progress now st in
  let before := encountered (GameState.user_progress st) in
  let after := encountered (GameState.user_progress (snd r)) in
  fst r = Ok true /\
  (forall cid snap, before !! cid = Some snap -> after !! cid = Some snap) /\
  (forall cid snap, before !! cid = None -> after !! cid = Some snap ->
     exists char, In char (new_characters new_node) /\
                  str_id (CharInfo.id char) = cid /\
                  snap = snapshot_of char).
Proof.
  intros Hget r before after. subst r before after.
  split; [now apply (transition_to_node_succeeds _ _ _ _ _ _ Hget)|].
  rewrite (transition_user_progress _ _ _ _ _ _ Hget).
  destruct update_progress.
  - rewrite update_user_progress_encountered. split.
    + intros cid snap. apply merge_encountered_characters_keeps.
    + intros cid snap. apply merge_encountered_characters_origin.
  - split; [tauto | congruence].
Qed.

(** With [update_progress] set, every character of the new node's metadata
    is in the map after the transition. *)
Lemma encountered_characters_recorded (db : DB.t) (node_id now : Z)
    (st : GameState.t) (new_node : StoryNode.t) (char : CharInfo.t) :
  node_get db node_id = Some new_node ->
  In char (new_characters new_node) ->
  is_Some (encountered
             (GameState.user_progress (snd (transition_to_node db node_id true now st)))
           !! str_id (CharInfo.id char)).
Proof.
  intros Hget Hin.
  rewrite (transition_user_progress _ _ _ _ _ _ Hget).
  rewrite update_user_progress_encountered.
  now apply merge_encountered_characters_covers.
Qed.

(** *** The rolling history buffer *)

Lemma lastn_length {A} (k : nat) (l : list A) :
  length (lastn k l) = Nat.min k (length l).
Proof. unfold lastn. rewrite length_drop. lia. Qed.

Lemma lastn_short {A} (k : nat) (l : list A) :
  (length l <= k)%nat -> lastn k l = l.
Proof.
  intros Hle. unfold lastn.
  replace (length l - k)%nat with 0%nat by lia. reflexivity.
Qed.

Lemma lastn_app_lastn {A} (k : nat) (a b : list A) :
  lastn k (lastn k a ++ b) = lastn k (a ++ b).
Proof.
  unfold lastn at 1 3.
  rewrite length_app, lastn_length, length_app.
  unfold lastn.
  rewrite <- (drop_app_le a b (length a - k)) by lia.
  rewrite drop_drop. f_equal. lia.
Qed.

Lemma lastn_app_long {A} (k : nat) (a b : list A) :
  (k <= length b)%nat -> lastn k (a ++ b) = lastn k b.
Proof.
  intros Hle. unfold lastn. rewrite length_app.
  rewrite drop_app_ge by lia. f_equal. lia.
Qed.

Lemma update_story_history_buffer (node : StoryNode.t) (now : Z)
    (st : GameState.t) :
  (length (GameState._story_history_buffer st) <= 3)%nat ->
  GameState._story_history_buffer (_update_story_history node now st)
  = lastn 3 (GameState._story_history_buffer st ++ [departed_entry node now]).
Proof.
  intros Hlen. unfold _update_story_history, departed_entry. simpl.
  destruct (GameState._story_history_buffer st) as [|e1 [|e2 [|e3 [|e4 l]]]];
    simpl in *; try reflexivity; lia.
Qed.

Lemma transition_buffer (db : DB.t) (node_id now : Z) (update_progress : bool)
    (st : GameState.t) (new_node : StoryNode.t) :
  node_get db node_id = Some new_node ->
  let st' := snd (transition_to_node db node_id update_progress now st) in
  GameState._story_history_buffer st'
  = match GameState.current_node st with
    | Some cur => GameState._story_history_buffer (_update_story_history cur now st)
    | None => GameState._story_history_buffer st
    end /\
  GameState.current_node st' = Some new_node.
Proof.
  intros Hget. unfold transition_to_node. rewrite Hget.
  destruct update_progress, (GameState.current_node st); split; reflexivity.
Qed.

(** The buffer after a run, from any buffer within the bound. *)
Lemma run_transitions_buffer (steps : list Step.t) :
  forall st st' : GameState.t,
    (length (GameState._story_history_buffer st) <= 3)%nat ->
    run_transitions steps st = Some st' ->
    GameState._story_history_buffer st'
    = lastn 3 (GameState._story_history_buffer st
                 ++ departures (GameState.current_node st) steps).
Proof.
  induction steps as [|s rest IH]; intros st st' Hlen Hrun; simpl in *.
  - injection Hrun as <-. rewrite app_nil_r. symmetry. now apply lastn_short.
  - destruct (node_get (Step.db s) (Step.node_id s)) as [new_node|] eqn:Hget.
    + destruct (transition_buffer (Step.db s) (Step.node_id s) (Step.now s)
                  (Step.update_progress s) st new_node Hget) as [Hbuf Hcur].
      pose proof (transition_to_node_succeeds _ _ (Step.update_progress s)
                    (Step.now s) st _ Hget) as Hok.
      destruct (transition_to_node (Step.db s) (Step.node_id s)
                  (Step.update_progress s) (Step.now s) st) as [r st1].
      simpl in *. subst r.
      assert (Hbuf1 : GameState._story_history_buffer st1
                      = lastn 3 (GameState._story_history_buffer st
                                   ++ match GameState.current_node st with
                                      | Some node => [departed_entry node (Step.now s)]
                                      | None => []
                                      end)).
      { rewrite Hbuf. destruct (GameState.current_node st) as [cur|].
        - now apply update_story_history_buffer.
        - rewrite app_nil_r. symmetry. now apply lastn_short. }
      assert (Hlen1 : (length (GameState._story_history_buffer st1) <= 3)%nat)
        by (rewrite Hbuf1, lastn_length; lia).
      rewrite (IH st1 st' Hlen1 Hrun), Hcur, Hbuf1.
      rewrite lastn_app_lastn. now rewrite <- app_assoc.
    + rewrite (transition_to_node_raises _ _ _ _ _ Hget) in Hrun. discriminate.
Qed.

(** Every transition of a successful run after the first leaves a node. *)
Lemma departures_length (steps : list Step.t) :
  forall (st st' : GameState.t),
    run_transitions steps st = Some st' ->
    (length steps <= length (departures (GameState.current_node st) steps)
                     + match GameState.current_node st with
                       | Some _ => 0
                       | None => 1
                       end)%nat.
Proof.
  induction steps as [|s rest IH]; intros st st' Hrun; simpl in *; [lia|].
  destruct (node_get (Step.db s) (Step.node_id s)) as [new_node|] eqn:Hget.
  - destruct (transition_buffer (Step.db s) (Step.node_id s) (Step.now s)
                (Step.update_progress s) st new_node Hget) as [_ Hcur].
    pose proof (transition_to_node_succeeds _ _ (Step.update_progress s)
                  (Step.now s) st _ Hget) as Hok.
    destruct (transition_to_node (Step.db s) (Step.node_id s)
                (Step.update_progress s) (Step.now s) st) as [r st1].
    simpl in *. subst r.
    specialize (IH st1 st' Hrun). rewrite Hcur in IH.
    rewrite length_app. destruct (GameState.current_node st); simpl; lia.
  - rewrite (transition_to_node_raises _ _ _ _ _ Hget) in Hrun. discriminate.
Qed.

(** C8. The rolling history buffer, which a new [GameState] starts empty,
    never holds more than 3 entries along a run of transitions, and after a
    run of more than 3 successful transitions it holds exactly the 3 most
    recently departed nodes, oldest first, each stamped with the clock of
    the transition that left the node. *)
Theorem history_buffer_holds_last_three (steps : list Step.t)
    (st st' : GameState.t) :
  (length (GameState._story_history_buffer st) <= 3)%nat ->
  run_transitions steps st = Some st' ->
  (length (GameState._story_history_buffer st') <= 3)%nat /\
  ((3 < length steps)%nat ->
   length (GameState._story_history_buffer st') = 3%nat /\
   GameState._story_history_buffer st'
   = lastn 3 (departures (GameState.current_node st) steps)).
Proof.
  intros Hlen Hrun.
  pose proof (run_transitions_buffer steps st st' Hlen Hrun) as Hbuf.
  split.
  - rewrite Hbuf, lastn_length. lia.
  - intros Hmany.
    pose proof (departures_length steps st st' Hrun) as Hdep.
    assert (Hthree : (3 <= length (departures (GameState.current_node st) steps))%nat)
      by (destruct (GameState.current_node st); lia).
    rewrite Hbuf, lastn_app_long by assumption.
    split; [rewrite lastn_length; lia | reflexivity].
Qed.

(** ** Node resolution *)

Lemma node_get_Some (db : DB.t) (i : Z) (n : StoryNode.t) :
  node_get db i = Some n -> In n (DB.nodes db) /\ StoryNode.id n = i.
Proof.
  unfold node_get. intros H. apply find_some in H as [Hin Heq].
  split; [assumption | now apply Z.eqb_eq].
Qed.

Lemma story_get_Some (db : DB.t) (i : Z) (s : StoryGeneration.t) :
  story_get db i = Some s -> In s (DB.stories db) /\ StoryGeneration.id s = i.
Proof.
  unfold story_get. intros H. apply find_some in H as [Hin Heq].
  split; [assumption | now apply Z.eqb_eq].
Qed.

Lemma truthy_Z_nonzero (z : Z) : z <> 0 -> truthy z = true.
Proof.
  intros Hz. unfold truthy, truthy_Z. apply negb_true_iff. now apply Z.eqb_neq.
Qed.

Lemma latest_node_fold (t : Z) (l : list StoryNode.t) :
  forall best : option StoryNode.t,
    (forall b, best = Some b -> StoryNode.story_id b = t) ->
    let r := fold_left (latest_node_step t) l best in
    (r = None -> best = None /\ forall m, In m l -> StoryNode.story_id m <> t) /\
    (forall n, r = Some n ->
       StoryNode.story_id n = t /\
       (best = Some n \/ In n l) /\
       (forall b, best = Some b -> StoryNode.created_at b <= StoryNode.created_at n) /\
       (forall m, In m l -> StoryNode.story_id m = t ->
                  StoryNode.created_at m <= StoryNode.created_at n)).
Proof.
  induction l as [|x l IH]; intros best Hbest; simpl.
  - split.
    + intros ->. split; [reflexivity | contradiction].
    + intros n ->. split; [now apply Hbest|].
      split; [now left|]. split; [|contradiction].
      intros b Hb. injection Hb as ->. lia.
  - set (best' := latest_node_step t best x).
    assert (Hbest' : forall b, best' = Some b -> StoryNode.story_id b = t).
    { subst best'. unfold latest_node_step. intros b.
      destruct (StoryNode.story_id x =? t) eqn:Hx; [|now apply Hbest].
      apply Z.eqb_eq in Hx.
      destruct best as [b0|].
      - destruct (StoryNode.created_at b0 <? StoryNode.created_at x);
          intros Hb; injection Hb as <-; [assumption | now apply Hbest].
      - intros Hb. now injection Hb as <-. }
    destruct (IH best' Hbest') as [IHnone IHsome]. split.
    + intros Hr. destruct (IHnone Hr) as [Hb' Hl].
      subst best'. unfold latest_node_step in Hb'.
      destruct (StoryNode.story_id x =? t) eqn:Hx.
      * destruct best as [b0|]; [|discriminate].
        destruct (StoryNode.created_at b0 <? StoryNode.created_at x); discriminate.
      * apply Z.eqb_neq in Hx. split; [assumption|].
        intros m [<- | Hm]; [assumption | now apply Hl].
    + intros n Hr. destruct (IHsome n Hr) as [Hn [Hfrom [Hge Hall]]].
      split; [assumption|].
      subst best'. unfold latest_node_step in Hfrom, Hge.
      destruct (StoryNode.story_id x =? t) eqn:Hx.
      * apply Z.eqb_eq in Hx.
        destruct best as [b0|].
        -- destruct (StoryNode.created_at b0 <? StoryNode.created_at x) eqn:Hlt.
           ++ apply Z.ltb_lt in Hlt. specialize (Hge x eq_refl).
              split; [destruct Hfrom as [Hf | Hf];
                      [injection Hf as <-; right; now left | right; now right]|].
              split; [intros b Hb; injection Hb as <-; lia|].
              intros m [<- | Hm] Hmt; [lia | now apply Hall].
           ++ apply Z.ltb_ge in Hlt. specialize (Hge b0 eq_refl).
              split; [destruct Hfrom as [Hf | Hf]; [now left | right; now right]|].
              split; [intros b Hb; injection Hb as <-; lia|].
              intros m [<- | Hm] Hmt; [lia | now apply Hall].
        -- specialize (Hge x eq_refl).
           split; [destruct Hfrom as [Hf | Hf];
                   [injection Hf as <-; right; now left | right; now right]|].
           split; [discriminate|].
           intros m [<- | Hm] Hmt; [lia | now apply Hall].
      * apply Z.eqb_neq in Hx.
        split; [destruct Hfrom as [Hf | Hf]; [now left | right; now right]|].
        split; [assumption|].
        intros m [<- | Hm] Hmt; [contradiction | now apply Hall].
Qed.

Lemma latest_node_most_recent (db : DB.t) (t : Z) (n : StoryNode.t) :
  latest_node db t = Some n -> most_recent_of_story db t n.
Proof.
  unfold latest_node. intros H.
  destruct (latest_node_fold t (DB.nodes db) None) as [_ Hsome]; [discriminate|].
  destruct (Hsome n H) as [Hn [[Hf | Hin] [_ Hall]]]; [discriminate|].
  repeat split; assumption.
Qed.

Lemma latest_node_None (db : DB.t) (t : Z) :
  latest_node db t = None ->
  forall m, In m (DB.nodes db) -> StoryNode.story_id m <> t.
Proof.
  unfold latest_node. intros H.
  destruct (latest_node_fold t (DB.nodes db) None) as [Hnone _]; [discriminate|].
  now destruct (Hnone H).
Qed.

Lemma root_node_root (db : DB.t) (t : Z) (n : StoryNode.t) :
  root_node db t = Some n -> root_of_story db t n.
Proof.
  unfold root_node. intros H. apply find_some in H as [Hin Hp].
  apply andb_true_iff in Hp as [Ht Hp]. apply Z.eqb_eq in Ht.
  repeat split; try assumption.
  now destruct (StoryNode.parent_node_id n).
Qed.

Lemma resolve_current_node_chain (db : DB.t) (st : GameState.t) (t : Z) :
  store_ids_nonzero db ->
  is_Some (story_get db t) ->
  resolve_current_node db st (Some t)
  = match pointer_node db st t with
    | Some n => Some n
    | None => match latest_node db t with
              | Some n => Some n
              | None => root_node db t
              end
    end.
Proof.
  intros [Hnodes Hstories] [story Hstory].
  assert (Ht : t <> 0).
  { apply story_get_Some in Hstory as [Hin <-]. now apply Hstories. }
  unfold resolve_current_node, resolve_current_node_body, pointer_node, py_or.
  change (truthy (Some t)) with (truthy t).
  rewrite (truthy_Z_nonzero t Ht). cbv iota.
  change (negb (truthy (Some t))) with (negb (truthy t)).
  rewrite (truthy_Z_nonzero t Ht). cbn [negb]. rewrite Hstory.
  destruct (UserProgress.current_node_id (GameState.user_progress st)) as [i|];
    simpl.
  - destruct (node_get db i) as [n|] eqn:Hget.
    + apply node_get_Some in Hget as [Hin Hid].
      assert (Hi : i <> 0) by (rewrite <- Hid; now apply Hnodes).
      change (truthy (Some i)) with (truthy i).
      rewrite (truthy_Z_nonzero i Hi).
      destruct (StoryNode.story_id n =? t); [reflexivity|].
      destruct (latest_node db t); [reflexivity|].
      now destruct (root_node db t).
    + destruct (truthy (Some i));
        (destruct (latest_node db t); [reflexivity|]);
        now destruct (root_node db t).
  - change (truthy (@None Z)) with false. cbv iota.
    destruct (latest_node db t); [reflexivity|].
    now destruct (root_node db t).
Qed.

(** C2. Resolution follows the priority order.  (1) The node referenced by
    the session's [current_node_id] is returned when it exists and belongs
    to the requested story; a pointer to a node of another story is passed
    over.  Otherwise (2) a most recently created node of the story is
    returned, whenever the story has a node at all.  Otherwise (3) the
    story's root node is returned.  When none of the three yields a node
    the operation fails ([None]) instead of returning a node. *)
Theorem resolve_current_node_priority (db : DB.t) (st : GameState.t) (t : Z) :
  store_ids_nonzero db ->
  is_Some (story_get db t) ->
  let r := resolve_current_node db st (Some t) in
  let pointer :=
    UserProgress.current_node_id (GameState.user_progress st) ≫= node_get db in
  (forall n, pointer = Some n -> StoryNode.story_id n = t -> r = Some n) /\
  ((forall n, pointer = Some n -> StoryNode.story_id n <> t) ->
   (forall n, latest_node db t = Some n ->
              r = Some n /\ most_recent_of_story db t n) /\
   ((exists m, In m (DB.nodes db) /\ StoryNode.story_id m = t) ->
    is_Some (latest_node db t)) /\
   (latest_node db t = None ->
    (forall n, root_node db t = Some n -> r = Some n /\ root_of_story db t n) /\
    (root_node db t = None -> r = None))).
Proof.
  intros Hwf Hstory r pointer. subst r.
  rewrite (resolve_current_node_chain db st t Hwf Hstory).
  unfold pointer_node. fold pointer. split.
  - intros n Hp Hn. rewrite Hp.
    apply Z.eqb_eq in Hn. now rewrite Hn.
  - intros Hother.
    assert (Hnone : match pointer with
                    | Some n => if StoryNode.story_id n =? t then Some n else None
                    | None => None
                    end = None).
    { destruct pointer as [n|]; [|reflexivity].
      specialize (Hother n eq_refl). apply Z.eqb_neq in Hother.
      now rewrite Hother. }
    rewrite Hnone. split; [|split].
    + intros n Hlatest. rewrite Hlatest.
      split; [reflexivity | now apply latest_node_most_recent].
    + intros [m [Hin Hm]].
      destruct (latest_node db t) as [n|] eqn:Hlatest; [eauto|].
      exfalso. exact (latest_node_None db t Hlatest m Hin Hm).
    + intros Hlatest. rewrite Hlatest. split.
      * intros n Hroot. split; [assumption | now apply root_node_root].
      * tauto.
Qed.

(** Without the requested story there is nothing to resolve. *)
Lemma resolve_current_node_unknown_story (db : DB.t) (st : GameState.t) (t : Z) :
  t <> 0 -> story_get db t = None -> resolve_current_node db st (Some t) = None.
Proof.
  intros Ht Hstory.
  unfold resolve_current_node, resolve_current_node_body, py_or.
  change (truthy (Some t)) with (truthy t).
  rewrite (truthy_Z_nonzero t Ht). cbv iota.
  change (negb (truthy (Some t))) with (negb (truthy t)).
  rewrite (truthy_Z_nonzero t Ht). cbn [negb]. now rewrite Hstory.
Qed.

(** ** Mission outcomes *)

Lemma list_remove_first_absent (x : Z) (l : list Z) :
  py_in x l = false -> list_remove_first x l = l.
Proof.
  induction l as [|y l IH]; simpl; [reflexivity|].
  rewrite (Z.eqb_sym y x).
  destruct (x =? y); simpl; [discriminate|].
  intros H. now rewrite IH.
Qed.

Lemma list_remove_first_NoDup (x : Z) (l : list Z) :
  List.NoDup l -> ~ In x (list_remove_first x l).
Proof.
  induction l as [|y l IH]; simpl; intros Hnd; [tauto|].
  inversion Hnd as [|? ? Hy Hl]; subst.
  destruct (Z.eqb_spec y x) as [-> | Hne]; [assumption|].
  simpl. intros [Heq | Hin]; [contradiction | now apply IH].
Qed.

Lemma relationship_level_change (c d now : Z) (up : UserProgress.t) (c' : Z) :
  relationship_level (change_character_relationship c d now up) c'
  = relationship_level up c' + (if c =? c' then d else 0).
Proof.
  unfold relationship_level, change_character_relationship. simpl.
  destruct (Z.eqb_spec c c') as [-> | Hne].
  - rewrite lookup_insert_eq. reflexivity.
  - rewrite lookup_insert_ne by assumption. simpl. lia.
Qed.

(** What each step on the user's row changes and what it leaves alone. *)

Lemma move_to_completed_active (i : Z) (up : UserProgress.t) :
  default [] (UserProgress.active_missions (move_to_completed i up))
  = list_remove_first i (default [] (UserProgress.active_missions up)).
Proof.
  unfold move_to_completed.
  destruct up as [uid csid cnid nc la ch enc am cm fm cb lv xp rel].
  destruct am as [[|a am]|], cm as [[|c cm]|]; simpl; try reflexivity;
    rewrite (Z.eqb_sym a i); destruct (i =? a) eqn:Hia; simpl;
    try reflexivity;
    (destruct (py_in i am) eqn:Hin; simpl;
     [reflexivity | now rewrite (list_remove_first_absent _ _ Hin)]).
Qed.

Lemma move_to_completed_completed (i : Z) (up : UserProgress.t) :
  UserProgress.completed_missions (move_to_completed i up)
  = Some (default [] (UserProgress.completed_missions up) ++ [i]).
Proof.
  unfold move_to_completed.
  destruct up as [uid csid cnid nc la ch enc am cm fm cb lv xp rel].
  destruct am as [[|a am]|], cm as [[|c cm]|]; simpl; split_ifs; reflexivity.
Qed.

Lemma move_to_completed_frame (i : Z) (up : UserProgress.t) :
  UserProgress.currency_balances (move_to_completed i up)
  = UserProgress.currency_balances up /\
  UserProgress.relationships (move_to_completed i up)
  = UserProgress.relationships up.
Proof.
  unfold move_to_completed.
  destruct up as [uid csid cnid nc la ch enc am cm fm cb lv xp rel].
  destruct am as [[|a am]|], cm as [[|c cm]|]; simpl; split_ifs; split; reflexivity.
Qed.

Lemma add_currency_reward_balances (currency : string) (amount : Z)
    (up : UserProgress.t) :
  UserProgress.currency_balances (add_currency_reward currency amount up)
  = <[currency := default 0 (UserProgress.currency_balances up !! currency) + amount]>
      (UserProgress.currency_balances up).
Proof.
  unfold add_currency_reward.
  destruct (UserProgress.currency_balances up !! currency); reflexivity.
Qed.

Lemma add_currency_reward_frame (currency : string) (amount : Z)
    (up : UserProgress.t) :
  UserProgress.active_missions (add_currency_reward currency amount up)
  = UserProgress.active_missions up /\
  UserProgress.completed_missions (add_currency_reward currency amount up)
  = UserProgress.completed_missions up /\
  UserProgress.relationships (add_currency_reward currency amount up)
  = UserProgress.relationships up.
Proof.
  unfold add_currency_reward.
  destruct (UserProgress.currency_balances up !! currency); repeat split; reflexivity.
Qed.

Lemma adjust_relationship_frame (o : option Z) (d now : Z) (up : UserProgress.t) :
  UserProgress.active_missions (adjust_relationship o d now up)
  = UserProgress.active_missions up /\
  UserProgress.completed_missions (adjust_relationship o d now up)
  = UserProgress.completed_missions up /\
  UserProgress.currency_balances (adjust_relationship o d now up)
  = UserProgress.currency_balances up.
Proof.
  unfold adjust_relationship.
  destruct o as [c|]; [destruct (truthy c)|]; repeat split; reflexivity.
Qed.

Lemma adjust_relationship_level (o : option Z) (d now : Z) (up : UserProgress.t)
    (c : Z) :
  relationship_level (adjust_relationship o d now up) c
  = relationship_level up c + relationship_delta o d c.
Proof.
  unfold adjust_relationship, relationship_delta.
  destruct o as [g|]; [|lia].
  destruct (truthy g); simpl; [|lia].
  apply relationship_level_change.
Qed.

Lemma append_progress_update_spec (update : ProgressUpdate.t) (m : Mission.t) :
  Mission.progress_updates (append_progress_update update m)
  = Some (default [] (Mission.progress_updates m) ++ [update]) /\
  Mission.status (append_progress_update update m) = Mission.status m /\
  Mission.progress (append_progress_update update m) = Mission.progress m.
Proof.
  unfold append_progress_update.
  destruct m as [i u ti ob g t s d p pu rc ra ca sid].
  destruct pu as [[|x pu]|]; repeat split; reflexivity.
Qed.

Section MissionOutcomeFacts.

Variable add_experience_points : Z * Z -> Z -> Z * Z.

Lemma reward_user_spec (m : Mission.t) (now : Z) (up : UserProgress.t) :
let up' := reward_user add_experience_points m now up in
default [] (UserProgress.active_missions up')
= list_remove_first (Mission.id m) (default [] (UserProgress.active_missions up)) /\
UserProgress.completed_missions up'
= Some (default [] (UserProgress.completed_missions up) ++ [Mission.id m]) /\
UserProgress.currency_balances up'
= <[Mission.reward_currency m :=
      default 0 (UserProgress.currency_balances up !! Mission.reward_currency m)
      + Mission.reward_amount m]> (UserProgress.currency_balances up) /\
forall c, relationship_level up' c
          = relationship_level up c
            + relationship_delta (Mission.giver_id m) 2 c
            + relationship_delta (Mission.target_id m) (-3) c.
Proof.
unfold reward_user.
set (up1 := move_to_completed (Mission.id m) up).
set (up2 := add_currency_reward _ _ up1).
set (up3 := UserProgress.set_level_experience _ up2).
set (up4 := adjust_relationship (Mission.giver_id m) 2 now up3).
cbv zeta.
destruct (adjust_relationship_frame (Mission.target_id m) (-3) now up4)
  as [Ha5 [Hc5 Hb5]].
destruct (adjust_relationship_frame (Mission.giver_id m) 2 now up3)
  as [Ha4 [Hc4 Hb4]].
destruct (add_currency_reward_frame (Mission.reward_currency m)
            (Mission.reward_amount m) up1) as [Ha2 [Hc2 Hr2]].
destruct (move_to_completed_frame (Mission.id m) up) as [Hb1 Hr1].
fold up1 in Hb1, Hr1. fold up2 in Ha2, Hc2, Hr2. fold up4 in Ha4, Hc4, Hb4.
assert (Ha3 : UserProgress.active_missions up3 = UserProgress.active_missions up2)
  by reflexivity.
assert (Hc3 : UserProgress.completed_missions up3 = UserProgress.completed_missions up2)
  by reflexivity.
assert (Hb3 : UserProgress.currency_balances up3 = UserProgress.currency_balances up2)
  by reflexivity.
assert (Hr3 : UserProgress.relationships up3 = UserProgress.relationships up2)
  by reflexivity.
repeat split.
- rewrite Ha5, Ha4, Ha3, Ha2. apply move_to_completed_active.
- rewrite Hc5, Hc4, Hc3, Hc2. apply move_to_completed_completed.
- rewrite Hb5, Hb4, Hb3. subst up2.
  rewrite add_currency_reward_balances. now rewrite Hb1.
- intros c. rewrite !adjust_relationship_level.
  assert (Hlevel : relationship_level up3 c = relationship_level up c)
    by (unfold relationship_level; now rewrite Hr3, Hr2, Hr1).
  unfold up4. rewrite adjust_relationship_level, Hlevel. reflexivity.
Qed.

End MissionOutcomeFacts.

Section MissionClaims.

Variable add_experience_points : Z * Z -> Z -> Z * Z.

(** C3. Completing an active mission returns [True]; the mission is then
  [completed] with progress 100 and one more audit entry (progress 100,
  status completed) at the end of [progress_updates]; in the user's row,
  when the user has one, the mission id is removed from the active list
  (its first occurrence: it is gone when the list had no duplicates) and
  appended to the completed list, [reward_amount] is added to the balance
  of [reward_currency] (a missing bucket counts as 0 and is created), and
  the relationship level changes by +2 toward the giver and by -3 toward
  the target, for the references that are set. *)
Theorem complete_mission_active (db : DB.t) (mission_id : Z) (user_id : string)
  (now : Z) (m : Mission.t) :
get_mission_by_id db mission_id = Some m ->
Mission.status m = "active" ->
let r := complete_mission add_experience_points db mission_id user_id now in
fst r = true /\
(exists m', get_mission_by_id (snd r) mission_id = Some m' /\
   Mission.status m' = "completed" /\
   Mission.progress m' = 100 /\
   Mission.progress_updates m'
   = Some (default [] (Mission.progress_updates m) ++ [completed_update now])) /\
(forall up, DB.users db !! user_id = Some up ->
   exists up', DB.users (snd r) !! user_id = Some up' /\
     default [] (UserProgress.active_missions up')
     = list_remove_first (Mission.id m) (default [] (UserProgress.active_missions up)) /\
     (List.NoDup (default [] (UserProgress.active_missions up)) ->
      ~ In (Mission.id m) (default [] (UserProgress.active_missions up'))) /\
     UserProgress.completed_missions up'
     = Some (default [] (UserProgress.completed_missions up) ++ [Mission.id m]) /\
     UserProgress.currency_balances up'
     = <[Mission.reward_currency m :=
           default 0 (UserProgress.currency_balances up !! Mission.reward_currency m)
           + Mission.reward_amount m]> (UserProgress.currency_balances up) /\
     (forall c, relationship_level up' c
                = relationship_level up c
                  + relationship_delta (Mission.giver_id m) 2 c
                  + relationship_delta (Mission.target_id m) (-3) c)).
Proof.
intros Hget Hactive r. subst r.
unfold complete_mission. rewrite Hget, Hactive.
change (negb ("active" =? "active")%string) with false. cbv iota.
set (m1 := append_progress_update (completed_update now) _).
assert (Hids : Mission.id m1 = Mission.id m /\
               Mission.reward_currency m1 = Mission.reward_currency m /\
               Mission.reward_amount m1 = Mission.reward_amount m /\
               Mission.giver_id m1 = Mission.giver_id m /\
               Mission.target_id m1 = Mission.target_id m).
{ subst m1. unfold append_progress_update.
  destruct m as [i u ti ob g t s d p pu rc ra ca sid].
  destruct pu as [[|x pu]|]; repeat split; reflexivity. }
destruct Hids as [Hid [Hrc [Hra [Hg Ht]]]].
split; [reflexivity|]. split.
- exists m1. split.
  + unfold get_mission_by_id.
    destruct (DB.users _ !! user_id); simpl; apply lookup_insert_eq.
  + subst m1.
    destruct (append_progress_update_spec (completed_update now)
                (Mission.set_progress 100
                   (Mission.set_completed_at (Some now)
                      (Mission.set_status "completed" m))))
      as [Hpu [Hst Hpr]].
    rewrite Hpu, Hst, Hpr. repeat split; reflexivity.
- intros up Hup. simpl. rewrite Hup. simpl.
  exists (reward_user add_experience_points m1 now up).
  split; [apply lookup_insert_eq|].
  destruct (reward_user_spec add_experience_points m1 now up)
    as [Ha [Hc [Hb Hr]]].
  rewrite Hid, Hrc, Hra, Hg, Ht in *.
  split; [assumption|]. split.
  + intros Hnd. rewrite Ha. now apply list_remove_first_NoDup.
  + repeat split; assumption.
Qed.

Lemma outcome_needs_active (db : DB.t) (mission_id : Z) (user_id : string)
  (reason : option string) (now : Z) (m : Mission.t) :
get_mission_by_id db mission_id = Some m ->
Mission.status m <> "active" ->
complete_mission add_experience_points db mission_id user_id now = (false, db) /\
fail_mission db mission_id user_id reason now = (false, db).
Proof.
intros Hget Hstatus.
unfold complete_mission, fail_mission. rewrite Hget.
apply String.eqb_neq in Hstatus. rewrite Hstatus. split; reflexivity.
Qed.

(** C4. On a mission that is already completed or failed, both
  [complete_mission] and [fail_mission] return [False] and change nothing:
  the store after the call is the store before it, so the mission keeps
  its status, progress and [progress_updates], and the user's mission
  lists are untouched. *)
Theorem terminal_mission_is_immutable (db : DB.t) (mission_id : Z)
  (user_id : string) (reason : option string) (now : Z) (m : Mission.t) :
get_mission_by_id db mission_id = Some m ->
Mission.status m = "completed" \/ Mission.status m = "failed" ->
let rc := complete_mission add_experience_points db mission_id user_id now in
let rf := fail_mission db mission_id user_id reason now in
(fst rc = false /\ snd rc = db /\
 get_mission_by_id (snd rc) mission_id = Some m /\
 DB.users (snd rc) = DB.users db) /\
(fst rf = false /\ snd rf = db /\
 get_mission_by_id (snd rf) mission_id = Some m /\
 DB.users (snd rf) = DB.users db).
Proof.
intros Hget Hterminal rc rf. subst rc rf.
assert (Hstatus : Mission.status m <> "active")
  by (destruct Hterminal as [-> | ->]; discriminate).
destruct (outcome_needs_active db mission_id user_id reason now m Hget Hstatus)
  as [-> ->].
simpl. repeat split; assumption || reflexivity.
Qed.

End MissionClaims.

(** ** Context assembly *)

Lemma collect_ancestors_length (db : DB.t) (budget : nat) :
  forall parent_id, (length (collect_ancestors db budget parent_id) <= budget)%nat.
Proof.
  induction budget as [|k IH]; intros p; simpl; [lia|].
  destruct (truthy p); [|simpl; lia].
  destruct (p ≫= node_get db) as [n|]; simpl; [|lia].
  specialize (IH (StoryNode.parent_node_id n)). lia.
Qed.

Lemma collect_ancestors_chain (db : DB.t) (budget : nat) :
  forall parent_id,
    parent_chain db parent_id (collect_ancestors db budget parent_id).
Proof.
  induction budget as [|k IH]; intros p; simpl; [exact I|].
  destruct (truthy p); [|exact I].
  destruct (p ≫= node_get db) as [n|] eqn:Hn; simpl; [|exact I].
  split; [exact Hn | apply IH].
Qed.

Lemma collect_ancestors_stops (db : DB.t) (budget : nat) :
  forall parent_id,
    (length (collect_ancestors db budget parent_id) < budget)%nat ->
    climb_ends db (pointer_above parent_id (collect_ancestors db budget parent_id)).
Proof.
  induction budget as [|k IH]; intros p; simpl; [lia|].
  destruct (truthy p) eqn:Hp; [|intros _; now left].
  destruct (p ≫= node_get db) as [n|] eqn:Hn; simpl.
  - intros Hlen. apply IH. lia.
  - intros _. now right.
Qed.

Lemma py_slice_length (n : nat) (s : string) :
  String.length (py_slice n s) = Nat.min n (String.length s).
Proof.
  unfold py_slice. revert n.
  induction s as [|a s IH]; intros [|n]; simpl; try reflexivity.
  now rewrite IH.
Qed.

Lemma py_slice_short (n : nat) (s : string) :
  (String.length s <= n)%nat -> py_slice n s = s.
Proof.
  unfold py_slice. revert n.
  induction s as [|a s IH]; intros [|n] Hle; simpl in *; try reflexivity; try lia.
  rewrite IH by lia. reflexivity.
Qed.

Lemma truncate_text_spec (cap : nat) (s : string) :
  ((String.length s <= cap)%nat -> truncate_text cap s = s) /\
  ((cap < String.length s)%nat ->
   truncate_text cap s = py_slice cap s +:+ "..." /\
   String.length (py_slice cap s) = cap).
Proof.
  unfold truncate_text. split; intros H.
  - destruct (Nat.ltb_spec cap (String.length s)); [lia|].
    now apply py_slice_short.
  - destruct (Nat.ltb_spec cap (String.length s)); [|lia].
    split; [reflexivity|]. rewrite py_slice_length. lia.
Qed.

Lemma format_nodes_ok (label : string) (cap : nat) (nodes : list StoryNode.t) :
  forall (i : nat) (texts : list string),
    map StoryNode.narrative_text nodes = map Some texts ->
    format_nodes label cap i nodes = Ok (numbered_lines label cap i texts).
Proof.
  induction nodes as [|n nodes IH]; intros i [|t texts] Hmap; simpl in *;
    try discriminate; [reflexivity|].
  injection Hmap as Hn Hrest. rewrite Hn, (IH (S i) texts Hrest). reflexivity.
Qed.

Lemma format_nodes_raises (label : string) (cap : nat) (nodes : list StoryNode.t) :
  forall i : nat,
    (exists n, In n nodes /\ StoryNode.narrative_text n = None) ->
    format_nodes label cap i nodes = Raise TypeError.
Proof.
  induction nodes as [|n nodes IH]; intros i [x [Hin Hx]]; simpl in *;
    [contradiction|].
  destruct Hin as [-> | Hin].
  - now rewrite Hx.
  - destruct (StoryNode.narrative_text n); [|reflexivity].
    rewrite (IH (S i)) by eauto. reflexivity.
Qed.

Lemma numbered_lines_nil (label : string) (cap i : nat) (texts : list string) :
  numbered_lines label cap i texts = [] <-> texts = [].
Proof. destruct texts; simpl; split; congruence. Qed.

Lemma key_section_ok (db : DB.t) (cur : StoryNode.t) (texts : list string) :
  map StoryNode.narrative_text (key_plot_nodes db cur) = map Some texts ->
  (if truthy (collect_key_node_ids (active_plot_arcs db (StoryNode.story_id cur)))
   then
     if truthy (key_plot_nodes db cur)
     then lines ← format_nodes "MOMENT" 300 1 (key_plot_nodes db cur);
          Ok ([] ++ ["KEY PLOT POINTS:"] ++ lines ++ [""])
     else Ok []
   else Ok [])
  = Ok (context_section "KEY PLOT POINTS:" (numbered_lines "MOMENT" 300 1 texts)).
Proof.
  intros Hmap.
  destruct (collect_key_node_ids _) as [|k ks] eqn:Hids.
  - change (truthy (@nil Z)) with false. cbv iota.
    unfold key_plot_nodes in Hmap. rewrite Hids in Hmap. simpl in Hmap.
    assert (Hnil : List.filter (fun _ : StoryNode.t => false) (DB.nodes db) = []).
    { induction (DB.nodes db); simpl; auto. }
    rewrite Hnil in Hmap. destruct texts; [reflexivity | discriminate].
  - change (truthy (k :: ks)) with true. cbv iota.
    destruct (key_plot_nodes db cur) as [|n ns] eqn:Hnodes.
    + destruct texts; [reflexivity | discriminate].
    + change (truthy (n :: ns)) with true. cbv iota.
      rewrite (format_nodes_ok _ _ _ _ _ Hmap).
      destruct texts; [discriminate | reflexivity].
Qed.

Lemma ancestor_section_ok (nodes : list StoryNode.t) (texts : list string)
    (parts : list string) :
  map StoryNode.narrative_text nodes = map Some texts ->
  (if truthy nodes
   then lines ← format_nodes "SCENE" 200 1 nodes;
        Ok (parts ++ ["RECENT STORY HISTORY:"] ++ lines ++ [""])
   else Ok parts)
  = Ok (parts ++ context_section "RECENT STORY HISTORY:"
                   (numbered_lines "SCENE" 200 1 texts)).
Proof.
  intros Hmap. destruct nodes as [|n ns].
  - destruct texts; [|discriminate]. simpl. now rewrite app_nil_r.
  - change (truthy (n :: ns)) with true. cbv iota.
    rewrite (format_nodes_ok _ _ _ _ _ Hmap).
    destruct texts; [discriminate | reflexivity].
Qed.

Lemma get_enhanced_context_body_ok (db : DB.t) (node_id : Z) (cur : StoryNode.t)
    (key_texts ancestor_texts : list string) :
  node_get db node_id = Some cur ->
  map StoryNode.narrative_text (key_plot_nodes db cur) = map Some key_texts ->
  map StoryNode.narrative_text (ancestor_nodes db cur) = map Some ancestor_texts ->
  get_enhanced_context_body db node_id
  = Ok (py_join newline
          (context_section "KEY PLOT POINTS:"
             (numbered_lines "MOMENT" 300 1 key_texts)
           ++ context_section "RECENT STORY HISTORY:"
                (numbered_lines "SCENE" 200 1 ancestor_texts)
           ++ mission_lines cur)).
Proof.
  intros Hget Hkeys Hanc.
  unfold get_enhanced_context_body. rewrite Hget. cbv zeta.
  pose proof (key_section_ok db cur key_texts Hkeys) as Hks.
  unfold key_plot_nodes in Hks. rewrite Hks. clear Hks.
  cbn [mbind result_bind].
  pose proof (ancestor_section_ok (ancestor_nodes db cur) ancestor_texts
                (context_section "KEY PLOT POINTS:"
                   (numbered_lines "MOMENT" 300 1 key_texts)) Hanc) as Has.
  unfold ancestor_nodes in Has. rewrite Has. clear Has.
  cbn [mbind result_bind]. now rewrite <- app_assoc.
Qed.

Lemma texts_present_or_missing (nodes : list StoryNode.t) :
  (exists texts, map StoryNode.narrative_text nodes = map Some texts) \/
  (exists n, In n nodes /\ StoryNode.narrative_text n = None).
Proof.
  induction nodes as [|n nodes IH]; simpl.
  - left. now exists [].
  - destruct (StoryNode.narrative_text n) as [t|] eqn:Hn.
    + destruct IH as [[texts Htexts] | [x [Hin Hx]]].
      * left. exists (t :: texts). simpl. now rewrite Htexts.
      * right. exists x. split; [now right | assumption].
    + right. exists n. split; [now left | assumption].
Qed.

Lemma get_enhanced_context_body_raises (db : DB.t) (node_id : Z)
    (cur : StoryNode.t) :
  node_get db node_id = Some cur ->
  (exists n, In n (key_plot_nodes db cur ++ ancestor_nodes db cur) /\
             StoryNode.narrative_text n = None) ->
  get_enhanced_context_body db node_id = Raise TypeError.
Proof.
  intros Hget [n [Hin Hn]].
  unfold get_enhanced_context_body. rewrite Hget. cbv zeta.
  destruct (texts_present_or_missing (key_plot_nodes db cur))
    as [[key_texts Hkeys] | Hk].
  - pose proof (key_section_ok db cur key_texts Hkeys) as Hks.
    unfold key_plot_nodes in Hks. rewrite Hks. clear Hks.
    cbn [mbind result_bind].
    assert (Hanc : exists a, In a (ancestor_nodes db cur) /\
                             StoryNode.narrative_text a = None).
    { apply in_app_or in Hin as [Hin | Hin]; [|eauto].
      exfalso. apply (in_map StoryNode.narrative_text) in Hin.
      rewrite Hkeys, Hn in Hin. apply in_map_iff in Hin as [t [Ht _]].
      discriminate. }
    fold (ancestor_nodes db cur).
    destruct (ancestor_nodes db cur) as [|a0 ancs] eqn:Hnodes.
    + destruct Hanc as [a [[] _]].
    + change (truthy (a0 :: ancs)) with true. cbv iota.
      rewrite (format_nodes_raises "SCENE" 200 (a0 :: ancs) 1 Hanc). reflexivity.
  - fold (key_plot_nodes db cur).
    assert (Hids : truthy (collect_key_node_ids
                             (active_plot_arcs db (StoryNode.story_id cur))) = true).
    { destruct (collect_key_node_ids _) as [|i ids] eqn:Hids; [|reflexivity].
      exfalso. destruct Hk as [k [Hkin _]].
      unfold key_plot_nodes in Hkin. rewrite Hids in Hkin. simpl in Hkin.
      apply filter_In in Hkin as [_ Hfalse]. discriminate. }
    rewrite Hids.
    destruct (key_plot_nodes db cur) as [|k0 ks] eqn:Hnodes.
    + destruct Hk as [k [[] _]].
    + change (truthy (k0 :: ks)) with true. cbv iota.
      rewrite (format_nodes_raises "MOMENT" 300 (k0 :: ks) 1 Hk). reflexivity.
Qed.

(** C9. Context assembly never fails: it returns a string, the empty one
    when the node is unknown or when anything inside raises.  From the
    current node it climbs the parent pointers, collecting at most 5
    ancestors and stopping earlier only at a root or at a pointer that
    resolves to no row, and presents them oldest first.  The text is made of
    the key plot points first (each text cut at 300 characters), then the
    ancestors (each cut at 200 characters), then the current mission
    snapshot; a section with nothing in it is left out.  A text longer than
    its cap is cut to exactly the cap and marked with an ellipsis. *)
Theorem get_enhanced_context_assembles (db : DB.t) (node_id max_tokens : Z) :
  (node_get db node_id = None ->
   get_enhanced_context db node_id max_tokens = "") /\
  (forall e, get_enhanced_context_body db node_id = Raise e ->
             get_enhanced_context db node_id max_tokens = "") /\
  (forall cur, node_get db node_id = Some cur ->
     let climb := collect_ancestors db 5 (StoryNode.parent_node_id cur) in
     (length (ancestor_nodes db cur) <= 5)%nat /\
     ancestor_nodes db cur = rev climb /\
     parent_chain db (StoryNode.parent_node_id cur) climb /\
     ((length climb < 5)%nat ->
      climb_ends db (pointer_above (StoryNode.parent_node_id cur) climb)) /\
     (forall key_texts ancestor_texts,
        map StoryNode.narrative_text (key_plot_nodes db cur) = map Some key_texts ->
        map StoryNode.narrative_text (ancestor_nodes db cur)
        = map Some ancestor_texts ->
        get_enhanced_context db node_id max_tokens
        = py_join newline
            (context_section "KEY PLOT POINTS:"
               (numbered_lines "MOMENT" 300 1 key_texts)
             ++ context_section "RECENT STORY HISTORY:"
                  (numbered_lines "SCENE" 200 1 ancestor_texts)
             ++ mission_lines cur)) /\
     ((exists n, In n (key_plot_nodes db cur ++ ancestor_nodes db cur) /\
                 StoryNode.narrative_text n = None) ->
      get_enhanced_context db node_id max_tokens = "") /\
     (StoryNode.branch_metadata cur ≫= Metadata.mission_info = None ->
      mission_lines cur = [])) /\
  (forall cap s,
     ((String.length s <= cap)%nat -> truncate_text cap s = s) /\
     ((cap < String.length s)%nat ->
      truncate_text cap s = py_slice cap s +:+ "..." /\
      String.length (py_slice cap s) = cap)).
Proof.
  split; [|split; [|split]].
  - intros Hget. unfold get_enhanced_context, get_enhanced_context_body.
    now rewrite Hget.
  - intros e He. unfold get_enhanced_context. now rewrite He.
  - intros cur Hget climb. subst climb.
    split; [|split; [|split; [|split; [|split]]]].
    + unfold ancestor_nodes. rewrite length_rev. apply collect_ancestors_length.
    + reflexivity.
    + apply collect_ancestors_chain.
    + apply collect_ancestors_stops.
    + intros key_texts ancestor_texts Hkeys Hanc.
      unfold get_enhanced_context.
      now rewrite (get_enhanced_context_body_ok db node_id cur _ _ Hget Hkeys Hanc).
    + split.
      * intros Hmissing. unfold get_enhanced_context.
        now rewrite (get_enhanced_context_body_raises db node_id cur Hget Hmissing).
      * intros Hmi. unfold mission_lines. now rewrite Hmi.
  - apply truncate_text_spec.
Qed.

(** ** Mission extraction *)

Lemma BASE_REWARDS_empty_currency : BASE_REWARDS !! "" = None.
Proof. reflexivity. Qed.

Section ExtractionFacts.

Variable re : RegexEngine.
Variable character_exists : Z -> bool.

(** C10. When the extraction ends without a reward in a recognised
  currency, so that [reward_currency] still holds the default empty
  string, [extract_mission_details] returns [None] and not a dictionary of
  defaults: the lookup of the empty currency in [BASE_REWARDS] raises
  [KeyError], and the handler returns [None]. *)
Theorem extract_mission_details_without_reward (story_text : string)
  (characters : option (list CharacterDict.t)) :
MissionDetails.reward_currency
  (extract_fields re character_exists story_text characters) = "" ->
determine_difficulty (extract_fields re character_exists story_text characters)
= Raise KeyError /\
extract_mission_details re character_exists story_text characters = None.
Proof.
intros Hcur. unfold extract_mission_details, determine_difficulty.
rewrite Hcur, BASE_REWARDS_empty_currency. split; reflexivity.
Qed.







End ExtractionFacts.

(** If the extraction ends with a currency of [BASE_REWARDS], the details
    are returned with the difficulty set from the base reward. *)
Lemma extract_mission_details_with_reward (re : RegexEngine)
    (character_exists : Z -> bool) (story_text : string)
    (characters : option (list CharacterDict.t)) (base : Z) :
  let d := extract_fields re character_exists story_text characters in
  BASE_REWARDS !! MissionDetails.reward_currency d = Some base ->
  exists difficulty,
    extract_mission_details re character_exists story_text characters
    = Some (MissionDetails.set_difficulty difficulty d) /\
    (difficulty = "hard" \/ difficulty = "medium" \/ difficulty = "easy").
Proof.
  intros d Hbase. unfold extract_mission_details, determine_difficulty.
  fold d. rewrite Hbase.
  eexists. split; [reflexivity|].
  destruct (5 * base <? 2 * MissionDetails.reward_amount d); [now left|].
  destruct (3 * base <? 2 * MissionDetails.reward_amount d); [right; now left|].
  right; now right.
Qed.

(** ** Choice processing *)

Lemma reload_state_facts (db : DB.t) (st st1 : GameState.t) :
  reload_state db st = Ok st1 ->
  exists up, DB.users db !! GameState.user_id st = Some up /\
             GameState.user_id st1 = GameState.user_id st /\
             GameState.user_progress st1 = up /\
             GameState._node_count st1 = UserProgress.node_count up /\
             GameState._story_history_buffer st1 = GameState._story_history_buffer st.
Proof.
  unfold reload_state.
  destruct (DB.users db !! GameState.user_id st) as [up|]; [|discriminate].
  intros H. injection H as <-. exists up.
  destruct (UserProgress.current_story_id up) as [sid|];
    destruct (UserProgress.current_node_id up) as [nid|];
    try destruct (truthy sid); try destruct (truthy nid);
    destruct (truthy (UserProgress.active_missions up));
    repeat split; reflexivity.
Qed.

Lemma make_choice_prepare_facts (db : DB.t) (st st1 : GameState.t)
    (fresh_mission_id : Z) (ctx : ChoiceContext.t) :
  make_choice_prepare db st fresh_mission_id = (Ok ctx, st1) ->
  exists up, DB.users db !! GameState.user_id st = Some up /\
             GameState.user_id st1 = GameState.user_id st /\
             GameState.user_progress st1 = up /\
             GameState._node_count st1 = UserProgress.node_count up /\
             DB.nodes (ChoiceContext.session ctx) = DB.nodes db /\
             DB.users (ChoiceContext.session ctx) = DB.users db.
Proof.
  unfold make_choice_prepare.
  destruct (reload_state db st) as [st0|e] eqn:Hreload; [|discriminate].
  destruct (reload_state_facts db st st0 Hreload) as [up [Hup [Hid [Hprog [Hcount _]]]]].
  destruct (negb (truthy (UserProgress.current_story_id (GameState.user_progress st0))));
    [discriminate|].
  destruct (UserProgress.current_story_id (GameState.user_progress st0)
              ≫= story_get db) as [story|]; [|discriminate].
  destruct (resolve_current_node db st0 (Some (StoryGeneration.id story)))
    as [current_node|]; [|discriminate].
  destruct (first_active_mission db (GameState.user_id st0)) as [mission|];
    (destruct (StoryNode.branch_metadata current_node); [|discriminate]);
    intros H; injection H as <- <-; exists up; repeat split; assumption.
Qed.

Section MakeChoiceFacts.

Variable generate_continuation :
Continuation.request -> option Continuation.segment.

(** C1 (amended). When the generation call fails after the node count has
  been incremented, [make_choice] raises and creates no node, and the
  failure path does not restore the count: the session's node count stays
  exactly one above the persisted value the call started from (the handler
  only rolls the storage session back and re-raises), and when the commit
  inside [increment_node_count] went through, the persisted column holds
  the incremented value as well. *)
Theorem make_choice_failure_keeps_increment (commit_ok : bool) (db : DB.t)
  (st st1 : GameState.t) (choice_id : string) (custom_choice_text : option string)
  (encountered : option (list CharInfo.t)) (fresh_mission_id fresh_node_id now : Z)
  (ctx : ChoiceContext.t) (up : UserProgress.t) :
DB.users db !! GameState.user_id st = Some up ->
make_choice_prepare db st fresh_mission_id = (Ok ctx, st1) ->
generate_continuation
  (Continuation.mk_request
     (StoryNode.narrative_text (ChoiceContext.current_node ctx))
     (chosen_choice choice_id custom_choice_text)
     (UserProgress.node_count up + 1)
     (get_enhanced_context db (StoryNode.id (ChoiceContext.current_node ctx)) 3000))
= None ->
let out := make_choice generate_continuation commit_ok db st choice_id
             custom_choice_text encountered fresh_mission_id fresh_node_id now in
fst (fst out) = Raise RuntimeError /\
get_node_count (snd out) = UserProgress.node_count up + 1 /\
DB.nodes (snd (fst out)) = DB.nodes db /\
(commit_ok = true ->
 UserProgress.node_count <$> DB.users (snd (fst out)) !! GameState.user_id st
 = Some (UserProgress.node_count up + 1)).
Proof.
intros Hup Hprep Hgen out. subst out.
destruct (make_choice_prepare_facts db st st1 fresh_mission_id ctx Hprep)
  as [up' [Hup' [Hid [Hprog [Hcount [Hnodes Husers]]]]]].
rewrite Hup in Hup'. injection Hup' as <-.
unfold make_choice. rewrite Hprep. cbv zeta.
unfold increment_node_count. cbv zeta.
destruct commit_ok; cbn [GameState._node_count GameState.set_node_count
                         GameState.set_user_progress];
  rewrite Hcount, Hgen; cbn [fst snd].
- split; [reflexivity|]. split; [reflexivity|]. split; [exact Hnodes|].
  intros _. cbn. rewrite Hid, lookup_insert_eq. reflexivity.
- split; [reflexivity|]. split; [reflexivity|]. split; [reflexivity|].
  discriminate.
Qed.

End MakeChoiceFacts.

(** * The sample session *)

(** Scenario A of the specification: the first choice from the root creates
    a node, counts it, records the root in the history buffer and moves the
    session to the new node. *)
Example scenario_first_choice :
  let out := make_choice Sample.generation_answers true Sample.db Sample.state
               "1" None None 9 7 200 in
  is_ok (fst (fst out)) = true /\
  get_node_count (snd out) = 1 /\
  map HistoryEntry.id (GameState._story_history_buffer (snd out)) = [1] /\
  UserProgress.current_node_id (GameState.user_progress (snd out)) = Some 7 /\
  length (DB.nodes (snd (fst out))) = S (length (DB.nodes Sample.db)).
Proof. vm_compute. repeat split; reflexivity. Qed.

(** Scenario D: a pointer into another story is passed over. *)
Example scenario_cross_story_pointer :
  StoryNode.id <$> resolve_current_node Sample.db Sample.state (Some 2) = Some 6.
Proof. reflexivity. Qed.

Example sample_extraction_with_reward :
  MissionDetails.difficulty
    <$> extract_mission_details Sample.with_reward (fun _ => true) "briefing"
          (Some [Sample.control])
  = Some "hard".
Proof. reflexivity. Qed.

(** C1, as stated, fails: the generation call fails after the increment, no
    node is created, and the node count is 1 where it was 0 before the call,
    in the session and in the persisted row. *)
Lemma make_choice_failure_does_not_restore_count :
  let out := make_choice Sample.generation_fails true Sample.db Sample.state
               "1" None None 9 7 200 in
  fst (fst out) = Raise RuntimeError /\
  DB.nodes (snd (fst out)) = DB.nodes Sample.db /\
  get_node_count Sample.state = 0 /\
  get_node_count (snd out) = 1 /\
  UserProgress.node_count <$> DB.users Sample.db !! "u1" = Some 0 /\
  UserProgress.node_count <$> DB.users (snd (fst out)) !! "u1" = Some 1.
Proof. vm_compute. repeat split; reflexivity. Qed.

Lemma make_choice_failure_keeps_increment_witness :
  DB.users Sample.db !! "u1" = Some Sample.user1 /\
  get_node_count
    (snd (make_choice Sample.generation_fails true Sample.db Sample.state
            "1" None None 9 7 200))
  = UserProgress.node_count Sample.user1 + 1.
Proof.
  split; [reflexivity|].
  refine (proj1 (proj2 (make_choice_failure_keeps_increment
                          Sample.generation_fails true Sample.db Sample.state
                          Sample.state "1" None None 9 7 200
                          (ChoiceContext.mk Sample.story1 Sample.node1
                             Sample.mission7 Sample.db)
                          Sample.user1 _ _ _))).
  - reflexivity.
  - vm_compute. reflexivity.
  - reflexivity.
Defined.

Lemma resolve_current_node_priority_witness :
  resolve_current_node Sample.db Sample.state (Some 1) = Some Sample.node1.
Proof.
  assert (Hwf : store_ids_nonzero Sample.db).
  { split; intros x Hx; simpl in Hx;
      repeat (destruct Hx as [<- | Hx]; [intros H; vm_compute in H; discriminate H|]);
      contradiction. }
  assert (Hstory : is_Some (story_get Sample.db 1)) by (eexists; reflexivity).
  exact (proj1 (resolve_current_node_priority Sample.db Sample.state 1 Hwf Hstory)
           Sample.node1 eq_refl eq_refl).
Defined.

Lemma complete_mission_active_witness :
  get_mission_by_id Sample.db 7 = Some Sample.mission7 /\
  Mission.status Sample.mission7 = "active" /\
  fst (complete_mission Sample.add_experience_points Sample.db 7 "u1" 100) = true.
Proof.
  split; [reflexivity|]. split; [reflexivity|].
  refine (proj1 (complete_mission_active Sample.add_experience_points
                   Sample.db 7 "u1" 100 Sample.mission7 _ _)); reflexivity.
Defined.

Lemma terminal_mission_is_immutable_witness :
  Mission.status Sample.mission8 = "completed" /\
  snd (complete_mission Sample.add_experience_points Sample.db 8 "u1" 100) = Sample.db /\
  snd (fail_mission Sample.db 8 "u1" (Some "late") 100) = Sample.db.
Proof.
  split; [reflexivity|].
  assert (Hget : get_mission_by_id Sample.db 8 = Some Sample.mission8) by reflexivity.
  pose proof (terminal_mission_is_immutable Sample.add_experience_points
                Sample.db 8 "u1" (Some "late") 100 Sample.mission8 Hget
                (or_introl eq_refl)) as [[_ [Hc _]] [_ [Hf _]]].
  split; assumption.
Defined.

Lemma transition_to_node_invalid_is_noop_witness :
  node_get Sample.db 99 = None /\
  snd (transition_to_node Sample.db 99 true 100 Sample.state) = Sample.state.
Proof.
  split; [reflexivity|].
  exact (proj1 (proj2 (transition_to_node_invalid_is_noop
                         Sample.db 99 true 100 Sample.state eq_refl))).
Defined.

(** C6, as stated, fails: node 2 is in the choice history [2; 3] and is not
    its last entry, and a successful transition to it does not append it. *)
Lemma choice_history_revisit_not_appended :
  let history := UserProgress.choice_history (GameState.user_progress Sample.state) in
  let r := transition_to_node Sample.db 2 true 100 Sample.state in
  history = Some [2; 3] /\
  last [2; 3] <> Some 2 /\
  fst r = Ok true /\
  UserProgress.choice_history (GameState.user_progress (snd r)) = Some [2; 3] /\
  UserProgress.choice_history (GameState.user_progress (snd r)) <> Some [2; 3; 2].
Proof.
  vm_compute. repeat split; try reflexivity; discriminate.
Qed.

Lemma choice_history_appends_unseen_ids_witness :
  node_get Sample.db 4 = Some Sample.node4 /\
  UserProgress.choice_history
    (GameState.user_progress
       (snd (transition_to_node Sample.db 4 true 100 Sample.state)))
  = Some [2; 3; 4].
Proof.
  split; [reflexivity|].
  refine (proj1 (proj2 (choice_history_appends_unseen_ids
                          Sample.db 4 100 Sample.state Sample.node4 eq_refl)) _).
  simpl. intros [H | [H | []]]; discriminate H.
Defined.

Lemma encountered_characters_write_once_witness :
  node_get Sample.db 5 = Some Sample.node5 /\
  encountered
    (GameState.user_progress
       (snd (transition_to_node Sample.db 5 true 100 Sample.state))) !! "11"
  = Some Sample.old_ivan.
Proof.
  split; [reflexivity|].
  refine (proj1 (proj2 (encountered_characters_write_once
                          Sample.db 5 100 true Sample.state Sample.node5 eq_refl))
            "11" Sample.old_ivan _).
  reflexivity.
Defined.

Lemma history_buffer_holds_last_three_witness :
  exists st',
    run_transitions Sample.steps Sample.state = Some st' /\
    map HistoryEntry.id (GameState._story_history_buffer st') = [2; 3; 4].
Proof.
  destruct (run_transitions Sample.steps Sample.state) as [st'|] eqn:Hrun;
    [|vm_compute in Hrun; discriminate Hrun].
  exists st'. split; [reflexivity|].
  assert (Hlen : (length (GameState._story_history_buffer Sample.state) <= 3)%nat)
    by (simpl; lia).
  assert (Hmany : (3 < length Sample.steps)%nat) by (simpl; lia).
  destruct (history_buffer_holds_last_three Sample.steps Sample.state st' Hlen Hrun)
    as [_ Hlast].
  destruct (Hlast Hmany) as [_ Hbuf].
  rewrite Hbuf. reflexivity.
Defined.

Lemma get_enhanced_context_assembles_witness :
  get_enhanced_context Sample.db 5 3000
  = py_join newline
      ([ "KEY PLOT POINTS:";
         "MOMENT 1: The rain had not stopped for three days.";
         "MOMENT 2: The broker smiled."; "" ]
       ++ [ "RECENT STORY HISTORY:";
            "SCENE 1: The rain had not stopped for three days.";
            "SCENE 2: A car waited by the quay.";
            "SCENE 3: The broker smiled.";
            "SCENE 4: Nobody followed."; "" ]
       ++ [ "CURRENT MISSION:"; "Title: Mission: find the ledger";
            "Objective: find the ledger"; "Status: active"; "Progress: 40%"; "" ]).
Proof.
  exact (proj1 (proj2 (proj2 (proj2 (proj2
           (proj1 (proj2 (proj2 (get_enhanced_context_assembles Sample.db 5 3000)))
              Sample.node5 eq_refl)))))
           [ "The rain had not stopped for three days."; "The broker smiled." ]
           [ "The rain had not stopped for three days.";
             "A car waited by the quay."; "The broker smiled."; "Nobody followed." ]
           eq_refl eq_refl).
Defined.

Lemma extract_mission_details_without_reward_witness :
  MissionDetails.giver
    (extract_fields Sample.silent_on_rewards (fun _ => true) "briefing"
       (Some [Sample.control])) = Some "Control" /\
  extract_mission_details Sample.silent_on_rewards (fun _ => true) "briefing"
    (Some [Sample.control]) = None.
Proof.
  split; [reflexivity|].
  refine (proj2 (extract_mission_details_without_reward
                   Sample.silent_on_rewards (fun _ => true) "briefing"
                   (Some [Sample.control]) _)).
  reflexivity.
Defined.

(** * Further properties *)

(** ** Mission outcomes, continued *)

Lemma move_to_failed_active (i : Z) (up : UserProgress.t) :
  default [] (UserProgress.active_missions (move_to_failed i up))
  = list_remove_first i (default [] (UserProgress.active_missions up)).
Proof.
  unfold move_to_failed.
  destruct up as [uid csid cnid nc la ch enc am cm fm cb lv xp rel].
  destruct am as [[|a am]|], fm as [[|c fm]|]; simpl; try reflexivity;
    rewrite (Z.eqb_sym a i); destruct (i =? a) eqn:Hia; simpl;
    try reflexivity;
    (destruct (py_in i am) eqn:Hin; simpl;
     [reflexivity | now rewrite (list_remove_first_absent _ _ Hin)]).
Qed.

Lemma move_to_failed_failed (i : Z) (up : UserProgress.t) :
  UserProgress.failed_missions (move_to_failed i up)
  = Some (default [] (UserProgress.failed_missions up) ++ [i]).
Proof.
  unfold move_to_failed.
  destruct up as [uid csid cnid nc la ch enc am cm fm cb lv xp rel].
  destruct am as [[|a am]|], fm as [[|c fm]|]; simpl; split_ifs; reflexivity.
Qed.

Lemma move_to_failed_frame (i : Z) (up : UserProgress.t) :
  UserProgress.completed_missions (move_to_failed i up)
  = UserProgress.completed_missions up /\
  UserProgress.currency_balances (move_to_failed i up)
  = UserProgress.currency_balances up /\
  UserProgress.relationships (move_to_failed i up)
  = UserProgress.relationships up /\
  UserProgress.level (move_to_failed i up) = UserProgress.level up /\
  UserProgress.experience_points (move_to_failed i up)
  = UserProgress.experience_points up.
Proof.
  unfold move_to_failed.
  destruct up as [uid csid cnid nc la ch enc am cm fm cb lv xp rel].
  destruct am as [[|a am]|], fm as [[|c fm]|]; simpl; split_ifs;
    repeat split; reflexivity.
Qed.

Lemma move_to_completed_failed (i : Z) (up : UserProgress.t) :
  UserProgress.failed_missions (move_to_completed i up)
  = UserProgress.failed_missions up.
Proof.
  unfold move_to_completed.
  destruct up as [uid csid cnid nc la ch enc am cm fm cb lv xp rel].
  destruct am as [[|a am]|], cm as [[|c cm]|]; simpl; split_ifs; reflexivity.
Qed.

Lemma adjust_relationship_lists (o : option Z) (d now : Z) (up : UserProgress.t) :
  UserProgress.failed_missions (adjust_relationship o d now up)
  = UserProgress.failed_missions up /\
  UserProgress.level (adjust_relationship o d now up) = UserProgress.level up /\
  UserProgress.experience_points (adjust_relationship o d now up)
  = UserProgress.experience_points up.
Proof.
  unfold adjust_relationship.
  destruct o as [c|]; [destruct (truthy c)|]; repeat split; reflexivity.
Qed.

Lemma penalise_user_spec (m : Mission.t) (now : Z) (up : UserProgress.t) :
  let up' := penalise_user m now up in
  default [] (UserProgress.active_missions up')
  = list_remove_first (Mission.id m) (default [] (UserProgress.active_missions up)) /\
  UserProgress.failed_missions up'
  = Some (default [] (UserProgress.failed_missions up) ++ [Mission.id m]) /\
  UserProgress.completed_missions up' = UserProgress.completed_missions up /\
  UserProgress.currency_balances up' = UserProgress.currency_balances up /\
  UserProgress.level up' = UserProgress.level up /\
  UserProgress.experience_points up' = UserProgress.experience_points up /\
  forall c, relationship_level up' c
            = relationship_level up c + relationship_delta (Mission.giver_id m) (-1) c.
Proof.
  unfold penalise_user. cbv zeta.
  set (up1 := move_to_failed (Mission.id m) up).
  destruct (adjust_relationship_frame (Mission.giver_id m) (-1) now up1)
    as [Ha [Hc Hb]].
  destruct (adjust_relationship_lists (Mission.giver_id m) (-1) now up1)
    as [Hf [Hl Hx]].
  destruct (move_to_failed_frame (Mission.id m) up) as [Hc1 [Hb1 [Hr1 [Hl1 Hx1]]]].
  fold up1 in Hc1, Hb1, Hr1, Hl1, Hx1.
  rewrite Ha, Hf, Hc, Hb, Hl, Hx, Hc1, Hb1, Hl1, Hx1.
  split; [apply move_to_failed_active|].
  split; [apply move_to_failed_failed|].
  repeat (split; [reflexivity|]).
  intros c. rewrite adjust_relationship_level.
  unfold relationship_level. now rewrite Hr1.
Qed.

(** The rows of the store after an outcome function went through. *)
Lemma fail_mission_store (db : DB.t) (mission_id : Z) (user_id : string)
    (reason : option string) (now : Z) (m : Mission.t) :
  get_mission_by_id db mission_id = Some m ->
  Mission.status m = "active" ->
  let m1 := append_progress_update (failed_update now reason)
              (Mission.set_status "failed" m) in
  fail_mission db mission_id user_id reason now
  = (true,
     DB.mk (DB.nodes db) (DB.stories db) (DB.plot_arcs db)
           (<[mission_id := m1]> (DB.missions db))
           (match DB.users db !! user_id with
            | Some up => <[user_id := penalise_user m1 now up]> (DB.users db)
            | None => DB.users db
            end)).
Proof.
  intros Hget Hactive m1. unfold fail_mission. rewrite Hget, Hactive.
  change (negb ("active" =? "active")%string) with false. cbv iota zeta.
  fold m1. simpl. destruct (DB.users db !! user_id); reflexivity.
Qed.

Lemma complete_mission_store (add_experience_points : Z * Z -> Z -> Z * Z)
    (db : DB.t) (mission_id : Z) (user_id : string) (now : Z) (m : Mission.t) :
  get_mission_by_id db mission_id = Some m ->
  Mission.status m = "active" ->
  let m1 := append_progress_update (completed_update now)
              (Mission.set_progress 100
                 (Mission.set_completed_at (Some now)
                    (Mission.set_status "completed" m))) in
  complete_mission add_experience_points db mission_id user_id now
  = (true,
     DB.mk (DB.nodes db) (DB.stories db) (DB.plot_arcs db)
           (<[mission_id := m1]> (DB.missions db))
           (match DB.users db !! user_id with
            | Some up => <[user_id := reward_user add_experience_points m1 now up]>
                           (DB.users db)
            | None => DB.users db
            end)).
Proof.
  intros Hget Hactive m1. unfold complete_mission. rewrite Hget, Hactive.
  change (negb ("active" =? "active")%string) with false. cbv iota zeta.
  fold m1. simpl. destruct (DB.users db !! user_id); reflexivity.
Qed.

Lemma append_progress_update_frame (update : ProgressUpdate.t) (m : Mission.t) :
  Mission.id (append_progress_update update m) = Mission.id m /\
  Mission.giver_id (append_progress_update update m) = Mission.giver_id m /\
  Mission.target_id (append_progress_update update m) = Mission.target_id m /\
  Mission.completed_at (append_progress_update update m) = Mission.completed_at m /\
  Mission.reward_currency (append_progress_update update m)
  = Mission.reward_currency m /\
  Mission.reward_amount (append_progress_update update m) = Mission.reward_amount m.
Proof.
  unfold append_progress_update.
  destruct m as [i u ti ob g t s d p pu rc ra ca sid].
  destruct pu as [[|x pu]|]; repeat split; reflexivity.
Qed.

(** X1. [fail_mission] on an active mission returns [True]; the mission is
    then [failed], with its progress and completion time as they were and
    one more audit entry (status failed, the reason when one is given); in
    the user's row the id leaves the active list and is appended to the
    failed list, while the completed list, the balances, the level and the
    experience points stay as they were: a failure pays nothing. *)
Theorem fail_mission_active (db : DB.t) (mission_id : Z) (user_id : string)
    (reason : option string) (now : Z) (m : Mission.t) :
  get_mission_by_id db mission_id = Some m ->
  Mission.status m = "active" ->
  let r := fail_mission db mission_id user_id reason now in
  fst r = true /\
  (exists m', get_mission_by_id (snd r) mission_id = Some m' /\
     Mission.status m' = "failed" /\
     Mission.progress m' = Mission.progress m /\
     Mission.completed_at m' = Mission.completed_at m /\
     Mission.progress_updates m'
     = Some (default [] (Mission.progress_updates m) ++ [failed_update now reason])) /\
  (forall up, DB.users db !! user_id = Some up ->
     exists up', DB.users (snd r) !! user_id = Some up' /\
       default [] (UserProgress.active_missions up')
       = list_remove_first (Mission.id m) (default [] (UserProgress.active_missions up)) /\
       UserProgress.failed_missions up'
       = Some (default [] (UserProgress.failed_missions up) ++ [Mission.id m]) /\
       UserProgress.completed_missions up' = UserProgress.completed_missions up /\
       UserProgress.currency_balances up' = UserProgress.currency_balances up /\
       UserProgress.level up' = UserProgress.level up /\
       UserProgress.experience_points up' = UserProgress.experience_points up).
Proof.
  intros Hget Hactive r. subst r.
  rewrite (fail_mission_store db mission_id user_id reason now m Hget Hactive).
  cbv zeta. set (m1 := append_progress_update _ _).
  destruct (append_progress_update_spec (failed_update now reason)
              (Mission.set_status "failed" m)) as [Hpu [Hst Hpr]].
  destruct (append_progress_update_frame (failed_update now reason)
              (Mission.set_status "failed" m)) as [Hid [_ [_ [Hca _]]]].
  fold m1 in Hpu, Hst, Hpr, Hid, Hca.
  split; [reflexivity|]. split.
  - exists m1. split; [apply lookup_insert_eq|].
    rewrite Hpu, Hst, Hpr, Hca. repeat split; reflexivity.
  - intros up Hup. simpl. rewrite Hup.
    exists (penalise_user m1 now up). split; [apply lookup_insert_eq|].
    destruct (penalise_user_spec m1 now up) as [Ha [Hf [Hc [Hb [Hl [Hx _]]]]]].
    rewrite Hid in Ha, Hf. repeat split; assumption.
Qed.

(** X2. Failing an active mission lowers the relationship level toward its
    giver by 1, when the giver is set, and changes the level toward no other
    character (the target included). *)
Theorem fail_mission_relationship (db : DB.t) (mission_id : Z) (user_id : string)
    (reason : option string) (now : Z) (m : Mission.t) (up : UserProgress.t) :
  get_mission_by_id db mission_id = Some m ->
  Mission.status m = "active" ->
  DB.users db !! user_id = Some up ->
  exists up',
    DB.users (snd (fail_mission db mission_id user_id reason now)) !! user_id
    = Some up' /\
    forall c, relationship_level up' c
              = relationship_level up c
                + relationship_delta (Mission.giver_id m) (-1) c.
Proof.
  intros Hget Hactive Hup.
  rewrite (fail_mission_store db mission_id user_id reason now m Hget Hactive).
  cbv zeta. set (m1 := append_progress_update _ _). simpl. rewrite Hup.
  exists (penalise_user m1 now up). split; [apply lookup_insert_eq|].
  destruct (penalise_user_spec m1 now up) as [_ [_ [_ [_ [_ [_ Hr]]]]]].
  destruct (append_progress_update_frame (failed_update now reason)
              (Mission.set_status "failed" m)) as [_ [Hg _]].
  fold m1 in Hg. intros c. rewrite Hr, Hg. reflexivity.
Qed.

Lemma outcome_refused (add_experience_points : Z * Z -> Z -> Z * Z)
    (db : DB.t) (mission_id : Z) (user_id : string) (reason : option string)
    (now : Z) :
  (forall m, get_mission_by_id db mission_id = Some m ->
             Mission.status m <> "active") ->
  complete_mission add_experience_points db mission_id user_id now = (false, db) /\
  fail_mission db mission_id user_id reason now = (false, db).
Proof.
  intros Hnot. unfold complete_mission, fail_mission.
  destruct (get_mission_by_id db mission_id) as [m|]; [|split; reflexivity].
  specialize (Hnot m eq_refl). apply String.eqb_neq in Hnot.
  rewrite Hnot. split; reflexivity.
Qed.

Lemma mission_active_or_not (db : DB.t) (mission_id : Z) :
  (exists m, get_mission_by_id db mission_id = Some m /\
             Mission.status m = "active") \/
  (forall m, get_mission_by_id db mission_id = Some m ->
             Mission.status m <> "active").
Proof.
  destruct (get_mission_by_id db mission_id) as [m|]; [|right; discriminate].
  destruct (String.eqb_spec (Mission.status m) "active") as [Heq | Hne].
  - left. eauto.
  - right. intros m' Hm'. now injection Hm' as <-.
Qed.

(** X3. The outcome functions touch one mission and one user: whatever
    their result, every other mission row and every other user row is as it
    was, and so are the nodes, the stories and the plot arcs. *)
Theorem mission_outcome_frame (add_experience_points : Z * Z -> Z -> Z * Z)
    (db : DB.t) (mission_id : Z) (user_id : string) (reason : option string)
    (now : Z) :
  let dc := snd (complete_mission add_experience_points db mission_id user_id now) in
  let df := snd (fail_mission db mission_id user_id reason now) in
  (forall k, k <> mission_id ->
     DB.missions dc !! k = DB.missions db !! k /\
     DB.missions df !! k = DB.missions db !! k) /\
  (forall u, u <> user_id ->
     DB.users dc !! u = DB.users db !! u /\
     DB.users df !! u = DB.users db !! u) /\
  (DB.nodes dc = DB.nodes db /\ DB.stories dc = DB.stories db /\
   DB.plot_arcs dc = DB.plot_arcs db) /\
  (DB.nodes df = DB.nodes db /\ DB.stories df = DB.stories db /\
   DB.plot_arcs df = DB.plot_arcs db).
Proof.
  intros dc df. subst dc df.
  destruct (mission_active_or_not db mission_id) as [[m [Hget Hactive]] | Hnot].
  - rewrite (complete_mission_store add_experience_points db mission_id user_id
               now m Hget Hactive).
    rewrite (fail_mission_store db mission_id user_id reason now m Hget Hactive).
    cbv zeta. simpl. split; [|split].
    + intros k Hk. rewrite !lookup_insert_ne by congruence. split; reflexivity.
    + intros u Hu. destruct (DB.users db !! user_id);
        rewrite ?lookup_insert_ne by congruence; split; reflexivity.
    + repeat split; reflexivity.
  - destruct (outcome_refused add_experience_points db mission_id user_id reason
                now Hnot) as [-> ->].
    simpl. repeat split; reflexivity.
Qed.

(** X4. A mission is settled once.  After [complete_mission] or
    [fail_mission] has gone through on an active mission, every further call
    of either function on that mission returns [False] and leaves the store
    as it is: the reward is not credited twice and a settled mission does not
    change sides. *)
Theorem settled_mission_stays_settled
    (add_experience_points : Z * Z -> Z -> Z * Z) (db : DB.t) (mission_id : Z)
    (user_id user_id' : string) (reason reason' : option string) (now now' : Z)
    (m : Mission.t) :
  get_mission_by_id db mission_id = Some m ->
  Mission.status m = "active" ->
  let dc := snd (complete_mission add_experience_points db mission_id user_id now) in
  let df := snd (fail_mission db mission_id user_id reason now) in
  (complete_mission add_experience_points dc mission_id user_id' now' = (false, dc) /\
   fail_mission dc mission_id user_id' reason' now' = (false, dc)) /\
  (complete_mission add_experience_points df mission_id user_id' now' = (false, df) /\
   fail_mission df mission_id user_id' reason' now' = (false, df)).
Proof.
  intros Hget Hactive dc df. subst dc df.
  rewrite (complete_mission_store add_experience_points db mission_id user_id
             now m Hget Hactive).
  rewrite (fail_mission_store db mission_id user_id reason now m Hget Hactive).
  cbv zeta. cbn [snd]. split.
  - apply outcome_refused. intros m' Hm'.
    unfold get_mission_by_id in Hm'. cbn [DB.missions] in Hm'.
    rewrite lookup_insert_eq in Hm'. injection Hm' as <-.
    destruct (append_progress_update_spec (completed_update now)
                (Mission.set_progress 100
                   (Mission.set_completed_at (Some now)
                      (Mission.set_status "completed" m)))) as [_ [-> _]].
    discriminate.
  - apply outcome_refused. intros m' Hm'.
    unfold get_mission_by_id in Hm'. cbn [DB.missions] in Hm'.
    rewrite lookup_insert_eq in Hm'. injection Hm' as <-.
    destruct (append_progress_update_spec (failed_update now reason)
                (Mission.set_status "failed" m)) as [_ [-> _]].
    discriminate.
Qed.

Lemma list_remove_first_Permutation (x : Z) (l : list Z) :
  In x l -> Permutation l (x :: list_remove_first x l).
Proof.
  induction l as [|y l IH]; simpl; [contradiction|].
  destruct (Z.eqb_spec y x) as [-> | Hne]; [reflexivity|].
  intros [Heq | Hin]; [contradiction|].
  rewrite (IH Hin) at 1. apply perm_swap.
Qed.

Lemma perm_move_middle (x : Z) (r c f : list Z) :
  Permutation (x :: r ++ c ++ f) (r ++ (c ++ [x]) ++ f).
Proof.
  rewrite <- (app_assoc c [x] f). simpl.
  rewrite (app_assoc r c (x :: f)), (app_assoc r c f).
  apply Permutation_middle.
Qed.

Lemma perm_move_end (x : Z) (r c f : list Z) :
  Permutation (x :: r ++ c ++ f) (r ++ c ++ f ++ [x]).
Proof.
  rewrite !app_assoc. rewrite <- Permutation_cons_append. reflexivity.
Qed.

Lemma reward_user_failed_missions
    (add_experience_points : Z * Z -> Z -> Z * Z) (m : Mission.t) (now : Z)
    (up : UserProgress.t) :
  UserProgress.failed_missions (reward_user add_experience_points m now up)
  = UserProgress.failed_missions up.
Proof.
  unfold reward_user.
  set (up1 := move_to_completed (Mission.id m) up).
  set (up2 := add_currency_reward _ _ up1).
  set (up3 := UserProgress.set_level_experience _ up2).
  set (up4 := adjust_relationship (Mission.giver_id m) 2 now up3).
  cbv zeta.
  destruct (adjust_relationship_lists (Mission.target_id m) (-3) now up4) as [-> _].
  unfold up4.
  destruct (adjust_relationship_lists (Mission.giver_id m) 2 now up3) as [-> _].
  assert (H2 : UserProgress.failed_missions up2 = UserProgress.failed_missions up1).
  { unfold up2, add_currency_reward.
    destruct (UserProgress.currency_balances up1 !! _); reflexivity. }
  change (UserProgress.failed_missions up3) with (UserProgress.failed_missions up2).
  rewrite H2. apply move_to_completed_failed.
Qed.

(** X5. Settling a mission keeps the user's mission lists exclusive.  If
    the active, completed and failed lists hold no id twice and share no id,
    and the mission is in the active list, then after [complete_mission]
    (after [fail_mission]) the three lists are again exclusive, the id is in
    the completed (failed) list and no longer in the active one. *)
Theorem mission_lists_stay_exclusive
    (add_experience_points : Z * Z -> Z -> Z * Z) (db : DB.t) (mission_id : Z)
    (user_id : string) (reason : option string) (now : Z) (m : Mission.t)
    (up : UserProgress.t) :
  get_mission_by_id db mission_id = Some m ->
  Mission.status m = "active" ->
  DB.users db !! user_id = Some up ->
  mission_lists_exclusive up ->
  In (Mission.id m) (default [] (UserProgress.active_missions up)) ->
  (exists up',
     DB.users (snd (complete_mission add_experience_points db mission_id user_id now))
       !! user_id = Some up' /\
     mission_lists_exclusive up' /\
     In (Mission.id m) (default [] (UserProgress.completed_missions up')) /\
     ~ In (Mission.id m) (default [] (UserProgress.active_missions up'))) /\
  (exists up',
     DB.users (snd (fail_mission db mission_id user_id reason now)) !! user_id
     = Some up' /\
     mission_lists_exclusive up' /\
     In (Mission.id m) (default [] (UserProgress.failed_missions up')) /\
     ~ In (Mission.id m) (default [] (UserProgress.active_missions up'))).
Proof.
  intros Hget Hactive Hup Hexcl Hin.
  assert (Hnd : List.NoDup (default [] (UserProgress.active_missions up)))
    by (unfold mission_lists_exclusive in Hexcl; now apply NoDup_app_remove_r in Hexcl).
  pose proof (list_remove_first_Permutation _ _ Hin) as Hperm.
  split.
  - rewrite (complete_mission_store add_experience_points db mission_id user_id
               now m Hget Hactive).
    cbv zeta. set (m1 := append_progress_update _ _). cbn [snd DB.users].
    rewrite Hup. exists (reward_user add_experience_points m1 now up).
    split; [apply lookup_insert_eq|].
    destruct (reward_user_spec add_experience_points m1 now up) as [Ha [Hc _]].
    pose proof (reward_user_failed_missions add_experience_points m1 now up) as Hf.
    assert (Hid : Mission.id m1 = Mission.id m).
    { unfold m1.
      now destruct (append_progress_update_frame (completed_update now)
                      (Mission.set_progress 100
                         (Mission.set_completed_at (Some now)
                            (Mission.set_status "completed" m)))) as [-> _]. }
    rewrite Hid in Ha, Hc.
    split; [|split].
    + unfold mission_lists_exclusive in *. rewrite Ha, Hc, Hf. cbn [default].
      eapply Permutation_NoDup; [|exact Hexcl].
      rewrite Hperm at 1. apply perm_move_middle.
    + rewrite Hc. cbn [default]. apply in_or_app. right. now left.
    + rewrite Ha. now apply list_remove_first_NoDup.
  - rewrite (fail_mission_store db mission_id user_id reason now m Hget Hactive).
    cbv zeta. set (m1 := append_progress_update _ _). cbn [snd DB.users].
    rewrite Hup. exists (penalise_user m1 now up).
    split; [apply lookup_insert_eq|].
    destruct (penalise_user_spec m1 now up) as [Ha [Hf [Hc _]]].
    assert (Hid : Mission.id m1 = Mission.id m).
    { unfold m1.
      now destruct (append_progress_update_frame (failed_update now reason)
                      (Mission.set_status "failed" m)) as [-> _]. }
    rewrite Hid in Ha, Hf.
    split; [|split].
    + unfold mission_lists_exclusive in *. rewrite Ha, Hf, Hc. cbn [default].
      eapply Permutation_NoDup; [|exact Hexcl].
      rewrite Hperm at 1. apply perm_move_end.
    + rewrite Hf. cbn [default]. apply in_or_app. right. now left.
    + rewrite Ha. now apply list_remove_first_NoDup.
Qed.

Lemma audit_log_lookup (db : DB.t) (k : Z) (m : Mission.t) :
  DB.missions db !! k = Some m ->
  audit_log db k = default [] (Mission.progress_updates m).
Proof. intros H. unfold audit_log. now rewrite H. Qed.

(** X6. The audit log of a mission is append-only under the outcome
    functions: whatever the result of [complete_mission] or [fail_mission],
    the [progress_updates] of every mission of the store before the call is
    a prefix of its [progress_updates] after the call. *)
Theorem audit_log_is_append_only (add_experience_points : Z * Z -> Z -> Z * Z)
    (db : DB.t) (mission_id : Z) (user_id : string) (reason : option string)
    (now : Z) (k : Z) :
  audit_log db k
    `prefix_of` audit_log
                  (snd (complete_mission add_experience_points db mission_id
                          user_id now)) k /\
  audit_log db k
    `prefix_of` audit_log (snd (fail_mission db mission_id user_id reason now)) k.
Proof.
  destruct (mission_active_or_not db mission_id) as [[m [Hget Hactive]] | Hnot].
  - rewrite (complete_mission_store add_experience_points db mission_id user_id
               now m Hget Hactive).
    rewrite (fail_mission_store db mission_id user_id reason now m Hget Hactive).
    cbv zeta. cbn [snd].
    destruct (decide (k = mission_id)) as [-> | Hne].
    + rewrite (audit_log_lookup db mission_id m Hget).
      split.
      * erewrite audit_log_lookup by apply lookup_insert_eq.
        destruct (append_progress_update_spec (completed_update now)
                    (Mission.set_progress 100
                       (Mission.set_completed_at (Some now)
                          (Mission.set_status "completed" m)))) as [-> _].
        cbn [default]. now apply prefix_app_r.
      * erewrite audit_log_lookup by apply lookup_insert_eq.
        destruct (append_progress_update_spec (failed_update now reason)
                    (Mission.set_status "failed" m)) as [-> _].
        cbn [default]. now apply prefix_app_r.
    + unfold audit_log. cbn [DB.missions].
      rewrite !lookup_insert_ne by congruence. split; reflexivity.
  - destruct (outcome_refused add_experience_points db mission_id user_id reason
                now Hnot) as [-> ->].
    split; reflexivity.
Qed.

(** ** Mission creation *)




Section CreateMissionFacts.

Variable re : RegexEngine.
Variable character_exists : Z -> bool.
Variable find_character_like : string -> option Z.



End CreateMissionFacts.

(** X9. [extract_mission_details] returns details only with a currency of
    [BASE_REWARDS], and then they are the extracted fields with the
    difficulty set by the reward: hard above 2.5 times the base reward of
    the currency, medium above 1.5 times, easy otherwise. *)
Theorem extract_mission_details_shape (re : RegexEngine)
    (character_exists : Z -> bool) (story_text : string)
    (characters : option (list CharacterDict.t)) (details : MissionDetails.t) :
  extract_mission_details re character_exists story_text characters = Some details ->
  let fields := extract_fields re character_exists story_text characters in
  exists base,
    BASE_REWARDS !! MissionDetails.reward_currency details = Some base /\
    In base [1; 1500; 1400; 1450; 150000] /\
    details = MissionDetails.set_difficulty (MissionDetails.difficulty details) fields /\
    let amount := MissionDetails.reward_amount details in
    (5 * base < 2 * amount -> MissionDetails.difficulty details = "hard") /\
    (3 * base < 2 * amount <= 5 * base ->
     MissionDetails.difficulty details = "medium") /\
    (2 * amount <= 3 * base -> MissionDetails.difficulty details = "easy").
Proof.
  intros H fields. unfold extract_mission_details, determine_difficulty in H.
  fold fields in H.
  destruct (BASE_REWARDS !! MissionDetails.reward_currency fields) as [base|] eqn:Hbase;
    [|discriminate].
  injection H as <-. exists base.
  change (MissionDetails.reward_currency (MissionDetails.set_difficulty _ fields))
    with (MissionDetails.reward_currency fields).
  assert (Hin : In base [1; 1500; 1400; 1450; 150000]).
  { unfold BASE_REWARDS in Hbase.
    apply elem_of_list_to_map_2 in Hbase.
    apply list_elem_of_In in Hbase. simpl in Hbase.
    destruct Hbase as [H | [H | [H | [H | [H | []]]]]];
      injection H as _ <-; simpl; tauto. }
  assert (Hpos : 0 < base).
  { simpl in Hin. destruct Hin as [<- | [<- | [<- | [<- | [<- | []]]]]]; lia. }
  split; [assumption|]. split; [assumption|].
  split; [reflexivity|].
  cbv zeta.
  change (MissionDetails.reward_amount (MissionDetails.set_difficulty _ fields))
    with (MissionDetails.reward_amount fields).
  generalize (MissionDetails.reward_amount fields) as amount. intros amount.
  destruct (Z.ltb_spec (5 * base) (2 * amount)) as [H5 | H5];
    [|destruct (Z.ltb_spec (3 * base) (2 * amount)) as [H3 | H3]];
    cbn [MissionDetails.difficulty MissionDetails.set_difficulty];
    (split; [|split]); intros Hc; try reflexivity; exfalso; lia.
Qed.


(** ** Transitions, continued *)

Lemma record_encountered_characters_frame (new_node : StoryNode.t)
    (up : UserProgress.t) :
  let up' := record_encountered_characters new_node up in
  UserProgress.current_story_id up' = UserProgress.current_story_id up /\
  UserProgress.current_node_id up' = UserProgress.current_node_id up /\
  UserProgress.node_count up' = UserProgress.node_count up /\
  UserProgress.last_active up' = UserProgress.last_active up /\
  UserProgress.active_missions up' = UserProgress.active_missions up /\
  UserProgress.completed_missions up' = UserProgress.completed_missions up /\
  UserProgress.failed_missions up' = UserProgress.failed_missions up /\
  UserProgress.currency_balances up' = UserProgress.currency_balances up /\
  UserProgress.relationships up' = UserProgress.relationships up.
Proof.
  unfold record_encountered_characters.
  destruct (StoryNode.branch_metadata new_node) as [md|];
    [|repeat split; reflexivity].
  destruct (truthy (default [] (Metadata.encountered_characters md)));
    [|repeat split; reflexivity].
  destruct (truthy (UserProgress.encountered_characters up));
    repeat split; reflexivity.
Qed.

Lemma update_user_progress_frame (new_node : StoryNode.t) (node_id now : Z)
    (up : UserProgress.t) :
  let up' := update_user_progress new_node node_id now up in
  UserProgress.current_node_id up' = Some node_id /\
  UserProgress.last_active up' = Some now /\
  UserProgress.current_story_id up' = UserProgress.current_story_id up /\
  UserProgress.node_count up' = UserProgress.node_count up /\
  UserProgress.active_missions up' = UserProgress.active_missions up /\
  UserProgress.completed_missions up' = UserProgress.completed_missions up /\
  UserProgress.failed_missions up' = UserProgress.failed_missions up /\
  UserProgress.currency_balances up' = UserProgress.currency_balances up /\
  UserProgress.relationships up' = UserProgress.relationships up.
Proof.
  unfold update_user_progress. cbv zeta.
  match goal with
  | |- context [record_encountered_characters new_node ?u] =>
      destruct (record_encountered_characters_frame new_node u)
        as [H1 [H2 [H3 [H4 [H5 [H6 [H7 [H8 H9]]]]]]]];
      rewrite H1, H2, H3, H4, H5, H6, H7, H8, H9
  end.
  destruct up as [uid csid cnid nc la ch enc am cm fm cb lv xp rel]. simpl.
  destruct ch as [[|h ch]|]; simpl; try (repeat split; reflexivity).
  destruct ((node_id =? h) || py_in node_id ch); repeat split; reflexivity.
Qed.

(** X10. A successful transition moves the session and nothing else: the
    current node becomes the node asked for; with [update_progress] the
    persisted pointer is that node's id and the last-active time is the time
    of the call, while the story pointer, the node count, the mission lists,
    the balances and the relationships keep their values; without
    [update_progress] the user's progress is not touched at all.  The
    in-memory node count is never changed by a transition. *)
Theorem transition_to_node_moves_session (db : DB.t) (node_id now : Z)
    (update_progress : bool) (st : GameState.t) (new_node : StoryNode.t) :
  node_get db node_id = Some new_node ->
  let r := transition_to_node db node_id update_progress now st in
  let up := GameState.user_progress st in
  let up' := GameState.user_progress (snd r) in
  fst r = Ok true /\
  GameState.current_node (snd r) = Some new_node /\
  GameState._node_count (snd r) = GameState._node_count st /\
  GameState.current_story (snd r) = GameState.current_story st /\
  (update_progress = true ->
   UserProgress.current_node_id up' = Some node_id /\
   UserProgress.last_active up' = Some now /\
   UserProgress.current_story_id up' = UserProgress.current_story_id up /\
   UserProgress.node_count up' = UserProgress.node_count up /\
   UserProgress.active_missions up' = UserProgress.active_missions up /\
   UserProgress.completed_missions up' = UserProgress.completed_missions up /\
   UserProgress.failed_missions up' = UserProgress.failed_missions up /\
   UserProgress.currency_balances up' = UserProgress.currency_balances up /\
   UserProgress.relationships up' = UserProgress.relationships up) /\
  (update_progress = false -> up' = up).
Proof.
  intros Hget r up up'. subst r up up'.
  rewrite (transition_user_progress _ _ _ _ _ _ Hget).
  split; [now apply (transition_to_node_succeeds _ _ _ _ _ _ Hget)|].
  split; [now destruct (transition_buffer db node_id now update_progress st
                          new_node Hget)|].
  split; [|split; [|split]].
  - unfold transition_to_node. rewrite Hget.
    destruct update_progress, (GameState.current_node st); reflexivity.
  - unfold transition_to_node. rewrite Hget.
    destruct update_progress, (GameState.current_node st); reflexivity.
  - intros ->. apply update_user_progress_frame.
  - intros ->. reflexivity.
Qed.

Lemma transition_choice_history (db : DB.t) (node_id now : Z)
    (update_progress : bool) (st : GameState.t) (new_node : StoryNode.t) :
  node_get db node_id = Some new_node ->
  let history := choice_history_of st in
  choice_history_of (snd (transition_to_node db node_id update_progress now st))
  = if update_progress && negb (py_in node_id history)
    then history ++ [node_id] else history.
Proof.
  intros Hget history. subst history. unfold choice_history_of.
  rewrite (transition_user_progress _ _ _ _ _ _ Hget).
  destruct update_progress; [|reflexivity].
  rewrite update_user_progress_choice_history. cbn [default andb].
  destruct (py_in node_id _); reflexivity.
Qed.

(** X11. Along any run of successful transitions the choice history only
    grows at its end, and it never acquires a repeated id: the history before
    the run is a prefix of the history after it, and a history without
    duplicates stays without duplicates. *)
Theorem choice_history_grows_without_repeats (steps : list Step.t)
    (st st' : GameState.t) :
  run_transitions steps st = Some st' ->
  choice_history_of st `prefix_of` choice_history_of st' /\
  (List.NoDup (choice_history_of st) -> List.NoDup (choice_history_of st')).
Proof.
  revert st. induction steps as [|s rest IH]; intros st Hrun; simpl in Hrun.
  - injection Hrun as <-. split; [reflexivity | tauto].
  - destruct (node_get (Step.db s) (Step.node_id s)) as [new_node|] eqn:Hget.
    + pose proof (transition_choice_history (Step.db s) (Step.node_id s)
                    (Step.now s) (Step.update_progress s) st new_node Hget) as Hstep.
      pose proof (transition_to_node_succeeds _ _ (Step.update_progress s)
                    (Step.now s) st _ Hget) as Hok.
      destruct (transition_to_node (Step.db s) (Step.node_id s)
                  (Step.update_progress s) (Step.now s) st) as [r st1].
      simpl in *. subst r.
      destruct (IH st1 Hrun) as [Hprefix Hnodup].
      destruct (Step.update_progress s && negb (py_in (Step.node_id s)
                                                  (choice_history_of st))) eqn:Hb.
      * apply andb_true_iff in Hb as [_ Hb]. apply negb_true_iff in Hb.
        apply py_in_not_In in Hb. split.
        -- etransitivity; [|exact Hprefix]. rewrite Hstep. now apply prefix_app_r.
        -- intros Hnd. apply Hnodup. rewrite Hstep.
           apply NoDup_ListNoDup, NoDup_app.
           split; [now apply NoDup_ListNoDup|]. split.
           ++ intros x Hx [Heq | []]%list_elem_of_In.
              subst x. apply Hb. now apply list_elem_of_In.
           ++ apply NoDup_singleton.
      * rewrite Hstep in Hprefix, Hnodup. split; assumption.
    + rewrite (transition_to_node_raises _ _ _ _ _ Hget) in Hrun. discriminate.
Qed.

(** X12. The encountered-character map is write-once across whole runs: an
    entry present before a run of successful transitions is present with the
    same snapshot after it, whatever nodes the run visits. *)
Theorem encountered_characters_survive_runs (steps : list Step.t)
    (st st' : GameState.t) (cid : string) (snap : CharSnapshot.t) :
  run_transitions steps st = Some st' ->
  encountered (GameState.user_progress st) !! cid = Some snap ->
  encountered (GameState.user_progress st') !! cid = Some snap.
Proof.
  revert st. induction steps as [|s rest IH]; intros st Hrun Hsnap; simpl in Hrun.
  - now injection Hrun as <-.
  - destruct (node_get (Step.db s) (Step.node_id s)) as [new_node|] eqn:Hget.
    + pose proof (transition_user_progress (Step.db s) (Step.node_id s)
                    (Step.now s) (Step.update_progress s) st new_node Hget) as Hup.
      pose proof (transition_to_node_succeeds _ _ (Step.update_progress s)
                    (Step.now s) st _ Hget) as Hok.
      destruct (transition_to_node (Step.db s) (Step.node_id s)
                  (Step.update_progress s) (Step.now s) st) as [r st1].
      simpl in *. subst r. apply (IH st1 Hrun). rewrite Hup.
      destruct (Step.update_progress s); [|assumption].
      rewrite update_user_progress_encountered.
      now apply merge_encountered_characters_keeps.
    + rewrite (transition_to_node_raises _ _ _ _ _ Hget) in Hrun. discriminate.
Qed.

(** X13. Nothing is evicted from the history buffer before it is full:
    while the entries already held and the nodes departed along a run are at
    most 3 together, the buffer after the run is the old buffer followed by
    the departed nodes, oldest first.  In particular the first choice from the
    root of a new session leaves exactly the root in the buffer. *)
Theorem history_buffer_keeps_everything_while_short (steps : list Step.t)
    (st st' : GameState.t) :
  run_transitions steps st = Some st' ->
  (length (GameState._story_history_buffer st
           ++ departures (GameState.current_node st) steps) <= 3)%nat ->
  GameState._story_history_buffer st'
  = GameState._story_history_buffer st
    ++ departures (GameState.current_node st) steps.
Proof.
  intros Hrun Hlen.
  assert (Hbuf : (length (GameState._story_history_buffer st) <= 3)%nat)
    by (rewrite length_app in Hlen; lia).
  rewrite (run_transitions_buffer steps st st' Hbuf Hrun).
  now apply lastn_short.
Qed.

(** ** Node resolution, continued *)

(** Whatever the resolver returns is a row of the store that belongs to the
    story it resolved for. *)
Lemma resolve_current_node_sound (db : DB.t) (st : GameState.t)
    (story_id : option Z) (n : StoryNode.t) :
  resolve_current_node db st story_id = Some n ->
  exists target,
    py_or story_id (StoryGeneration.id <$> GameState.current_story st) = Some target /\
    is_Some (story_get db target) /\
    In n (DB.nodes db) /\
    StoryNode.story_id n = target.
Proof.
  unfold resolve_current_node, resolve_current_node_body. cbv zeta.
  destruct (py_or story_id _) as [t|]; [|destruct (negb _); discriminate].
  destruct (negb (truthy (Some t))); [discriminate|].
  destruct (story_get db t) as [story|] eqn:Hstory; [|discriminate].
  intros H. exists t. split; [reflexivity|]. split; [eauto|].
  destruct (if truthy (UserProgress.current_node_id (GameState.user_progress st))
            then _ else None) as [p|] eqn:Hp.
  - injection H as <-.
    destruct (truthy (UserProgress.current_node_id (GameState.user_progress st)));
      [|discriminate].
    destruct (UserProgress.current_node_id (GameState.user_progress st)) as [i|];
      [|discriminate].
    simpl in Hp. destruct (node_get db i) as [node|] eqn:Hnode; [|discriminate].
    destruct (StoryNode.story_id node =? t) eqn:Ht; [|discriminate].
    injection Hp as <-. apply Z.eqb_eq in Ht.
    apply node_get_Some in Hnode as [Hin _]. split; assumption.
  - destruct (latest_node db t) as [latest|] eqn:Hlatest.
    + injection H as <-.
      destruct (latest_node_most_recent db t latest Hlatest) as [Hin [Ht _]].
      split; assumption.
    + destruct (root_node db t) as [root|] eqn:Hroot; [|discriminate].
      injection H as <-.
      destruct (root_node_root db t root Hroot) as [Hin [Ht _]].
      split; assumption.
Qed.

(** X14. The resolver never hands out a node of another story: a node it
    returns is a row of the store whose story is the one resolved for, which
    is the requested story id or, when none (or 0) is given, the session's
    current story. *)
Theorem resolve_current_node_stays_in_story (db : DB.t) (st : GameState.t)
    (story_id : option Z) (n : StoryNode.t) :
  resolve_current_node db st story_id = Some n ->
  In n (DB.nodes db) /\
  is_Some (story_get db (StoryNode.story_id n)) /\
  (forall t, story_id = Some t -> t <> 0 -> StoryNode.story_id n = t) /\
  (truthy story_id = false ->
   StoryGeneration.id <$> GameState.current_story st = Some (StoryNode.story_id n)).
Proof.
  intros H.
  destruct (resolve_current_node_sound db st story_id n H)
    as [target [Htarget [Hstory [Hin Hn]]]].
  subst target. split; [assumption|]. split; [assumption|]. split.
  - intros t -> Ht. unfold py_or in Htarget.
    change (truthy (Some t)) with (truthy t) in Htarget.
    rewrite (truthy_Z_nonzero t Ht) in Htarget. now injection Htarget as ->.
  - intros Hfalsy. unfold py_or in Htarget. now rewrite Hfalsy in Htarget.
Qed.

(** X15. A transition makes the new position visible to the resolver:
    after a successful transition that updates the progress, resolving for
    the story of the node arrived at returns that node. *)
Theorem resolve_after_transition (db : DB.t) (node_id now : Z)
    (st : GameState.t) (new_node : StoryNode.t) :
  store_ids_nonzero db ->
  node_get db node_id = Some new_node ->
  is_Some (story_get db (StoryNode.story_id new_node)) ->
  resolve_current_node db (snd (transition_to_node db node_id true now st))
    (Some (StoryNode.story_id new_node))
  = Some new_node.
Proof.
  intros Hwf Hget Hstory.
  rewrite (resolve_current_node_chain db _ _ Hwf Hstory).
  unfold pointer_node.
  rewrite (transition_user_progress _ _ _ _ _ _ Hget).
  destruct (update_user_progress_frame new_node node_id now
              (GameState.user_progress st)) as [-> _].
  simpl. rewrite Hget, Z.eqb_refl. reflexivity.
Qed.

(** ** Reloading and counting *)

(** X16. [reload_state] is idempotent for a given store: reloading a state
    that has just been reloaded gives the same state.  A reload sets the
    in-memory node count to the persisted one and keeps the history buffer,
    which lives in the session only. *)
Theorem reload_state_idempotent (db : DB.t) (st st1 : GameState.t) :
  reload_state db st = Ok st1 ->
  reload_state db st1 = Ok st1 /\
  persisted_node_count db (GameState.user_id st) = Some (get_node_count st1) /\
  GameState._story_history_buffer st1 = GameState._story_history_buffer st.
Proof.
  intros H.
  destruct (reload_state_facts db st st1 H) as [up [Hup [Hid [Hprog [Hcount Hbuf]]]]].
  split; [|split].
  - unfold reload_state at 1. rewrite Hid, Hup.
    unfold reload_state in H. rewrite Hup in H. injection H as H.
    clear Hid Hprog Hcount Hbuf. subst st1.
    destruct st as [uid up0 cs cn am nc buf].
    destruct (UserProgress.current_story_id up) as [sid|];
      [destruct (truthy sid)|];
      (destruct (UserProgress.current_node_id up) as [nid|];
       [destruct (truthy nid)|]);
      destruct (truthy (UserProgress.active_missions up)); reflexivity.
  - unfold persisted_node_count, get_node_count. now rewrite Hup, Hcount.
  - assumption.
Qed.

Lemma increment_node_count_step (commit_ok : bool) (db sess : DB.t)
    (st : GameState.t) :
  let '(n, (db', sess'), st') := increment_node_count commit_ok db sess st in
  n = GameState._node_count st + 1 /\
  GameState._node_count st' = GameState._node_count st + 1 /\
  GameState.user_id st' = GameState.user_id st /\
  GameState._story_history_buffer st' = GameState._story_history_buffer st /\
  GameState.current_node st' = GameState.current_node st /\
  (commit_ok = true ->
   persisted_node_count db' (GameState.user_id st)
   = Some (GameState._node_count st + 1)) /\
  (commit_ok = false -> db' = db).
Proof.
  unfold increment_node_count. cbv zeta. destruct commit_ok; simpl.
  - repeat split; try reflexivity; try discriminate.
    intros _. unfold persisted_node_count. simpl.
    now rewrite lookup_insert_eq.
  - repeat split; try reflexivity; discriminate.
Qed.

(** X17. The node count only goes up, one per call, whether or not the
    count could be persisted: after any number of [increment_node_count]
    calls the in-memory count has grown by the number of calls, and a
    persisted count that was not above the in-memory one has not decreased
    and is still not above it. *)
Theorem node_count_is_monotonic (commits : list bool) :
  forall (db sess : DB.t) (st : GameState.t) (p : Z),
    persisted_node_count db (GameState.user_id st) = Some p ->
    p <= get_node_count st ->
    let out := increment_node_count_many commits db sess st in
    get_node_count (snd out)
    = get_node_count st + Z.of_nat (length commits) /\
    exists p',
      persisted_node_count (fst (fst out)) (GameState.user_id st) = Some p' /\
      p <= p' <= get_node_count (snd out).
Proof.
  induction commits as [|commit_ok rest IH]; intros db sess st p Hp Hle; simpl.
  - split; [lia|]. exists p. split; [assumption | lia].
  - pose proof (increment_node_count_step commit_ok db sess st) as Hstep.
    destruct (increment_node_count commit_ok db sess st) as [[n [db1 sess1]] st1].
    destruct Hstep as [_ [Hcount [Hid [_ [_ [Hok Hfail]]]]]].
    unfold get_node_count in *.
    assert (Hp1 : exists p1, persisted_node_count db1 (GameState.user_id st1) = Some p1 /\
                             p <= p1 <= GameState._node_count st1).
    { rewrite Hid. destruct commit_ok.
      - exists (GameState._node_count st + 1). split; [now apply Hok | lia].
      - rewrite (Hfail eq_refl). exists p. split; [assumption | lia]. }
    destruct Hp1 as [p1 [Hp1 Hle1]].
    destruct (IH db1 sess1 st1 p1 Hp1 ltac:(lia)) as [Hc [p' [Hp' Hle']]].
    split; [rewrite Hc, Hcount; lia|].
    exists p'. rewrite <- Hid. split; [assumption | lia].
Qed.

(** ** The observer registry *)

Lemma list_remove_first_last (x : Z) (l : list Z) :
  ~ In x l -> list_remove_first x (l ++ [x]) = l.
Proof.
  induction l as [|y l IH]; simpl; intros Hnot.
  - now rewrite Z.eqb_refl.
  - destruct (Z.eqb_spec y x) as [-> | Hne]; [tauto|].
    rewrite IH by tauto. reflexivity.
Qed.

(** X18. The listener registry holds each listener at most once.
    [add_listener] registers a listener unless it is registered already, so
    a registry without duplicates stays without duplicates and adding twice
    is adding once; [remove_listener] then removes it completely; and
    removing a listener that was just added to a registry that did not hold
    it gives the registry back.  Neither touches the current state. *)
Theorem listener_registry_has_no_duplicates {V : Type} (listener : Z)
    (m : GameStateManager.t V) :
  let ls := GameStateManager._listeners m in
  In listener (GameStateManager._listeners (add_listener listener m)) /\
  (List.NoDup ls ->
   List.NoDup (GameStateManager._listeners (add_listener listener m))) /\
  add_listener listener (add_listener listener m) = add_listener listener m /\
  (List.NoDup ls ->
   ~ In listener (GameStateManager._listeners (remove_listener listener m))) /\
  (~ In listener ls -> remove_listener listener (add_listener listener m) = m) /\
  get_state (add_listener listener m) = get_state m /\
  get_state (remove_listener listener m) = get_state m.
Proof.
  intros ls. subst ls. destruct m as [ls state].
  unfold add_listener, remove_listener, get_state. cbn [GameStateManager._listeners
    GameStateManager._current_state].
  destruct (py_in listener ls) eqn:Hin; cbn [negb].
  - apply py_in_In in Hin. cbn [GameStateManager._listeners
      GameStateManager._current_state]. rewrite (proj2 (py_in_In _ _) Hin).
    cbn [negb GameStateManager._listeners GameStateManager._current_state].
    repeat split; try assumption; try tauto.
    intros Hnd. now apply list_remove_first_NoDup.
  - apply py_in_not_In in Hin.
    cbn [GameStateManager._listeners GameStateManager._current_state].
    assert (Hin' : py_in listener (ls ++ [listener]) = true)
      by (apply py_in_In, in_or_app; right; now left).
    rewrite Hin'. cbn [negb GameStateManager._listeners
                       GameStateManager._current_state].
    split; [apply in_or_app; right; now left|].
    split.
    { intros Hnd. apply NoDup_ListNoDup, NoDup_app.
      split; [now apply NoDup_ListNoDup|]. split; [|apply NoDup_singleton].
      intros x Hx [Heq | []]%list_elem_of_In. subst x.
      apply Hin. now apply list_elem_of_In. }
    split; [reflexivity|].
    split; [intros _; assumption|].
    split; [|split; reflexivity].
    intros _. now rewrite list_remove_first_last.
Qed.

(** X19. [update_state] merges and broadcasts: afterwards every key of the
    update has the update's value and every other key keeps its value, the
    registry is unchanged, and every registered listener is notified exactly
    once, in registration order, each with the merged state. *)
Theorem update_state_notifies_every_listener {V : Type}
    (state_update : gmap string V) (m : GameStateManager.t V) :
  let r := update_state state_update m in
  GameStateManager._listeners (fst r) = GameStateManager._listeners m /\
  (forall k v, state_update !! k = Some v -> get_state (fst r) !! k = Some v) /\
  (forall k, state_update !! k = None ->
             get_state (fst r) !! k = get_state m !! k) /\
  map fst (snd r) = GameStateManager._listeners m /\
  (forall note, In note (snd r) -> snd note = get_state (fst r)).
Proof.
  intros r. subst r. unfold update_state, _notify_listeners, get_state.
  cbn [fst snd GameStateManager._listeners GameStateManager._current_state].
  split; [reflexivity|]. split; [|split; [|split]].
  - intros k v Hk. now apply lookup_union_Some_l.
  - intros k Hk. now apply lookup_union_r.
  - rewrite map_map. cbn [fst]. apply map_id.
  - intros note Hnote. apply in_map_iff in Hnote as [l [<- _]]. reflexivity.
Qed.

(** ** Character interactions *)

(** X20. The relationship change of an interaction is bounded: for every
    interaction type it lies between -5 and 3, well inside the documented
    range of -10 to 10, and it is 0 for a type that is not in the table. *)
Theorem relationship_change_is_bounded (interaction_type : string) :
  -5 <= _calculate_relationship_change interaction_type <= 3 /\
  (interaction_changes !! interaction_type = None ->
   _calculate_relationship_change interaction_type = 0).
Proof.
  unfold _calculate_relationship_change. split.
  - destruct (interaction_changes !! interaction_type) as [v|] eqn:Hv;
      simpl; [|lia].
    unfold interaction_changes in Hv.
    apply elem_of_list_to_map_2, list_elem_of_In in Hv. simpl in Hv.
    repeat (destruct Hv as [Hv | Hv]; [injection Hv as _ <-; lia|]).
    contradiction.
  - intros ->. reflexivity.
Qed.

Section UpdateRelationshipsFacts.

Variable update_entry : Type.
Variable apply_change :
  CharacterEvolution.t -> Z -> UserProgress.t -> result (UserProgress.t * update_entry).

Lemma update_relationships_loop_idle (char_evolutions : list CharacterEvolution.t)
    (current_node_id next_node_id : Z) (up : UserProgress.t)
    (updates : list update_entry) :
  update_relationships_loop update_entry apply_change char_evolutions
    current_node_id next_node_id up updates
  = Ok (up, updates).
Proof.
  induction char_evolutions as [|e rest IH]; simpl; [reflexivity | exact IH].
Qed.

(** X21. Story progression changes no relationship: since the change
    computed for a step of the story is always 0, [update_relationships]
    returns the empty list of updates and leaves the store as it was,
    whatever the character evolutions of the story and whatever the code
    applying a change would do. *)
Theorem update_relationships_changes_nothing (db : DB.t) (user_id : string)
    (char_evolutions : list CharacterEvolution.t)
    (current_node_id next_node_id : Z) :
  update_relationships update_entry apply_change db user_id char_evolutions
    current_node_id next_node_id
  = (Ok [], db).
Proof.
  unfold update_relationships.
  destruct (DB.users db !! user_id) as [up|] eqn:Hup; [|reflexivity].
  rewrite update_relationships_loop_idle.
  rewrite (insert_id _ _ _ Hup). now destruct db.
Qed.

End UpdateRelationshipsFacts.

(** ** Choice processing, continued *)

Lemma make_choice_prepare_failure (db : DB.t) (st st1 : GameState.t)
    (fresh_mission_id : Z) (e : exn) :
  make_choice_prepare db st fresh_mission_id = (Raise e, st1) ->
  (st1 = st /\ DB.users db !! GameState.user_id st = None) \/
  reload_state db st = Ok st1.
Proof.
  unfold make_choice_prepare.
  destruct (reload_state db st) as [st0|e0] eqn:Hreload.
  - intros H. right. f_equal.
    destruct (negb (truthy (UserProgress.current_story_id (GameState.user_progress st0))));
      [now injection H|].
    destruct (UserProgress.current_story_id (GameState.user_progress st0)
                ≫= story_get db) as [story|]; [|now injection H].
    destruct (resolve_current_node db st0 (Some (StoryGeneration.id story)))
      as [current_node|]; [|now injection H].
    destruct (first_active_mission db (GameState.user_id st0)) as [mission|];
      (destruct (StoryNode.branch_metadata current_node); [discriminate|]);
      now injection H.
  - intros H. injection H as _ <-. left. split; [reflexivity|].
    unfold reload_state in Hreload.
    now destruct (DB.users db !! GameState.user_id st).
Qed.


Section MakeChoiceMoreFacts.

Variable generate_continuation :
  Continuation.request -> option Continuation.segment.

(** X22. A choice that fails before the generation call (no current story,
    a story or node that cannot be resolved, a current node without
    metadata) raises and changes nothing that counts: the store is as it
    was, the history buffer is as it was, and the node count is not
    incremented, it is the persisted count of the user's row. *)
Theorem make_choice_early_failure_changes_nothing (commit_ok : bool) (db : DB.t)
    (st st1 : GameState.t) (choice_id : string) (custom_choice_text : option string)
    (encountered : option (list CharInfo.t)) (fresh_mission_id fresh_node_id now : Z)
    (e : exn) (up : UserProgress.t) :
  DB.users db !! GameState.user_id st = Some up ->
  make_choice_prepare db st fresh_mission_id = (Raise e, st1) ->
  let out := make_choice generate_continuation commit_ok db st choice_id
               custom_choice_text encountered fresh_mission_id fresh_node_id now in
  fst (fst out) = Raise RuntimeError /\
  snd (fst out) = db /\
  get_node_count (snd out) = UserProgress.node_count up /\
  GameState.user_progress (snd out) = up /\
  GameState._story_history_buffer (snd out) = GameState._story_history_buffer st.
Proof.
  intros Hup Hprep out. subst out.
  unfold make_choice. rewrite Hprep. cbn [fst snd].
  destruct (make_choice_prepare_failure db st st1 fresh_mission_id e Hprep)
    as [[_ Hnone] | Hreload]; [congruence|].
  destruct (reload_state_facts db st st1 Hreload)
    as [up' [Hup' [Hid [Hprog [Hcount Hbuf]]]]].
  rewrite Hup in Hup'. injection Hup' as <-.
  split; [reflexivity|]. split; [reflexivity|].
  unfold expire_user_progress, get_node_count.
  cbn [GameState._node_count GameState.set_user_progress GameState.user_progress
       GameState._story_history_buffer].
  rewrite Hid, Hup. repeat split; assumption.
Qed.




End MakeChoiceMoreFacts.

(** ** The sample session, continued *)

Lemma sample_store_ids_nonzero : store_ids_nonzero Sample.db.
Proof.
  split; intros x Hx; simpl in Hx;
    repeat (destruct Hx as [<- | Hx]; [intros H; vm_compute in H; discriminate H|]);
    contradiction.
Qed.


Lemma sample_lists_exclusive : mission_lists_exclusive Sample.user1.
Proof.
  unfold mission_lists_exclusive. simpl.
  repeat constructor; simpl; intuition discriminate.
Qed.

Lemma fail_mission_active_witness :
  get_mission_by_id Sample.db 7 = Some Sample.mission7 /\
  Mission.status Sample.mission7 = "active" /\
  fst (fail_mission Sample.db 7 "u1" (Some "cover blown") 100) = true.
Proof.
  split; [reflexivity|]. split; [reflexivity|].
  refine (proj1 (fail_mission_active Sample.db 7 "u1" (Some "cover blown") 100
                   Sample.mission7 _ _)); reflexivity.
Defined.

Lemma fail_mission_relationship_witness :
  DB.users Sample.db !! "u1" = Some Sample.user1 /\
  exists up',
    DB.users (snd (fail_mission Sample.db 7 "u1" None 100)) !! "u1" = Some up' /\
    relationship_level up' 11 = relationship_level Sample.user1 11 - 1 /\
    relationship_level up' 12 = relationship_level Sample.user1 12.
Proof.
  split; [reflexivity|].
  destruct (fail_mission_relationship Sample.db 7 "u1" None 100 Sample.mission7
              Sample.user1 eq_refl eq_refl eq_refl) as [up' [Hup' Hlevel]].
  exists up'. split; [exact Hup'|].
  split; rewrite Hlevel; reflexivity.
Defined.

Lemma settled_mission_stays_settled_witness :
  let dc := snd (complete_mission Sample.add_experience_points Sample.db 7 "u1" 100) in
  get_mission_by_id Sample.db 7 = Some Sample.mission7 /\
  complete_mission Sample.add_experience_points dc 7 "u1" 300 = (false, dc) /\
  fail_mission dc 7 "u1" None 300 = (false, dc).
Proof.
  split; [reflexivity|].
  exact (proj1 (settled_mission_stays_settled Sample.add_experience_points
                  Sample.db 7 "u1" "u1" None None 100 300 Sample.mission7
                  eq_refl eq_refl)).
Defined.

Lemma mission_lists_stay_exclusive_witness :
  mission_lists_exclusive Sample.user1 /\
  In 7 (default [] (UserProgress.active_missions Sample.user1)) /\
  exists up',
    DB.users (snd (fail_mission Sample.db 7 "u1" None 100)) !! "u1" = Some up' /\
    mission_lists_exclusive up' /\
    In 7 (default [] (UserProgress.failed_missions up')).
Proof.
  assert (Hin : In (Mission.id Sample.mission7)
                  (default [] (UserProgress.active_missions Sample.user1)))
    by (simpl; now left).
  split; [exact sample_lists_exclusive|]. split; [exact Hin|].
  destruct (proj2 (mission_lists_stay_exclusive Sample.add_experience_points
                     Sample.db 7 "u1" None 100 Sample.mission7 Sample.user1
                     eq_refl eq_refl eq_refl sample_lists_exclusive Hin))
    as [up' [Hup' [Hex [Hfailed _]]]].
  exists up'. repeat split; assumption.
Defined.



Lemma extract_mission_details_shape_witness :
  exists details base,
    extract_mission_details Sample.with_reward (fun _ => true) "briefing"
      (Some [Sample.control]) = Some details /\
    BASE_REWARDS !! MissionDetails.reward_currency details = Some base /\
    In base [1; 1500; 1400; 1450; 150000].
Proof.
  destruct (extract_mission_details Sample.with_reward (fun _ => true) "briefing"
              (Some [Sample.control])) as [details|] eqn:Hdetails;
    [|vm_compute in Hdetails; discriminate Hdetails].
  destruct (extract_mission_details_shape Sample.with_reward (fun _ => true)
              "briefing" (Some [Sample.control]) details Hdetails)
    as [base [Hbase [Hin _]]].
  exists details, base. repeat split; assumption.
Defined.

Lemma transition_to_node_moves_session_witness :
  node_get Sample.db 2 = Some Sample.node2 /\
  GameState.current_node (snd (transition_to_node Sample.db 2 true 101 Sample.state))
  = Some Sample.node2.
Proof.
  split; [reflexivity|].
  exact (proj1 (proj2 (transition_to_node_moves_session Sample.db 2 101 true
                         Sample.state Sample.node2 eq_refl))).
Defined.

Lemma choice_history_grows_without_repeats_witness :
  exists st',
    run_transitions Sample.steps Sample.state = Some st' /\
    choice_history_of Sample.state `prefix_of` choice_history_of st'.
Proof.
  destruct (run_transitions Sample.steps Sample.state) as [st'|] eqn:Hrun;
    [|vm_compute in Hrun; discriminate Hrun].
  exists st'. split; [reflexivity|].
  exact (proj1 (choice_history_grows_without_repeats Sample.steps Sample.state st'
                  Hrun)).
Defined.

Lemma encountered_characters_survive_runs_witness :
  exists st',
    run_transitions Sample.steps Sample.state = Some st' /\
    encountered (GameState.user_progress Sample.state) !! "11" = Some Sample.old_ivan /\
    encountered (GameState.user_progress st') !! "11" = Some Sample.old_ivan.
Proof.
  destruct (run_transitions Sample.steps Sample.state) as [st'|] eqn:Hrun;
    [|vm_compute in Hrun; discriminate Hrun].
  exists st'. split; [reflexivity|]. split; [reflexivity|].
  exact (encountered_characters_survive_runs Sample.steps Sample.state st' "11"
           Sample.old_ivan Hrun eq_refl).
Defined.

Lemma history_buffer_keeps_everything_while_short_witness :
  exists st',
    run_transitions (take 2 Sample.steps) Sample.state = Some st' /\
    map HistoryEntry.id (GameState._story_history_buffer st') = [1; 2].
Proof.
  destruct (run_transitions (take 2 Sample.steps) Sample.state) as [st'|] eqn:Hrun;
    [|vm_compute in Hrun; discriminate Hrun].
  exists st'. split; [reflexivity|].
  rewrite (history_buffer_keeps_everything_while_short (take 2 Sample.steps)
             Sample.state st' Hrun); [reflexivity|].
  simpl. lia.
Defined.

Lemma resolve_current_node_stays_in_story_witness :
  exists n,
    resolve_current_node Sample.db Sample.state None = Some n /\
    In n (DB.nodes Sample.db) /\
    StoryGeneration.id <$> GameState.current_story Sample.state
    = Some (StoryNode.story_id n).
Proof.
  destruct (resolve_current_node Sample.db Sample.state None) as [n|] eqn:Hn;
    [|vm_compute in Hn; discriminate Hn].
  exists n. split; [reflexivity|].
  destruct (resolve_current_node_stays_in_story Sample.db Sample.state None n Hn)
    as [Hin [_ [_ Hstory]]].
  split; [exact Hin | exact (Hstory eq_refl)].
Defined.

Lemma resolve_after_transition_witness :
  node_get Sample.db 5 = Some Sample.node5 /\
  resolve_current_node Sample.db
    (snd (transition_to_node Sample.db 5 true 104 Sample.state)) (Some 1)
  = Some Sample.node5.
Proof.
  split; [reflexivity|].
  refine (resolve_after_transition Sample.db 5 104 Sample.state Sample.node5
            sample_store_ids_nonzero eq_refl _).
  eexists; reflexivity.
Defined.

Lemma reload_state_idempotent_witness :
  exists st1,
    reload_state Sample.db Sample.state = Ok st1 /\
    reload_state Sample.db st1 = Ok st1.
Proof.
  destruct (reload_state Sample.db Sample.state) as [st1|e] eqn:Hreload;
    [|vm_compute in Hreload; discriminate Hreload].
  exists st1. split; [reflexivity|].
  exact (proj1 (reload_state_idempotent Sample.db Sample.state st1 Hreload)).
Defined.

Lemma node_count_is_monotonic_witness :
  persisted_node_count Sample.db "u1" = Some 0 /\
  get_node_count
    (snd (increment_node_count_many [true; false; true] Sample.db Sample.db
            Sample.state))
  = 3.
Proof.
  split; [reflexivity|].
  refine (proj1 (node_count_is_monotonic [true; false; true] Sample.db Sample.db
                   Sample.state 0 eq_refl _)).
  simpl. lia.
Defined.

Lemma listener_registry_has_no_duplicates_witness :
  List.NoDup (GameStateManager._listeners SampleMore.manager) /\
  List.NoDup (GameStateManager._listeners (add_listener 2 SampleMore.manager)) /\
  List.NoDup (GameStateManager._listeners (add_listener 3 SampleMore.manager)).
Proof.
  assert (Hnodup : List.NoDup (GameStateManager._listeners SampleMore.manager))
    by (simpl; repeat constructor; simpl; intuition discriminate).
  split; [exact Hnodup|].
  split.
  - exact (proj1 (proj2 (listener_registry_has_no_duplicates 2 SampleMore.manager))
             Hnodup).
  - exact (proj1 (proj2 (listener_registry_has_no_duplicates 3 SampleMore.manager))
             Hnodup).
Defined.

Lemma make_choice_early_failure_changes_nothing_witness :
  exists e st1,
    make_choice_prepare SampleMore.db_without_metadata Sample.state 9 = (Raise e, st1) /\
    let out := make_choice Sample.generation_answers true
                 SampleMore.db_without_metadata Sample.state "1" None None 9 7 200 in
    fst (fst out) = Raise RuntimeError /\
    snd (fst out) = SampleMore.db_without_metadata /\
    get_node_count (snd out) = 0.
Proof.
  destruct (make_choice_prepare SampleMore.db_without_metadata Sample.state 9)
    as [[ctx|e] st1] eqn:Hprep; [vm_compute in Hprep; discriminate Hprep|].
  exists e, st1. split; [reflexivity|].
  destruct (make_choice_early_failure_changes_nothing Sample.generation_answers
              true SampleMore.db_without_metadata Sample.state st1 "1" None None
              9 7 200 e Sample.user1 eq_refl Hprep) as [Hres [Hdb [Hcount _]]].
  repeat split; assumption.
Defined.

